(** * VisionFlow: derived state, task rollover and reflection handlers

    A shallow embedding of the logic of [src/script.js] (the React component
    [VisionFlow]) and the properties of its derived-state aggregator, its
    task rollover and its reflection and task handlers.

    Conventions of the embedding.
    - JavaScript numbers are mathematical integers ([Z]) or [NaN]; this is
      exact for integers of magnitude below 2^53, which covers minute counts,
      moods and percentages.  The weekly percentage, a quotient multiplied
      by 100, is computed in binary64 arithmetic, each operation rounded to
      the nearest double; the average completion, one quotient that the code
      rounds to an integer, is kept as numerator and denominator; other
      fractional doubles are outside the model.
    - JavaScript strings are [string]; field values read from the remote
      store that the code does not force to a type are [JsVal].
    - React state is passed explicitly: a handler maps the state it closes
      over to the state after its setter calls.
    - The clock and the time zone of the host are parameters. *)

From Stdlib Require Import ZArith Lia Ascii String List Sorted Permutation.
From Stdlib Require SpecFloat.
From stdpp Require Import base decidable list gmap strings pretty.

Local Open Scope string_scope.
Local Open Scope list_scope.
Local Open Scope Z_scope.

(** ** JavaScript values and [parseInt] *)

Inductive Number : Type :=
  | NaN : Number
  | Num (n : Z) : Number.

Inductive JsVal : Type :=
  | JUndefined : JsVal              (* the field is missing *)
  | JNull : JsVal
  | JBool (b : bool) : JsVal
  | JNumber (x : Number) : JsVal
  | JStr (s : string) : JsVal
  | JObject : JsVal.                (* a plain object, e.g. a stored map *)

Definition JNum (n : Z) : JsVal := JNumber (Num n).

(** [ToString] of the language standard, as [parseInt] applies it to its
    argument.  An integer prints in decimal notation (magnitudes from 10^21
    on print with an exponent and are outside the model). *)
Definition ToString (v : JsVal) : string :=
  match v with
  | JUndefined => "undefined"
  | JNull => "null"
  | JBool true => "true"
  | JBool false => "false"
  | JNumber NaN => "NaN"
  | JNumber (Num n) => pretty n
  | JStr s => s
  | JObject => "[object Object]"
  end.

(** The ASCII members of the standard's white space and line terminators:
    TAB, LF, VT, FF, CR and SP. *)
Definition isWhiteSpace (c : ascii) : bool :=
  let n := N_of_ascii c in
  ((9 <=? n) && (n <=? 13) || (n =? 32))%N.

Fixpoint trimStart (s : string) : string :=
  match s with
  | String c r => if isWhiteSpace c then trimStart r else s
  | EmptyString => s
  end.

(** The value of a character as a digit in a radix up to 36. *)
Definition digitValue (c : ascii) : option Z :=
  let n := Z.of_N (N_of_ascii c) in
  if (48 <=? n) && (n <=? 57) then Some (n - 48)
  else if (97 <=? n) && (n <=? 122) then Some (n - 87)
  else if (65 <=? n) && (n <=? 90) then Some (n - 55)
  else None.

Definition radixDigit (R : Z) (c : ascii) : option Z :=
  match digitValue c with
  | Some v => if v <? R then Some v else None
  | None => None
  end.

(** The longest prefix of radix-[R] digits, read left to right; [acc] is
    [NaN] while no digit has been read. *)
Fixpoint parseDigits (R : Z) (acc : Number) (s : string) : Number :=
  match s with
  | String c r =>
      match radixDigit R c with
      | Some v =>
          parseDigits R (Num (match acc with NaN => v | Num a => a * R + v end)) r
      | None => acc
      end
  | EmptyString => acc
  end.

Definition stripSign (s : string) : Z * string :=
  match s with
  | String "-" r => (-1, r)
  | String "+" r => (1, r)
  | _ => (1, s)
  end.

Definition stripHexPrefix (s : string) : Z * string :=
  match s with
  | String "0" (String "x" r) => (16, r)
  | String "0" (String "X" r) => (16, r)
  | _ => (10, s)
  end.

(** [parseInt(string)] with no radix argument. *)
Definition parseIntString (input : string) : Number :=
  let '(sign, s1) := stripSign (trimStart input) in
  let '(R, s2) := stripHexPrefix s1 in
  match parseDigits R NaN s2 with
  | NaN => NaN
  | Num mathInt => Num (sign * mathInt)
  end.

Definition parseInt (v : JsVal) : Number := parseIntString (ToString v).

(** [x || 0] for a number [x]: [NaN] and zero are falsy. *)
Definition orZero (x : Number) : Z :=
  match x with
  | NaN => 0
  | Num n => if n =? 0 then 0 else n
  end.

(** ** Data model *)

Record Task : Type := mkTask {
  task_id : string;
  task_date : string;
  title : string;
  category : string;       (* a missing category is falsy, like [""] *)
  subCategory : string;
  estTime : JsVal;
  status : string
}.

Record Reflection : Type := mkReflection {
  ref_id : string;
  ref_date : string;
  completion : Number;
  mood : Number;
  overloaded : bool;
  notes : option string    (* [null] when the form has no such entry *)
}.

(** ** Derived state *)

(** [tasks.filter(t => t.date === selectedDate)] *)
Definition viewedTasks (tasks : list Task) (selectedDate : string) : list Task :=
  filter (λ t, task_date t = selectedDate) tasks.

(** The minutes one task adds to the total: [parseInt(t.estTime) || 0]. *)
Definition estMinutes (t : Task) : Z := orZero (parseInt (estTime t)).

Record OverloadStats : Type := mkOverloadStats {
  totalMins : Z;
  totalTasks : nat;
  isOverloaded : bool
}.

(** [overloadStats]: the [forEach] loop adds to the mutable [totalMins];
    [totalHours], a formatted decimal, is a display string and is left out. *)
Definition overloadStats (viewed : list Task) : OverloadStats :=
  let totalMins := fold_left (λ acc t, acc + estMinutes t) viewed 0 in
  {| totalMins := totalMins;
     totalTasks := length viewed;
     isOverloaded := (480 <? totalMins) || (6 <? Z.of_nat (length viewed)) |}.

(** ** Dates

    A [Date] object is modelled by the calendar day it denotes; the two
    readings the code mixes (local time for [new Date(s + 'T12:00:00')],
    [getDate] and [setDate]; UTC for [toISOString] and for the date-only
    form [new Date(s)]) are kept apart by the host's time zone offset. *)

Record Civil : Type := mkCivil {
  year : Z;
  month : Z;     (* 1 to 12 *)
  day : Z        (* 1 to the length of the month *)
}.

Definition isLeapYear (y : Z) : bool :=
  (y mod 4 =? 0) && (negb (y mod 100 =? 0) || (y mod 400 =? 0)).

Definition daysInMonth (y m : Z) : Z :=
  if m =? 2 then (if isLeapYear y then 29 else 28)
  else if (m =? 4) || (m =? 6) || (m =? 9) || (m =? 11) then 30
  else 31.

Definition validCivil (c : Civil) : bool :=
  (0 <=? year c) && (year c <=? 9999) &&
  (1 <=? month c) && (month c <=? 12) &&
  (1 <=? day c) && (day c <=? daysInMonth (year c) (month c)).

(** The calendar day after [c]: what [setDate(getDate() + 1)] denotes. *)
Definition nextDay (c : Civil) : Civil :=
  if day c <? daysInMonth (year c) (month c) then mkCivil (year c) (month c) (day c + 1)
  else if month c <? 12 then mkCivil (year c) (month c + 1) 1
  else mkCivil (year c + 1) 1 1.

Definition prevDay (c : Civil) : Civil :=
  if 1 <? day c then mkCivil (year c) (month c) (day c - 1)
  else if 1 <? month c then mkCivil (year c) (month c - 1) (daysInMonth (year c) (month c - 1))
  else mkCivil (year c - 1) 12 31.

(** [k] days after (before, for negative [k]) the day [c]. *)
Definition addDays (k : Z) (c : Civil) : Civil :=
  match k with
  | Z0 => c
  | Zpos p => Pos.iter nextDay c p
  | Zneg p => Pos.iter prevDay c p
  end.

Definition decimalDigit (c : ascii) : option Z :=
  let n := Z.of_N (N_of_ascii c) in
  if (48 <=? n) && (n <=? 57) then Some (n - 48) else None.

Fixpoint decimalDigits (acc : Z) (cs : list ascii) : option Z :=
  match cs with
  | [] => Some acc
  | c :: cs' =>
      match decimalDigit c with
      | Some v => decimalDigits (acc * 10 + v) cs'
      | None => None
      end
  end.

(** The date-only form [YYYY-MM-DD] of the standard's date-time string
    format, as a date input field produces it.  Any other string, and a day
    the month does not have, is an Invalid Date here (for these, engines
    differ; no property below depends on them). *)
Definition parseISODate (s : string) : option Civil :=
  match list_ascii_of_string s with
  | [y1; y2; y3; y4; h1; m1; m2; h2; d1; d2] =>
      if Ascii.eqb h1 "-" && Ascii.eqb h2 "-" then
        match decimalDigits 0 [y1; y2; y3; y4], decimalDigits 0 [m1; m2],
              decimalDigits 0 [d1; d2] with
        | Some y, Some m, Some d =>
            let c := mkCivil y m d in
            if validCivil c then Some c else None
        | _, _, _ => None
        end
      else None
  | _ => None
  end.

(** Decimal digits of a natural number, left-padded with zeros. *)
Definition padStart (width : nat) (n : Z) : string :=
  let s := pretty n in
  string_of_list_ascii (replicate (width - String.length s) "0"%char) +:+ s.

(** The part of [toISOString()] before the ['T']: four digits for the years
    0 to 9999, a sign and six digits otherwise. *)
Definition isoDate (c : Civil) : string :=
  let y := year c in
  let ys := if (0 <=? y) && (y <=? 9999) then padStart 4 y
            else (if y <? 0 then "-" else "+") +:+ padStart 6 (Z.abs y) in
  ys +:+ "-" +:+ padStart 2 (month c) +:+ "-" +:+ padStart 2 (day c).

(** [getNextDayStr].  [timezoneOffset c] is what [getTimezoneOffset()]
    returns at local noon of the day [c]: the minutes to add to local time
    to reach UTC.  [toISOString] prints the UTC day of that instant, which
    is the local day moved by the whole days in [12:00 + offset].  [None]
    is the RangeError that [toISOString] throws on an Invalid Date. *)
Definition getNextDayStr (timezoneOffset : Civil -> Z) (dateStr : string)
    : option string :=
  match parseISODate dateStr with          (* new Date(dateStr + 'T12:00:00') *)
  | None => None
  | Some d =>
      let d' := nextDay d in               (* d.setDate(d.getDate() + 1) *)
      let utcMinutes := 12 * 60 + timezoneOffset d' in
      Some (isoDate (addDays (utcMinutes / 1440) d'))
  end.

(** [getTodayStr].  The clock reads minute [utcMinutes] of the UTC day
    [utcDay]; [setMinutes(getMinutes() - getTimezoneOffset())] moves the
    instant by the offset, so the UTC day that [toISOString] prints is the
    local day. *)
Definition getTodayStr (utcDay : Civil) (utcMinutes : Z) (timezoneOffset : Z)
    : string :=
  isoDate (addDays ((utcMinutes - timezoneOffset) / 1440) utcDay).

(** Day number since 1970-01-01 of a calendar day (the standard's
    [DayFromYear] plus the day within the year). *)
Definition dayFromYear (y : Z) : Z :=
  365 * (y - 1970) + (y - 1969) / 4 - (y - 1901) / 100 + (y - 1601) / 400.

Definition daysBeforeMonth (y m : Z) : Z :=
  fold_left (λ acc k, acc + daysInMonth y (Z.of_nat k)) (seq 1 (Z.to_nat m - 1)) 0.

Definition dayNumber (c : Civil) : Z :=
  dayFromYear (year c) + daysBeforeMonth (year c) (month c) + (day c - 1).

Definition msPerDay : Z := 86400000.

(** The time value of [new Date(s)] for a date-only string: UTC midnight;
    [NaN] for an Invalid Date. *)
Definition dateTimeValue (s : string) : Number :=
  match parseISODate s with
  | Some c => Num (dayNumber c * msPerDay)
  | None => NaN
  end.

(** ** Reminder windows *)

Definition isMorningReviewTime (currentHour currentMinute : Z) : bool :=
  (currentHour =? 9) && (30 <=? currentMinute) && (currentHour <? 12).

Definition isEveningReflectionTime (currentHour currentMinute : Z) : bool :=
  (22 <=? currentHour) || ((currentHour =? 22) && (30 <=? currentMinute)).

(** The guard of the morning banner in [renderDailyView]:
    [isMorningReviewTime && selectedDate === actualTodayStr]. *)
Definition morningBannerVisible (currentHour currentMinute : Z)
    (selectedDate actualTodayStr : string) : bool :=
  isMorningReviewTime currentHour currentMinute
  && bool_decide (selectedDate = actualTodayStr).

(** The guard of the reflection banner in [renderReflectionView]:
    [(isEveningReflectionTime || true)]. *)
Definition eveningBannerVisible (currentHour currentMinute : Z) : bool :=
  isEveningReflectionTime currentHour currentMinute || true.

(** ** Application state and handlers *)

Record TaskForm : Type := mkTaskForm {
  form_title : string;
  form_subCategory : string;
  form_estTime : string
}.

Record AppState : Type := mkAppState {
  categories : gmap string (list string);
  tasks : list Task;
  reflections : list Reflection;
  selectedDate : string;
  selectedMainCat : string;
  taskForm : TaskForm
}.

Definition setCategories (v : gmap string (list string)) (st : AppState) : AppState :=
  mkAppState v (tasks st) (reflections st) (selectedDate st) (selectedMainCat st) (taskForm st).
Definition setTasks (v : list Task) (st : AppState) : AppState :=
  mkAppState (categories st) v (reflections st) (selectedDate st) (selectedMainCat st) (taskForm st).
Definition setReflections (v : list Reflection) (st : AppState) : AppState :=
  mkAppState (categories st) (tasks st) v (selectedDate st) (selectedMainCat st) (taskForm st).
Definition setTaskForm (v : TaskForm) (st : AppState) : AppState :=
  mkAppState (categories st) (tasks st) (reflections st) (selectedDate st) (selectedMainCat st) v.

(** The categories after the guarded [setCategories] of [handleAddTask]. *)
Definition autoSaveSubCategory (cats : gmap string (list string))
    (mainCat subCat : string) : gmap string (list string) :=
  match cats !! mainCat with
  | Some subs =>
      if bool_decide (subCat ∈ subs) then cats
      else <[mainCat := subs ++ [subCat]]> cats
  | None => cats
  end.

(** [taskForm.subCategory || 'General'] *)
Definition subCategoryOf (f : TaskForm) : string :=
  if bool_decide (form_subCategory f = "") then "General" else form_subCategory f.

(** [handleAddTask]; [now] is [Date.now()]. *)
Definition handleAddTask (now : Z) (st : AppState) : AppState :=
  let mainCat := selectedMainCat st in
  let subCat := subCategoryOf (taskForm st) in
  let newTask :=
    {| task_id := pretty now;
       task_date := selectedDate st;
       title := form_title (taskForm st);
       category := mainCat;
       subCategory := subCat;
       estTime := JNumber (parseIntString (form_estTime (taskForm st)));
       status := "Not Started" |} in
  setTaskForm (mkTaskForm "" (form_subCategory (taskForm st)) "")
    (setTasks (tasks st ++ [newTask])
       (setCategories (autoSaveSubCategory (categories st) mainCat subCat) st)).

(** The [onChange] handlers of the task form: the title and minutes
    fields, and the main category selector, which also clears the
    sub-category. *)
Definition changeTitle (v : string) (st : AppState) : AppState :=
  setTaskForm (mkTaskForm v (form_subCategory (taskForm st))
                 (form_estTime (taskForm st))) st.

Definition changeEstTime (v : string) (st : AppState) : AppState :=
  setTaskForm (mkTaskForm (form_title (taskForm st))
                 (form_subCategory (taskForm st)) v) st.

Definition changeMainCat (v : string) (st : AppState) : AppState :=
  let st' := mkAppState (categories st) (tasks st) (reflections st)
               (selectedDate st) v (taskForm st) in
  setTaskForm (mkTaskForm (form_title (taskForm st)) "" (form_estTime (taskForm st)))
    st'.

(** A submitted form: its entries in order; [get] returns the first value
    stored under a name, or [null]. *)
Definition FormData : Type := list (string * string).

Fixpoint formData_get (fd : FormData) (name : string) : option string :=
  match fd with
  | [] => None
  | (k, v) :: fd' => if bool_decide (k = name) then Some v else formData_get fd' name
  end.

Definition parseIntField (o : option string) : Number :=
  match o with
  | Some s => parseIntString s
  | None => parseInt JNull
  end.

Definition withDate (t : Task) (d : string) : Task :=
  mkTask (task_id t) d (title t) (category t) (subCategory t) (estTime t) (status t).

(** The condition of the rollover:
    [t.date === selectedDate && t.status !== 'Done' &&
     formData.get(`recycle_${t.id}`) === 'on']. *)
Definition shouldRecycle (selectedDate : string) (formData : FormData) (t : Task) : bool :=
  bool_decide (task_date t = selectedDate)
  && negb (bool_decide (status t = "Done"))
  && bool_decide (formData_get formData ("recycle_" +:+ task_id t) = Some "on").

(** One call of the [map] callback: it returns the task of the new array
    and counts in the mutable [recycledCount]. *)
Definition rolloverStep (selectedDate : string) (formData : FormData)
    (nextDayStr : string) (acc : nat * list Task) (t : Task) : nat * list Task :=
  let '(recycledCount, out) := acc in
  if shouldRecycle selectedDate formData t
  then (S recycledCount, out ++ [withDate t nextDayStr])
  else (recycledCount, out ++ [t]).

Definition rollover (selectedDate : string) (formData : FormData)
    (nextDayStr : string) (tasks : list Task) : nat * list Task :=
  fold_left (rolloverStep selectedDate formData nextDayStr) tasks (O, []).

(** What the handler tells the user, or the exception that ends it. *)
Inductive Outcome : Type :=
  | AlertRolledOver (recycledCount : nat) (tomorrow : bool)
  | AlertSaved
  | ThrewRangeError.

(** The reflections after [setReflections([...updated, newRef])]. *)
Definition replaceReflection (reflections : list Reflection) (newRef : Reflection)
    : list Reflection :=
  filter (λ r, ref_date r ≠ ref_date newRef) reflections ++ [newRef].

(** The record [newRef] that [saveReflection] builds from the form. *)
Definition newReflection (now : Z) (formData : FormData) (selectedDate : string)
    : Reflection :=
  {| ref_id := pretty now;
     ref_date := selectedDate;
     completion := parseIntField (formData_get formData "completion");
     mood := parseIntField (formData_get formData "mood");
     overloaded := bool_decide (formData_get formData "overloaded" = Some "on");
     notes := formData_get formData "notes" |}.

(** [saveReflection]; [now] is [Date.now()].  The reflection is stored
    before the next day is computed, so it stays stored when
    [getNextDayStr] throws. *)
Definition saveReflection (now : Z) (timezoneOffset : Civil -> Z)
    (actualTodayStr : string) (formData : FormData) (st : AppState)
    : AppState * Outcome :=
  let newRef := newReflection now formData (selectedDate st) in
  let st1 := setReflections (replaceReflection (reflections st) newRef) st in
  match getNextDayStr timezoneOffset (selectedDate st) with
  | None => (st1, ThrewRangeError)
  | Some nextDayStr =>
      let '(recycledCount, updatedTasks) :=
        rollover (selectedDate st) formData nextDayStr (tasks st) in
      if (0 <? recycledCount)%nat
      then (setTasks updatedTasks st1,
            AlertRolledOver recycledCount (bool_decide (selectedDate st = actualTodayStr)))
      else (st1, AlertSaved)
  end.

(** ** Dashboard *)

(** The comparator [(a, b) => new Date(a.date) - new Date(b.date)]. *)
Definition compareByDate (a b : Reflection) : Number :=
  match dateTimeValue (ref_date a), dateTimeValue (ref_date b) with
  | Num ta, Num tb => Num (ta - tb)
  | _, _ => NaN
  end.

(** [v > 0] for a comparator result; false on [NaN], which [sort] reads
    as zero. *)
Definition isPositive (v : Number) : bool :=
  match v with
  | Num n => 0 <? n
  | NaN => false
  end.

(** [Array.prototype.sort] is stable: an element moves behind exactly the
    elements the comparator puts strictly before it.  Stable insertion is
    the reference behaviour; with a consistent comparator every stable sort
    returns the same array. *)
Fixpoint insertSorted {A : Type} (cmp : A -> A -> Number) (x : A) (l : list A) : list A :=
  match l with
  | [] => [x]
  | y :: l' => if isPositive (cmp x y) then y :: insertSorted cmp x l' else x :: l
  end.

Fixpoint sortBy {A : Type} (cmp : A -> A -> Number) (l : list A) : list A :=
  match l with
  | [] => []
  | x :: l' => insertSorted cmp x (sortBy cmp l')
  end.

(** [slice(-n)]: the last [n] elements. *)
Definition sliceLast {A : Type} (n : nat) (l : list A) : list A :=
  drop (length l - n) l.

Definition last7Reflections (reflections : list Reflection) : list Reflection :=
  sliceLast 7 (sortBy compareByDate reflections).

Definition maxPoints : nat := 7.

(** [Array(maxPoints - last7Reflections.length).fill(5)
      .concat(last7Reflections.map(r => r.mood))] *)
Definition paddedMoods (reflections : list Reflection) : list Number :=
  let last7 := last7Reflections reflections in
  replicate (maxPoints - length last7) (Num 5) ++ map mood last7.

(** [tasks.filter(t => new Date(t.date) >= last7DaysDate)]; [cutoff] is the
    time value of [last7DaysDate], the clock seven days back.  A comparison
    with [NaN] is false. *)
Definition notBefore (cutoff : Z) (t : Task) : bool :=
  match dateTimeValue (task_date t) with
  | Num tv => cutoff <=? tv
  | NaN => false
  end.

Definition weeklyTasks (cutoff : Z) (tasks : list Task) : list Task :=
  filter (λ t, notBefore cutoff t) tasks.

(** One step of the bucketing loop: [cat = t.category || 'Other'], a bucket
    that is [undefined] starts at 0. *)
Definition addToBucket (m : gmap string Z) (t : Task) : gmap string Z :=
  let cat := if bool_decide (category t = "") then "Other" else category t in
  <[cat := default 0 (m !! cat) + estMinutes t]> m.

(** [weeklyTimeByCategory]: every key of [categories] starts at 0, then the
    weekly tasks are added in. *)
Definition weeklyTimeByCategory (cats : gmap string (list string))
    (weekly : list Task) : gmap string Z :=
  fold_left addToBucket weekly ((λ _, 0) <$> cats).

(** [Object.values(o).reduce((a, b) => a + b, 0)] *)
Definition sumValues (m : gmap string Z) : Z :=
  fold_left Z.add (map snd (map_to_list m)) 0.

(** [... || 1]: a zero sum is replaced by 1. *)
Definition totalWeeklyTime (m : gmap string Z) : Z :=
  let total := sumValues m in
  if total =? 0 then 1 else total.

(** [Math.round(x)] for the quotient [x = num / den], [0 < den]: the
    integer nearest to [x], a tie going up. *)
Definition roundRatio (num den : Z) : Z := (2 * num + den) / (2 * den).

(** Binary64 arithmetic on the quotients the legend needs.  A positive
    double is written as a fraction whose denominator is a power of two.

    [roundHalfEven num den] is the integer nearest to [num / den], a tie
    going to the even one (the rounding of every arithmetic operation). *)
Definition roundHalfEven (num den : Z) : Z :=
  let q := num / den in
  let r := num mod den in
  if 2 * r <? den then q
  else if den <? 2 * r then q + 1
  else if Z.even q then q else q + 1.

(** The exponent [e] of the last of the 53 bits of the double nearest to
    [num / den]: the one with [2^52 <= num / (den * 2^e) < 2^53].  The
    quotients of integers below 2^53 are far from underflow and overflow. *)
Definition ulpExponent (num den : Z) : Z :=
  let e0 := Z.log2 num - Z.log2 den - 53 in
  if 2 ^ 53 * (den * 2 ^ Z.max 0 e0) <=? num * 2 ^ Z.max 0 (- e0)
  then e0 + 1 else e0.

(** The double nearest to [num / den], for positive [num] and [den]: the
    mantissa [roundHalfEven (num / (den * 2^e))] times [2^e], as numerator
    and denominator. *)
Definition binary64 (num den : Z) : Z * Z :=
  let e := ulpExponent num den in
  (roundHalfEven (num * 2 ^ Z.max 0 (- e)) (den * 2 ^ Z.max 0 e) * 2 ^ Z.max 0 e,
   2 ^ Z.max 0 (- e)).

(** [Math.round((time / totalWeeklyTime) * 100)]: the quotient is rounded
    to a double, its product with 100 is rounded to a double, and
    [Math.round] takes the nearest integer, a tie going up.  Division and
    multiplication round the magnitude and keep the sign.  ([total] is
    never 0: it is a [totalWeeklyTime].) *)
Definition weeklyPercent (time total : Z) : Z :=
  let quotient := binary64 (Z.abs time) (Z.abs total) in
  let product := binary64 (fst quotient * 100) (snd quotient) in
  roundRatio (Z.sgn time * Z.sgn total * fst product) (snd product).

(** The rows of the legend:
    [Object.entries(weeklyTimeByCategory).filter(([_, time]) => time > 0)]
    with the percentage shown in each. *)
Definition legendRows (m : gmap string Z) : list (string * Z) :=
  map (λ e, (fst e, weeklyPercent (snd e) (totalWeeklyTime m)))
      (filter (λ e, 0 < snd e) (map_to_list m)).

(** The panel shows the legend when [totalWeeklyTime > 1] and the text
    "No tasks this week" otherwise. *)
Definition weeklyFocusPanel (m : gmap string Z) : option (list (string * Z)) :=
  if 1 <? totalWeeklyTime m then Some (legendRows m) else None.

(** ** Reference definitions, following the specification's wording *)

(** The sum of the estimated minutes of the tasks dated [d]. *)
Fixpoint minutesOn (d : string) (tasks : list Task) : Z :=
  match tasks with
  | [] => 0
  | t :: rest =>
      (if bool_decide (task_date t = d) then estMinutes t else 0) + minutesOn d rest
  end.

(** The number of the tasks dated [d]. *)
Fixpoint countOn (d : string) (tasks : list Task) : Z :=
  match tasks with
  | [] => 0
  | t :: rest => (if bool_decide (task_date t = d) then 1 else 0) + countOn d rest
  end.

(** The sum of a list of integers. *)
Definition sumZ (l : list Z) : Z := foldr Z.add 0 l.

(** The number of reflections dated [d]. *)
Definition countDated (d : string) (rs : list Reflection) : nat :=
  length (filter (λ r, ref_date r = d) rs).

(** At most one reflection per date. *)
Definition onePerDate (rs : list Reflection) : Prop :=
  forall d, (countDated d rs <= 1)%nat.

(** What the rollover makes of one task once the next day is known. *)
Definition rolled (selectedDate : string) (formData : FormData) (nextDayStr : string)
    (t : Task) : Task :=
  if shouldRecycle selectedDate formData t then withDate t nextDayStr else t.

(** No main category lists a sub-category twice. *)
Definition noDuplicateSubs (cats : gmap string (list string)) : Prop :=
  forall mainCat subs, cats !! mainCat = Some subs -> NoDup subs.

(** The number of times [x] occurs in [l]. *)
Definition occurrences (x : string) (l : list string) : nat :=
  length (filter (λ y, y = x) l).

(** [a] may stand before [b] in an array sorted by date: the comparator
    does not put [b] strictly first. *)
Definition notAfter (a b : Reflection) : Prop :=
  isPositive (compareByDate a b) = false.

(** The time value of the date of a reflection whose date is valid. *)
Definition timeOf (r : Reflection) : Z :=
  match dateTimeValue (ref_date r) with
  | Num tv => tv
  | NaN => 0
  end.

Definition hasValidDate (r : Reflection) : Prop :=
  dateTimeValue (ref_date r) <> NaN.

(** The buckets with a non-zero time. *)
Definition nonZeroBuckets (m : gmap string Z) : list (string * Z) :=
  filter (λ e, snd e <> 0) (map_to_list m).

(** The rounded percentages of a list of buckets. *)
Definition percentages (total : Z) (buckets : list (string * Z)) : list Z :=
  map (λ e, weeklyPercent (snd e) total) buckets.

(** ** Reference binary64 arithmetic *)

(** The same percentage computed with the binary64 operations of the
    standard library's reference implementation of IEEE 754
    ([SpecFloat], precision 53 and maximal exponent 1024): the integers are
    converted to doubles, divided, multiplied by 100 and rounded as
    [Math.round] does. *)
Definition doubleOfZ (n : Z) : SpecFloat.spec_float :=
  SpecFloat.binary_normalize 53 1024 n 0 false.

Definition mathRound (x : SpecFloat.spec_float) : Z :=
  match x with
  | SpecFloat.S754_finite negative m e =>
      roundRatio ((if negative then -1 else 1) * Z.pos m * 2 ^ Z.max 0 e)
        (2 ^ Z.max 0 (- e))
  | _ => 0
  end.

Definition referencePercent (time total : Z) : Z :=
  mathRound (SpecFloat.SFmul 53 1024
               (SpecFloat.SFdiv 53 1024 (doubleOfZ time) (doubleOfZ total))
               (doubleOfZ 100)).

(** The pairs of a time from [-n] to [n] and a non-zero total from [-n]
    to [n], and some pairs of large integers. *)
Definition percentGrid (n : Z) : list (Z * Z) :=
  list_prod (map (λ i, Z.of_nat i - n) (seq 0 (Z.to_nat (2 * n + 1))))
    (filter (λ total, total <> 0)
       (map (λ i, Z.of_nat i - n) (seq 0 (Z.to_nat (2 * n + 1))))).

Definition largePairs : list (Z * Z) :=
  [(2 ^ 50 + 12345, 3); (2 ^ 52 + 1, 1); (2 ^ 53 - 1, 7); (1, 2 ^ 53 - 1);
   (123456789012345, 987654321); (987654321, 123456789012345);
   (2 ^ 44 - 1, 2 ^ 44 + 1); (- (2 ^ 51 + 3), 5); (7, - (2 ^ 40 + 9));
   (1, 3); (2, 3); (1, 7); (999999999999, 1000000000000)].

(** ** Sample data *)

Definition sampleTaskIn (cat d : string) (minutes : JsVal) : Task :=
  mkTask "1711886400000" d "Write report" cat "General" minutes "Not Started".

Definition sampleTask (d : string) (minutes : JsVal) : Task :=
  sampleTaskIn "Work" d minutes.

(** The time value of 2024-03-25T00:00Z, seven days before the sample
    dates end. *)
Definition sampleCutoff : Z := 1711324800000.

(** Three tasks of ten minutes in three categories: a third of the week
    each. *)
Definition thirds : list Task :=
  [sampleTaskIn "Work" "2024-03-29" (JNum 10);
   sampleTaskIn "Wellness" "2024-03-30" (JNum 10);
   sampleTaskIn "Learning" "2024-03-31" (JNum 10)].

(** A week without planned time: a task of 0 minutes, and one of 45
    minutes that is older than the week. *)
Definition idleWeek : list Task :=
  [sampleTask "2024-03-31" (JNum 0); sampleTask "2024-01-01" (JNum 45)].

Definition sampleReflection (d : string) (m : Z) : Reflection :=
  mkReflection "1711922400000" d (Num 80) (Num m) false (Some "").

(** The seeded categories, one unfinished task and two reflections, viewed
    on 2024-03-31. *)
Definition sampleState : AppState :=
  {| categories := {[ "Work" := ["Career Coaching"; "Life Coaching"; "Social Media"];
                      "Wellness" := ["Social"; "Physical"; "Spiritual"];
                      "Learning" := ["Reading"; "Courses"];
                      "Household" := ["General Chores"; "Admin"] ]};
     tasks := [sampleTask "2024-03-31" (JNum 45)];
     reflections := [sampleReflection "2024-03-30" 6; sampleReflection "2024-03-31" 4];
     selectedDate := "2024-03-31";
     selectedMainCat := "Work";
     taskForm := mkTaskForm "Plan sprint" "Deep Work" "30" |}.

(** The reflection form with the rollover box of the sample task checked. *)
Definition sampleForm : FormData :=
  [("completion", "80"); ("mood", "7"); ("notes", "ok");
   ("recycle_1711886400000", "on")].

(** A host thirteen hours ahead of UTC (New Zealand daylight time, Tonga,
    Samoa): [getTimezoneOffset()] is -780. *)
Definition utcPlus13 : Civil -> Z := λ _, -780.

(** A fresh account in which two tasks are entered through the task form:
    60 minutes of work, then a correction of -30 minutes under Wellness
    (the minutes field is a number input without a minimum). *)
Definition emptyState : AppState :=
  {| categories := categories sampleState;
     tasks := [];
     reflections := [];
     selectedDate := "2024-03-31";
     selectedMainCat := "Work";
     taskForm := mkTaskForm "" "" "" |}.

Definition refundState : AppState :=
  handleAddTask 1711886400002
    (changeEstTime "-30" (changeTitle "Refund" (changeMainCat "Wellness"
       (handleAddTask 1711886400001
          (changeEstTime "60" (changeTitle "Write report" emptyState)))))).

(** ** Further handlers and views *)

(** The character of a decimal digit. *)
Definition digitChar (v : Z) : ascii := ascii_of_N (Z.to_N (48 + v)).

(** Checks used to read date strings back, run over all digit groups:
    the padded print of a number has the digits that read as the number,
    and digits that read as a number are its padded print. *)
Definition printsAs (width : nat) (n : Z) : bool :=
  match decimalDigits 0 (list_ascii_of_string (padStart width n)) with
  | Some v => (v =? n) && (String.length (padStart width n) =? width)%nat
  | None => false
  end.

Definition readsAs (width : nat) (vs : list Z) : bool :=
  match decimalDigits 0 (map digitChar vs) with
  | Some n => bool_decide (padStart width n = string_of_list_ascii (map digitChar vs))
  | None => false
  end.

Definition digitValues : list Z := [0; 1; 2; 3; 4; 5; 6; 7; 8; 9].

(** [toggleTaskStatus]: every task with the given id gets the status
    ['Not Started'] if it was ['Done'] and ['Done'] otherwise. *)
Definition withStatus (t : Task) (s : string) : Task :=
  mkTask (task_id t) (task_date t) (title t) (category t) (subCategory t)
    (estTime t) s.

Definition toggleTask (id : string) (t : Task) : Task :=
  if bool_decide (task_id t = id)
  then withStatus t (if bool_decide (status t = "Done") then "Not Started" else "Done")
  else t.

Definition toggleTaskStatus (id : string) (st : AppState) : AppState :=
  setTasks (map (toggleTask id) (tasks st)) st.

(** [renderReflectionView]: [reflections.find(r => r.date === selectedDate)],
    [None] standing for the empty object that replaces a missing result, and
    the unfinished tasks the rollover boxes are drawn for. *)
Fixpoint todayReflection (reflections : list Reflection) (selectedDate : string)
    : option Reflection :=
  match reflections with
  | [] => None
  | r :: rest =>
      if bool_decide (ref_date r = selectedDate) then Some r
      else todayReflection rest selectedDate
  end.

(** [x || d] for a number [x]. *)
Definition orElse (x : Number) (d : Z) : Z :=
  match x with
  | NaN => d
  | Num n => if n =? 0 then d else n
  end.

(** The default values of the completion and mood fields:
    [todayReflection.completion || 0] and [todayReflection.mood || 5]. *)
Definition defaultCompletion (o : option Reflection) : Z :=
  match o with Some r => orElse (completion r) 0 | None => 0 end.

Definition defaultMood (o : option Reflection) : Z :=
  match o with Some r => orElse (mood r) 5 | None => 5 end.

Definition unfinishedTasks (viewed : list Task) : list Task :=
  filter (λ t, status t <> "Done") viewed.

(** The entries of the submitted reflection form, in document order: the
    two number fields, the overloaded box when it is checked, the notes, and
    one entry [recycle_<id> = on] for each rollover box that is checked. *)
Definition submittedForm (completion mood : string) (overloadedChecked : bool)
    (notes : string) (checked : list Task) : FormData :=
  [("completion", completion); ("mood", mood)]
  ++ (if overloadedChecked then [("overloaded", "on")] else [])
  ++ [("notes", notes)]
  ++ map (λ t, ("recycle_" +:+ task_id t, "on")) checked.

(** [renderDailyView]: the tasks of the column of one main category,
    [viewedTasks.filter(t => t.category === cat ||
                             (!t.category && cat === 'Household'))]. *)
Definition catTasks (viewed : list Task) (cat : string) : list Task :=
  filter (λ t, category t = cat \/ (category t = "" /\ cat = "Household")) viewed.

(** One column for each key of [categories] (in the order of the map's
    listing, which the properties do not depend on). *)
Definition taskColumns (cats : gmap string (list string)) (viewed : list Task)
    : list (string * list Task) :=
  map (λ e, (fst e, catTasks viewed (fst e))) (map_to_list cats).

(** [renderDashboardView]: the average completion of the last seven
    reflections.  Adding [NaN] gives [NaN], and so does rounding it. *)
Definition addNumber (a b : Number) : Number :=
  match a, b with
  | Num x, Num y => Num (x + y)
  | _, _ => NaN
  end.

Definition avgCompletion (reflections : list Reflection) : Number :=
  let last7 := last7Reflections reflections in
  if (0 <? length last7)%nat then
    match fold_left (λ sum r, addNumber sum (completion r)) last7 (Num 0) with
    | Num sum => Num (roundRatio sum (Z.of_nat (length last7)))
    | NaN => NaN
    end
  else Num 0.

(** [last7Reflections.filter(r => r.overloaded).length] *)
Definition overloadCount (reflections : list Reflection) : nat :=
  length (filter (λ r, overloaded r = true) (last7Reflections reflections)).

(** The key of a task in the all-time allocation:
    [t.subCategory ? `${t.category} - ${t.subCategory}`
                   : (t.category || 'Uncategorized')].
    (A category field that is absent altogether would print as
    [undefined] in the first form; the record holds strings.) *)
Definition subVerticalKey (t : Task) : string :=
  if bool_decide (subCategory t = "") then
    (if bool_decide (category t = "") then "Uncategorized" else category t)
  else category t +:+ " - " +:+ subCategory t.

(** One step of the loop over all tasks: a bucket that is missing or 0 is
    set to 0, then the minutes are added. *)
Definition addToKey (m : gmap string Z) (t : Task) : gmap string Z :=
  let key := subVerticalKey t in
  <[key := (match m !! key with
            | Some old => if old =? 0 then 0 else old
            | None => 0
            end) + estMinutes t]> m.

Definition allCategoryTime (tasks : list Task) : gmap string Z :=
  fold_left addToKey tasks ∅.

(** [... || 1] *)
Definition totalLogTime (tasks : list Task) : Z :=
  let total := sumValues (allCategoryTime tasks) in
  if total =? 0 then 1 else total.

(** The comparator [(a, b) => b[1] - a[1]]. *)
Definition compareByTimeDesc (a b : string * Z) : Number := Num (snd b - snd a).

(** [Object.entries(allCategoryTime).sort((a,b)=>b[1]-a[1]).slice(0, 5)] *)
Definition sortedCategories (tasks : list Task) : list (string * Z) :=
  take 5 (sortBy compareByTimeDesc (map_to_list (allCategoryTime tasks))).

(** [cat.split(' - ')[0]]: the part of [s] before the first occurrence of
    the separator, all of [s] when there is none. *)
Fixpoint beforeSeparator (sep s : string) : string :=
  match s with
  | EmptyString => EmptyString
  | String c r =>
      if String.prefix sep s then EmptyString
      else String c (beforeSeparator sep r)
  end.

Definition mainCatStr (key : string) : string := beforeSeparator " - " key.

(** [CustomCombobox]: [toLowerCase] on the letters A to Z (other letters
    are outside the model), [includes], and the options shown for the text
    typed so far. *)
Definition lowerChar (c : ascii) : ascii :=
  let n := N_of_ascii c in
  if ((65 <=? n) && (n <=? 90))%N then ascii_of_N (n + 32) else c.

Fixpoint toLowerCase (s : string) : string :=
  match s with
  | EmptyString => EmptyString
  | String c r => String (lowerChar c) (toLowerCase r)
  end.

Fixpoint includes (s part : string) : bool :=
  String.prefix part s
  || match s with
     | EmptyString => false
     | String _ r => includes r part
     end.

Definition filteredOptions (value : string) (options : list string) : list string :=
  if bool_decide (value = "") then options
  else filter (λ o, includes (toLowerCase o) (toLowerCase value)) options.

(** The bucket a task is filed under in the weekly distribution:
    [t.category || 'Other']. *)
Definition bucketOf (t : Task) : string :=
  if bool_decide (category t = "") then "Other" else category t.

(** A run of the task form: each entry is what the form holds when it is
    submitted, with the clock at that moment. *)
Definition addTasks (entries : list (TaskForm * Z)) (st : AppState) : AppState :=
  fold_left (λ s e, handleAddTask (snd e) (setTaskForm (fst e) s)) entries st.

(** The tasks equal up to their status. *)
Definition forgetStatus (t : Task) : Task := withStatus t "".

(** The string has no hyphen. *)
Definition noHyphen (s : string) : Prop :=
  Forall (λ c, c <> "-"%char) (list_ascii_of_string s).

(** * Properties *)

(** ** [parseInt] reads back the decimal print of an integer *)

(** Splits a goal about a digit [k < 10] into its ten cases (those that
    contradict a hypothesis on [k] are closed) and runs [tac] on each. *)
Ltac each_digit k tac :=
  let Hcases := fresh "Hcases" in
  assert (k = 0 ∨ k = 1 ∨ k = 2 ∨ k = 3 ∨ k = 4 ∨ k = 5 ∨ k = 6 ∨ k = 7
          ∨ k = 8 ∨ k = 9)%N as Hcases by lia;
  repeat (destruct Hcases as [Hcases | Hcases]; [subst k; try lia; tac |]);
  subst k; try lia; tac.

Lemma radixDigit_pretty_char (k : N) :
  (k < 10)%N -> radixDigit 10 (pretty_N_char k) = Some (Z.of_N k).
Proof. intros Hk. each_digit k ltac:(reflexivity). Qed.

Lemma pretty_N_go_head (x : N) (s : string) :
  (0 < x)%N ->
  exists k r, (0 < k < 10)%N /\ pretty_N_go x s = String (pretty_N_char k) r.
Proof.
  revert s. induction (N.lt_wf_0 x) as [x _ IH]. intros s Hx.
  rewrite pretty_N_go_step by assumption.
  destruct (decide (x < 10)%N) as [Hsmall | Hbig].
  - exists x, s. split; [lia |].
    rewrite N.div_small, N.mod_small by assumption.
    apply pretty_N_go_0.
  - apply IH.
    + apply N.div_lt; lia.
    + apply N.div_str_pos. lia.
Qed.

Lemma parseDigits_pretty_N_go (x : N) (s : string) :
  (0 < x)%N ->
  parseDigits 10 NaN (pretty_N_go x s) = parseDigits 10 (Num (Z.of_N x)) s.
Proof.
  revert s. induction (N.lt_wf_0 x) as [x _ IH]. intros s Hx.
  rewrite pretty_N_go_step by assumption.
  destruct (decide (x < 10)%N) as [Hsmall | Hbig].
  - rewrite N.div_small, N.mod_small by assumption.
    rewrite pretty_N_go_0. simpl.
    rewrite radixDigit_pretty_char by assumption. reflexivity.
  - rewrite IH.
    + simpl. rewrite radixDigit_pretty_char by (apply N.mod_lt; lia).
      do 2 f_equal.
      pose proof (N.div_mod x 10 ltac:(lia)) as Hdm. lia.
    + apply N.div_lt; lia.
    + apply N.div_str_pos. lia.
Qed.

(** A string that starts with a digit from 1 to 9 has no white space, sign
    or hexadecimal prefix to strip. *)
Lemma parseIntString_leading_digit (k : N) (r : string) :
  (0 < k < 10)%N ->
  parseIntString (String (pretty_N_char k) r)
  = parseDigits 10 NaN (String (pretty_N_char k) r)
  /\ parseIntString (String "-" (String (pretty_N_char k) r))
  = match parseDigits 10 NaN (String (pretty_N_char k) r) with
    | NaN => NaN
    | Num v => Num (- v)
    end.
Proof.
  intros Hk.
  assert (forall x, match x with NaN => NaN | Num v => Num (1 * v) end = x) as Hone.
  { intros [| v]; [reflexivity | f_equal; lia]. }
  assert (forall x, match x with NaN => NaN | Num v => Num (-1 * v) end
                    = match x with NaN => NaN | Num v => Num (- v) end) as Hneg.
  { intros [| v]; [reflexivity | f_equal; lia]. }
  each_digit k ltac:(split; [apply Hone | apply Hneg]).
Qed.

Lemma parseInt_JNum (n : Z) : parseInt (JNum n) = Num n.
Proof.
  unfold parseInt, JNum, ToString. destruct n as [| p | p].
  - reflexivity.
  - change (pretty (Z.pos p)) with (pretty_N_go (N.pos p) "").
    destruct (pretty_N_go_head (N.pos p) "" ltac:(lia)) as (k & r & Hk & Hhead).
    pose proof (parseDigits_pretty_N_go (N.pos p) "" ltac:(lia)) as Hdigits.
    rewrite Hhead in *.
    destruct (parseIntString_leading_digit k r Hk) as [-> _].
    rewrite Hdigits. reflexivity.
  - change (pretty (Z.neg p)) with (String "-" (pretty_N_go (N.pos p) "")).
    destruct (pretty_N_go_head (N.pos p) "" ltac:(lia)) as (k & r & Hk & Hhead).
    pose proof (parseDigits_pretty_N_go (N.pos p) "" ltac:(lia)) as Hdigits.
    rewrite Hhead in *.
    destruct (parseIntString_leading_digit k r Hk) as [_ ->].
    rewrite Hdigits. reflexivity.
Qed.

Lemma estMinutes_JNum (t : Task) (n : Z) : estTime t = JNum n -> estMinutes t = n.
Proof.
  intros Hn. unfold estMinutes. rewrite Hn, parseInt_JNum. simpl.
  destruct (Z.eqb_spec n 0); congruence.
Qed.

(** ** Viewed tasks *)

Lemma elem_of_viewedTasks (tasks : list Task) (d : string) (t : Task) :
  t ∈ viewedTasks tasks d <-> t ∈ tasks /\ task_date t = d.
Proof. unfold viewedTasks. rewrite list_elem_of_filter. tauto. Qed.

Lemma sublist_filter_max {A : Type} (P : A -> Prop) `{forall x, Decision (P x)}
    (l k : list A) :
  sublist k l -> Forall P k -> sublist k (filter P l).
Proof.
  intros Hsub. induction Hsub as [| x k l Hsub IH | x k l Hsub IH]; intros HP.
  - constructor.
  - apply Forall_cons in HP as [Hx Hk].
    rewrite filter_cons_True by assumption. constructor. auto.
  - rewrite filter_cons. destruct (decide (P x)); [constructor |]; auto.
Qed.

(** C8: the viewed tasks are the tasks dated on the selected date, in the
    order of the task list: they form a subsequence of the task list, a task
    belongs to them exactly when it is in the list and dated on the selected
    date, and every subsequence of the task list made of tasks dated on the
    selected date is a subsequence of them (none is dropped or repeated). *)
Theorem viewedTasks_exact (tasks : list Task) (d : string) :
  sublist (viewedTasks tasks d) tasks
  /\ (forall t, t ∈ viewedTasks tasks d <-> t ∈ tasks /\ task_date t = d)
  /\ (forall k, sublist k tasks /\ Forall (λ t, task_date t = d) k ->
                sublist k (viewedTasks tasks d)).
Proof.
  split; [| split].
  - apply sublist_filter.
  - intros t. apply elem_of_viewedTasks.
  - intros k [Hsub Hall]. apply sublist_filter_max; assumption.
Qed.

Lemma viewedTasks_exact_witness :
  sublist [sampleTask "2024-03-31" (JNum 30)]
    (viewedTasks [sampleTask "2024-03-30" (JNum 10); sampleTask "2024-03-31" (JNum 30)]
       "2024-03-31").
Proof.
  apply (viewedTasks_exact
           [sampleTask "2024-03-30" (JNum 10); sampleTask "2024-03-31" (JNum 30)]
           "2024-03-31").
  split.
  - apply sublist_cons. apply sublist_skip. apply sublist_nil.
  - repeat constructor.
Defined.

(** ** Overload statistics *)

Lemma fold_left_add_acc {A : Type} (f : A -> Z) (l : list A) (a : Z) :
  fold_left (λ acc x, acc + f x) l a = a + sumZ (map f l).
Proof.
  revert a. induction l as [| x l IH]; intros a; simpl.
  - lia.
  - rewrite IH. unfold sumZ. simpl. lia.
Qed.

Lemma totalMins_sum (viewed : list Task) :
  totalMins (overloadStats viewed) = sumZ (map estMinutes viewed).
Proof. unfold overloadStats. simpl. rewrite fold_left_add_acc. lia. Qed.

Lemma minutesOn_viewed (tasks : list Task) (d : string) :
  sumZ (map estMinutes (viewedTasks tasks d)) = minutesOn d tasks.
Proof.
  unfold viewedTasks. induction tasks as [| t tasks IH]; [reflexivity |].
  rewrite filter_cons. simpl. destruct (decide (task_date t = d)) as [Hd | Hd].
  - rewrite bool_decide_eq_true_2 by assumption.
    change (estMinutes t + sumZ (map estMinutes (filter (λ t, task_date t = d) tasks))
            = estMinutes t + minutesOn d tasks).
    rewrite IH. reflexivity.
  - rewrite bool_decide_eq_false_2 by assumption. rewrite IH. lia.
Qed.

Lemma countOn_viewed (tasks : list Task) (d : string) :
  Z.of_nat (length (viewedTasks tasks d)) = countOn d tasks.
Proof.
  unfold viewedTasks. induction tasks as [| t tasks IH]; [reflexivity |].
  rewrite filter_cons. simpl. destruct (decide (task_date t = d)) as [Hd | Hd].
  - rewrite bool_decide_eq_true_2 by assumption. simpl length. lia.
  - rewrite bool_decide_eq_false_2 by assumption. lia.
Qed.

Lemma sumZ_estMinutes_numbers (viewed : list Task) (ns : list Z) :
  map estTime viewed = map JNum ns -> sumZ (map estMinutes viewed) = sumZ ns.
Proof.
  revert ns. induction viewed as [| t viewed IH]; intros [| n ns] Heq;
    try discriminate; [reflexivity |].
  simpl in Heq. injection Heq as Ht Hrest.
  unfold sumZ in *. simpl. rewrite (estMinutes_JNum t n Ht), (IH ns Hrest).
  reflexivity.
Qed.

Lemma isOverloaded_iff (viewed : list Task) :
  isOverloaded (overloadStats viewed) = true
  <-> 480 < sumZ (map estMinutes viewed) \/ 6 < Z.of_nat (length viewed).
Proof.
  rewrite <- totalMins_sum. unfold overloadStats. simpl.
  rewrite orb_true_iff, !Z.ltb_lt. reflexivity.
Qed.

(** C1: the overload flag of the tasks viewed on the selected date is true
    exactly when the estimated minutes of the tasks dated on that date sum
    to more than 480 or there are more than 6 such tasks.  When the minutes
    of the viewed tasks are the integers [ns] (below 10^21, where a number
    still prints in decimal notation), the sum is the sum of [ns].  Five
    tasks of 50 minutes are not overloaded; seven tasks of 10 minutes and
    one task of 500 minutes are. *)
Theorem overload_flag_iff (tasks : list Task) (d : string) :
  (isOverloaded (overloadStats (viewedTasks tasks d)) = true
   <-> 480 < minutesOn d tasks \/ 6 < countOn d tasks)
  /\ (forall ns,
        map estTime (viewedTasks tasks d) = map JNum ns /\
        Forall (λ n, Z.abs n < 10 ^ 21) ns ->
        (isOverloaded (overloadStats (viewedTasks tasks d)) = true
         <-> 480 < sumZ ns \/ 6 < Z.of_nat (length ns)))
  /\ isOverloaded (overloadStats
       (viewedTasks (replicate 5 (sampleTask d (JNum 50))) d)) = false
  /\ isOverloaded (overloadStats
       (viewedTasks (replicate 7 (sampleTask d (JNum 10))) d)) = true
  /\ isOverloaded (overloadStats
       (viewedTasks [sampleTask d (JNum 500)] d)) = true.
Proof.
  assert (forall n v, viewedTasks (replicate n (sampleTask d v)) d
                      = replicate n (sampleTask d v)) as Hsame.
  { intros n v. unfold viewedTasks. induction n as [| n IH]; [reflexivity |].
    simpl. rewrite filter_cons_True by reflexivity. rewrite IH. reflexivity. }
  split; [| split; [| split; [| split]]].
  - rewrite isOverloaded_iff, minutesOn_viewed, countOn_viewed. reflexivity.
  - intros ns [Hns _]. rewrite isOverloaded_iff.
    rewrite (sumZ_estMinutes_numbers _ _ Hns).
    assert (length (viewedTasks tasks d) = length ns) as ->.
    { rewrite <- (length_map estTime), Hns, length_map. reflexivity. }
    reflexivity.
  - rewrite Hsame. reflexivity.
  - rewrite Hsame. reflexivity.
  - specialize (Hsame 1%nat (JNum 500)). cbn [replicate] in Hsame.
    rewrite Hsame. reflexivity.
Qed.

Lemma overload_flag_iff_witness :
  isOverloaded (overloadStats
    (viewedTasks [sampleTask "2024-03-31" (JNum 300); sampleTask "2024-04-01" (JNum 90);
                  sampleTask "2024-03-31" (JNum 200)] "2024-03-31")) = true
  <-> 480 < sumZ [300; 200] \/ 6 < Z.of_nat (length [300; 200]).
Proof.
  apply (overload_flag_iff
           [sampleTask "2024-03-31" (JNum 300); sampleTask "2024-04-01" (JNum 90);
            sampleTask "2024-03-31" (JNum 200)] "2024-03-31").
  split; [reflexivity |].
  repeat constructor.
Defined.

(** C10: the overload statistics are a total function of the viewed tasks,
    whatever their contents (no step of the loop can throw on a stored
    value).  A task whose estimated minutes are missing, empty or not
    readable as an integer adds 0 to the total and 1 to the task count,
    wherever it stands in the list. *)
Theorem overloadStats_malformed (before after : list Task) (t : Task) :
  estTime t = JUndefined \/ estTime t = JStr "" \/ parseInt (estTime t) = NaN ->
  estMinutes t = 0
  /\ totalMins (overloadStats (before ++ t :: after))
     = totalMins (overloadStats (before ++ after))
  /\ totalTasks (overloadStats (before ++ t :: after))
     = S (totalTasks (overloadStats (before ++ after))).
Proof.
  intros Hbad.
  assert (estMinutes t = 0) as Hzero.
  { unfold estMinutes. destruct Hbad as [-> | [-> | ->]]; reflexivity. }
  split; [assumption | split].
  - rewrite !totalMins_sum, !map_app. simpl. unfold sumZ.
    rewrite !foldr_app. simpl. rewrite Hzero. reflexivity.
  - unfold overloadStats. simpl. rewrite !length_app. simpl. lia.
Qed.

Lemma overloadStats_malformed_witness :
  estMinutes (sampleTask "2024-03-31" (JStr "soon")) = 0
  /\ totalMins (overloadStats ([sampleTask "2024-03-31" (JNum 30)]
                 ++ sampleTask "2024-03-31" (JStr "soon") :: []))
     = totalMins (overloadStats ([sampleTask "2024-03-31" (JNum 30)] ++ []))
  /\ totalTasks (overloadStats ([sampleTask "2024-03-31" (JNum 30)]
                  ++ sampleTask "2024-03-31" (JStr "soon") :: []))
     = S (totalTasks (overloadStats ([sampleTask "2024-03-31" (JNum 30)] ++ []))).
Proof.
  apply (overloadStats_malformed [sampleTask "2024-03-31" (JNum 30)] []
           (sampleTask "2024-03-31" (JStr "soon"))).
  right. right. reflexivity.
Defined.

(** Stored values that do not read as an integer, and seven tasks without
    minutes: the count threshold alone raises the flag. *)
Lemma parseInt_not_a_number :
  parseInt JUndefined = NaN /\ parseInt JNull = NaN /\ parseInt (JStr "") = NaN
  /\ parseInt (JStr "abc") = NaN /\ parseInt (JNumber NaN) = NaN
  /\ parseInt (JBool true) = NaN /\ parseInt JObject = NaN
  /\ overloadStats (replicate 7 (sampleTask "2024-03-31" JUndefined))
     = {| totalMins := 0; totalTasks := 7; isOverloaded := true |}.
Proof. repeat split. Qed.

(** ** Reflections *)

Lemma reflections_saveReflection (now : Z) (tz : Civil -> Z) (today : string)
    (fd : FormData) (st : AppState) :
  reflections (fst (saveReflection now tz today fd st))
  = replaceReflection (reflections st) (newReflection now fd (selectedDate st)).
Proof.
  unfold saveReflection.
  destruct (getNextDayStr tz (selectedDate st)) as [next |]; [| reflexivity].
  destruct (rollover (selectedDate st) fd next (tasks st)) as [n ts].
  destruct (0 <? n)%nat; reflexivity.
Qed.

Lemma filter_none {A : Type} (P : A -> Prop) `{forall x, Decision (P x)} (l : list A) :
  Forall (λ x, ~ P x) l -> filter P l = [].
Proof.
  induction 1 as [| x l Hx Hl IH]; [reflexivity |].
  rewrite filter_cons_False by exact Hx. exact IH.
Qed.

Lemma filter_all {A : Type} (P : A -> Prop) `{forall x, Decision (P x)} (l : list A) :
  Forall P l -> filter P l = l.
Proof.
  induction 1 as [| x l Hx Hl IH]; [reflexivity |].
  rewrite filter_cons_True by exact Hx. rewrite IH. reflexivity.
Qed.

Lemma replaceReflection_dated (rs : list Reflection) (newRef : Reflection) :
  filter (λ r, ref_date r = ref_date newRef) (replaceReflection rs newRef) = [newRef].
Proof.
  unfold replaceReflection. rewrite filter_app.
  rewrite filter_cons_True by reflexivity. rewrite filter_nil.
  rewrite filter_none; [reflexivity |].
  apply Forall_forall. intros r Hr.
  apply list_elem_of_filter in Hr as [Hne _]. exact Hne.
Qed.

Lemma replaceReflection_others (rs : list Reflection) (newRef : Reflection) :
  filter (λ r, ref_date r <> ref_date newRef) (replaceReflection rs newRef)
  = filter (λ r, ref_date r <> ref_date newRef) rs.
Proof.
  unfold replaceReflection. rewrite filter_app.
  rewrite filter_cons_False by (intros Hne; apply Hne; reflexivity).
  rewrite filter_nil, app_nil_r.
  apply filter_all. apply Forall_forall. intros r Hr.
  apply list_elem_of_filter in Hr as [Hne _]. exact Hne.
Qed.

Lemma countDated_replaceReflection (d : string) (rs : list Reflection)
    (newRef : Reflection) :
  countDated d (replaceReflection rs newRef)
  = if decide (d = ref_date newRef) then 1%nat else countDated d rs.
Proof.
  unfold countDated, replaceReflection. rewrite filter_app, length_app.
  rewrite list_filter_filter.
  destruct (decide (d = ref_date newRef)) as [-> | Hne].
  - rewrite filter_cons_True by reflexivity. simpl.
    replace (filter (λ r, ref_date r = ref_date newRef ∧ ref_date r ≠ ref_date newRef) rs)
      with (@nil Reflection); [reflexivity |].
    symmetry. induction rs as [| r rs IH]; [reflexivity |].
    rewrite filter_cons_False by (intros [H1 H2]; exact (H2 H1)). assumption.
  - rewrite filter_cons_False by congruence. simpl. rewrite Nat.add_0_r.
    f_equal. apply list_filter_iff. intros r. simpl. split.
    + intros [Hr _]. exact Hr.
    + intros Hr. split; [assumption | congruence].
Qed.

(** C3: after a reflection is saved for the selected date [D], the
    reflection list holds exactly one reflection dated [D], the one built
    from the form (a prior reflection for [D] is gone), and the reflections
    of the other dates are kept in their order; if the list held at most
    one reflection per date before, it does so afterwards. *)
Theorem saveReflection_one_per_date (now : Z) (tz : Civil -> Z) (today : string)
    (fd : FormData) (st : AppState) :
  countDated (selectedDate st)
    (reflections (fst (saveReflection now tz today fd st))) = 1%nat
  /\ filter (λ r, ref_date r = selectedDate st)
       (reflections (fst (saveReflection now tz today fd st)))
     = [newReflection now fd (selectedDate st)]
  /\ filter (λ r, ref_date r <> selectedDate st)
       (reflections (fst (saveReflection now tz today fd st)))
     = filter (λ r, ref_date r <> selectedDate st) (reflections st)
  /\ (onePerDate (reflections st) ->
      onePerDate (reflections (fst (saveReflection now tz today fd st)))).
Proof.
  rewrite reflections_saveReflection.
  set (newRef := newReflection now fd (selectedDate st)).
  change (selectedDate st) with (ref_date newRef).
  split; [| split; [| split]].
  - rewrite countDated_replaceReflection, decide_True; reflexivity.
  - apply replaceReflection_dated.
  - apply replaceReflection_others.
  - intros Hinv d. rewrite countDated_replaceReflection.
    destruct (decide (d = ref_date newRef)); [lia | apply Hinv].
Qed.

Lemma saveReflection_one_per_date_witness :
  onePerDate (reflections (fst (saveReflection 1711922400000 (λ _, 0) "2024-03-31"
                                  sampleForm sampleState))).
Proof.
  apply (saveReflection_one_per_date 1711922400000 (λ _, 0) "2024-03-31"
           sampleForm sampleState).
  intros d. unfold countDated.
  destruct (decide (d = "2024-03-30")) as [-> | H30]; [vm_compute; lia |].
  destruct (decide (d = "2024-03-31")) as [-> | H31]; [vm_compute; lia |].
  simpl. rewrite !filter_cons_False by (simpl; congruence). simpl. lia.
Defined.

(** ** Reminder banners *)

Lemma reminder_banners_counterexample :
  (eveningBannerVisible 15 0 = true /\ ~ 22 * 60 <= 15 * 60 + 0)
  /\ (9 * 60 + 30 <= 9 * 60 + 45 <= 11 * 60 + 59
      /\ morningBannerVisible 9 45 "2024-03-30" "2024-03-31" = false).
Proof. repeat split; (reflexivity || lia). Qed.

(** C4, amended: the evening predicate is true exactly from 22:00 on, but
    the reflection banner is rendered at every time of day (its guard is
    [isEveningReflectionTime || true]).  The morning review banner is
    visible only when the selected date is today and the local time is
    within 09:30-11:59, and it is visible when the selected date is today
    and the time is within 09:30-09:59. *)
Theorem reminder_banners (h m : Z) (selected today : string) :
  0 <= h < 24 -> 0 <= m < 60 ->
  (isEveningReflectionTime h m = true <-> 22 * 60 <= h * 60 + m)
  /\ eveningBannerVisible h m = true
  /\ (morningBannerVisible h m selected today = true ->
      9 * 60 + 30 <= h * 60 + m <= 11 * 60 + 59 /\ selected = today)
  /\ (9 * 60 + 30 <= h * 60 + m <= 9 * 60 + 59 /\ selected = today ->
      morningBannerVisible h m selected today = true).
Proof.
  intros Hh Hm. unfold eveningBannerVisible, morningBannerVisible,
    isEveningReflectionTime, isMorningReviewTime.
  split; [| split; [| split]].
  - rewrite orb_true_iff, andb_true_iff, !Z.leb_le, Z.eqb_eq. lia.
  - apply orb_true_r.
  - rewrite !andb_true_iff, Z.eqb_eq, Z.leb_le, Z.ltb_lt, bool_decide_eq_true.
    intros [Htime Hsel]. split; [lia | exact Hsel].
  - intros [Hwin ->]. rewrite !andb_true_iff, Z.eqb_eq, Z.leb_le, Z.ltb_lt,
      bool_decide_eq_true. split; [lia | reflexivity].
Qed.

Lemma reminder_banners_witness :
  (isEveningReflectionTime 9 30 = true <-> 22 * 60 <= 9 * 60 + 30)
  /\ eveningBannerVisible 9 30 = true
  /\ (morningBannerVisible 9 30 "2024-03-31" "2024-03-31" = true ->
      9 * 60 + 30 <= 9 * 60 + 30 <= 11 * 60 + 59 /\ "2024-03-31" = "2024-03-31")
  /\ (9 * 60 + 30 <= 9 * 60 + 30 <= 9 * 60 + 59 /\ "2024-03-31" = "2024-03-31" ->
      morningBannerVisible 9 30 "2024-03-31" "2024-03-31" = true).
Proof.
  apply (reminder_banners 9 30 "2024-03-31" "2024-03-31"); lia.
Defined.

(** ** Task rollover *)

Lemma rollover_fold (d : string) (fd : FormData) (next : string)
    (ts : list Task) (n : nat) (out : list Task) :
  fold_left (rolloverStep d fd next) ts (n, out)
  = ((n + length (filter (λ t, shouldRecycle d fd t) ts))%nat,
     out ++ map (rolled d fd next) ts).
Proof.
  revert n out. induction ts as [| t ts IH]; intros n out; simpl.
  - rewrite Nat.add_0_r, app_nil_r. reflexivity.
  - rewrite filter_cons.
    assert (rolled d fd next t
            = if shouldRecycle d fd t then withDate t next else t) as Hr
      by reflexivity.
    destruct (shouldRecycle d fd t); simpl; rewrite IH, <- app_assoc, Hr; simpl;
      f_equal; lia.
Qed.

Lemma rolled_none (d : string) (fd : FormData) (next : string) (ts : list Task) :
  length (filter (λ t, shouldRecycle d fd t) ts) = 0%nat ->
  map (rolled d fd next) ts = ts.
Proof.
  induction ts as [| t ts IH]; [reflexivity |].
  rewrite filter_cons. simpl.
  assert (rolled d fd next t
          = if shouldRecycle d fd t then withDate t next else t) as Hr
    by reflexivity.
  destruct (shouldRecycle d fd t); simpl.
  - discriminate.
  - intros Hnone. rewrite Hr, IH by exact Hnone. reflexivity.
Qed.

Lemma shouldRecycle_false (d : string) (fd : FormData) (t : Task) :
  task_date t <> d \/ status t = "Done"
  \/ formData_get fd ("recycle_" +:+ task_id t) <> Some "on" ->
  shouldRecycle d fd t = false.
Proof.
  unfold shouldRecycle. intros [Hd | [Hs | Hf]].
  - rewrite (bool_decide_eq_false_2 _ Hd). reflexivity.
  - rewrite (bool_decide_eq_true_2 _ Hs). apply andb_false_intro1, andb_false_r.
  - rewrite (bool_decide_eq_false_2 _ Hf). apply andb_false_r.
Qed.

Lemma shouldRecycle_true (d : string) (fd : FormData) (t : Task) :
  task_date t = d -> status t <> "Done" ->
  formData_get fd ("recycle_" +:+ task_id t) = Some "on" ->
  shouldRecycle d fd t = true.
Proof.
  unfold shouldRecycle. intros Hd Hs Hf.
  rewrite (bool_decide_eq_true_2 _ Hd), (bool_decide_eq_false_2 _ Hs),
    (bool_decide_eq_true_2 _ Hf). reflexivity.
Qed.

Section SaveReflection.

(** One submission of the reflection form: the clock, the host's time
    zone, today's date, the submitted form and the state before. *)
Variables (now : Z) (tz : Civil -> Z) (today : string).
Variables (fd : FormData) (st : AppState).

(** The task list after [saveReflection]. *)
Lemma tasks_saveReflection :
  tasks (fst (saveReflection now tz today fd st))
  = match getNextDayStr tz (selectedDate st) with
    | Some next => map (rolled (selectedDate st) fd next) (tasks st)
    | None => tasks st
    end.
Proof.
  unfold saveReflection.
  destruct (getNextDayStr tz (selectedDate st)) as [next |]; [| reflexivity].
  unfold rollover. rewrite rollover_fold. simpl.
  destruct (length (filter (λ t, shouldRecycle (selectedDate st) fd t) (tasks st)))
    as [| n] eqn:Hcount; simpl.
  - symmetry. apply rolled_none. exact Hcount.
  - reflexivity.
Qed.

(** C9: a task that is not dated on the selected date, or is Done, or
    whose rollover box is not checked, is the same task, at the same place
    of the task list, after the reflection is saved; the list keeps its
    length. *)
Theorem rollover_frame (i : nat) (t : Task) :
  tasks st !! i = Some t ->
  task_date t <> selectedDate st \/ status t = "Done"
  \/ formData_get fd ("recycle_" +:+ task_id t) <> Some "on" ->
  tasks (fst (saveReflection now tz today fd st)) !! i = Some t
  /\ length (tasks (fst (saveReflection now tz today fd st))) = length (tasks st).
Proof.
  intros Hi Hkeep. rewrite tasks_saveReflection.
  destruct (getNextDayStr tz (selectedDate st)) as [next |]; [| auto].
  rewrite list_lookup_fmap, Hi, length_map. simpl. unfold rolled.
  rewrite shouldRecycle_false by exact Hkeep. auto.
Qed.

(** A task that is selected for the rollover gets the computed next day as
    its date; its status and its other fields stay. *)
Lemma rollover_selected (i : nat) (t : Task) (next : string) :
  getNextDayStr tz (selectedDate st) = Some next ->
  tasks st !! i = Some t ->
  task_date t = selectedDate st -> status t <> "Done" ->
  formData_get fd ("recycle_" +:+ task_id t) = Some "on" ->
  exists t', tasks (fst (saveReflection now tz today fd st)) !! i = Some t'
    /\ task_date t' = next /\ status t' = status t
    /\ t' = withDate t next.
Proof.
  intros Hnext Hi Hd Hs Hf. rewrite tasks_saveReflection, Hnext.
  rewrite list_lookup_fmap, Hi. simpl. unfold rolled.
  rewrite shouldRecycle_true by assumption.
  exists (withDate t next). auto.
Qed.

End SaveReflection.

Lemma rollover_frame_witness :
  tasks (fst (saveReflection 1711922400000 (λ _, 0) "2024-03-31" []
                sampleState)) !! 0%nat
  = Some (sampleTask "2024-03-31" (JNum 45))
  /\ length (tasks (fst (saveReflection 1711922400000 (λ _, 0) "2024-03-31" []
                sampleState))) = length (tasks sampleState).
Proof.
  apply (rollover_frame 1711922400000 (λ _, 0) "2024-03-31" [] sampleState 0
           (sampleTask "2024-03-31" (JNum 45))).
  - reflexivity.
  - right. right. simpl. discriminate.
Defined.

(** ** The next day *)

(** Between UTC+12:00 and UTC-11:59, local noon and its UTC instant fall on
    the same calendar day, and [getNextDayStr] prints the day after. *)
Lemma getNextDayStr_same_day (tz : Civil -> Z) (s : string) (d : Civil) :
  parseISODate s = Some d ->
  -720 <= tz (nextDay d) < 720 ->
  getNextDayStr tz s = Some (isoDate (nextDay d)).
Proof.
  intros Hparse Hzone. unfold getNextDayStr. rewrite Hparse.
  rewrite Z.div_small by lia. reflexivity.
Qed.

(** On such a host a task selected for the rollover moves to the day after
    the selected date and keeps its status. *)
Lemma rollover_next_day (now : Z) (tz : Civil -> Z) (today : string)
    (fd : FormData) (st : AppState) (i : nat) (t : Task) (d : Civil) :
  parseISODate (selectedDate st) = Some d ->
  -720 <= tz (nextDay d) < 720 ->
  tasks st !! i = Some t ->
  task_date t = selectedDate st -> status t <> "Done" ->
  formData_get fd ("recycle_" +:+ task_id t) = Some "on" ->
  exists t', tasks (fst (saveReflection now tz today fd st)) !! i = Some t'
    /\ task_date t' = isoDate (nextDay d) /\ status t' = status t.
Proof.
  intros Hparse Hzone Hi Hd Hs Hf.
  destruct (rollover_selected now tz today fd st i t (isoDate (nextDay d)))
    as (t' & Ht' & Hdate & Hstatus & _); try assumption.
  - apply getNextDayStr_same_day; assumption.
  - exists t'. auto.
Qed.

(** More than twelve hours ahead of UTC, local noon is still the day before
    in UTC: the printed day is the selected day itself. *)
Lemma getNextDayStr_ahead (tz : Civil -> Z) (s : string) (d : Civil) :
  parseISODate s = Some d ->
  -2160 <= tz (nextDay d) < -720 ->
  getNextDayStr tz s = Some (isoDate (prevDay (nextDay d))).
Proof.
  intros Hparse Hzone. unfold getNextDayStr. rewrite Hparse.
  replace ((12 * 60 + tz (nextDay d)) / 1440) with (-1); [reflexivity |].
  apply Z.div_unique with (r := 12 * 60 + tz (nextDay d) + 1440); lia.
Qed.

Lemma getNextDayStr_boundaries :
  getNextDayStr (λ _, 0) "2024-03-31" = Some "2024-04-01"
  /\ getNextDayStr (λ _, 0) "2023-12-31" = Some "2024-01-01"
  /\ getNextDayStr (λ _, 0) "2024-02-28" = Some "2024-02-29"
  /\ getNextDayStr (λ _, 0) "2023-02-28" = Some "2023-03-01"
  /\ getNextDayStr (λ _, 300) "2024-03-31" = Some "2024-04-01"
  /\ getNextDayStr (λ _, 0) "" = None.
Proof. repeat split; vm_compute; reflexivity. Qed.

(** C2, at a host thirteen hours ahead of UTC, at 22:00 local time of
    2024-03-31 (09:00 UTC): from "2024-03-31" the rollover computes
    "2024-03-31", not "2024-04-01", while [getTodayStr], which moves the
    clock by the offset, prints the local day; the task that was selected
    for the rollover keeps the date "2024-03-31" and the handler reports one
    task rolled over. *)
Theorem getNextDayStr_utcPlus13 :
  getNextDayStr utcPlus13 "2024-03-31" = Some "2024-03-31"
  /\ getTodayStr (mkCivil 2024 3 31) (9 * 60) (-780) = "2024-03-31"
  /\ shouldRecycle "2024-03-31" sampleForm (sampleTask "2024-03-31" (JNum 45)) = true
  /\ map task_date
       (tasks (fst (saveReflection 1711875600000 utcPlus13 "2024-03-31"
                      sampleForm sampleState))) = ["2024-03-31"]
  /\ snd (saveReflection 1711875600000 utcPlus13 "2024-03-31" sampleForm sampleState)
     = AlertRolledOver 1 true.
Proof. repeat split; vm_compute; reflexivity. Qed.

(** The calendar successor agrees with the day numbering of time values:
    the day after has the next day number. *)
Lemma dayFromYear_succ (y : Z) :
  dayFromYear (y + 1) = dayFromYear y + (if isLeapYear y then 366 else 365).
Proof.
  unfold dayFromYear, isLeapYear.
  destruct (Z.eqb_spec (y mod 4) 0), (Z.eqb_spec (y mod 100) 0),
    (Z.eqb_spec (y mod 400) 0); simpl;
    Z.div_mod_to_equations; lia.
Qed.

Lemma validCivil_bounds (c : Civil) :
  validCivil c = true ->
  0 <= year c <= 9999 /\ 1 <= month c <= 12
  /\ 1 <= day c <= daysInMonth (year c) (month c).
Proof.
  unfold validCivil. rewrite !andb_true_iff, !Z.leb_le. tauto.
Qed.

Lemma month_cases (m : Z) :
  1 <= m <= 12 ->
  m = 1 \/ m = 2 \/ m = 3 \/ m = 4 \/ m = 5 \/ m = 6 \/ m = 7 \/ m = 8
  \/ m = 9 \/ m = 10 \/ m = 11 \/ m = 12.
Proof. lia. Qed.

Lemma dayNumber_nextDay (c : Civil) :
  validCivil c = true -> dayNumber (nextDay c) = dayNumber c + 1.
Proof.
  intros Hvalid. apply validCivil_bounds in Hvalid as (_ & Hm & Hd).
  destruct c as [y m d]. simpl in *. unfold nextDay, dayNumber. simpl.
  destruct (Z.ltb_spec d (daysInMonth y m)) as [Hlt | Hge]; simpl; [lia |].
  assert (d = daysInMonth y m) as -> by lia. clear Hd Hge.
  destruct (Z.ltb_spec m 12) as [Hm12 | Hm12]; simpl.
  - apply month_cases in Hm.
    repeat (destruct Hm as [-> | Hm];
            [unfold daysBeforeMonth, daysInMonth; simpl;
             destruct (isLeapYear y); lia |]).
    lia.
  - assert (m = 12) as -> by lia. rewrite dayFromYear_succ.
    unfold daysBeforeMonth, daysInMonth. simpl. destruct (isLeapYear y); lia.
Qed.

Lemma prevDay_nextDay (c : Civil) :
  validCivil c = true -> prevDay (nextDay c) = c.
Proof.
  intros Hvalid. apply validCivil_bounds in Hvalid as (_ & Hm & Hd).
  destruct c as [y m d]. simpl in *. unfold nextDay, prevDay. simpl.
  destruct (Z.ltb_spec d (daysInMonth y m)) as [Hlt | Hge]; simpl.
  - destruct (Z.ltb_spec 1 (d + 1)); [| lia]. f_equal. lia.
  - assert (d = daysInMonth y m) as -> by lia.
    destruct (Z.ltb_spec m 12) as [Hm12 | Hm12]; simpl.
    + destruct (Z.ltb_spec 1 (m + 1)); [| lia].
      replace (m + 1 - 1) with m by lia. reflexivity.
    + assert (m = 12) as -> by lia. replace (y + 1 - 1) with y by lia.
      reflexivity.
Qed.

Lemma parseISODate_valid (s : string) (d : Civil) :
  parseISODate s = Some d -> validCivil d = true.
Proof.
  unfold parseISODate.
  destruct (list_ascii_of_string s)
    as [| y1 [| y2 [| y3 [| y4 [| h1 [| m1 [| m2 [| h2 [| d1 [| d2 [| ? ?]]]]]]]]]]];
    try discriminate.
  destruct (Ascii.eqb h1 "-" && Ascii.eqb h2 "-"); [| discriminate].
  destruct (decimalDigits 0 [y1; y2; y3; y4]) as [y |]; [| discriminate].
  destruct (decimalDigits 0 [m1; m2]) as [m |]; [| discriminate].
  destruct (decimalDigits 0 [d1; d2]) as [dd |]; [| discriminate].
  destruct (validCivil (mkCivil y m dd)) eqn:Hvalid; [| discriminate].
  intros [= <-]. exact Hvalid.
Qed.

(** More than twelve hours ahead of UTC the printed day is the day the
    function was given. *)
Lemma getNextDayStr_ahead_same (tz : Civil -> Z) (s : string) (d : Civil) :
  parseISODate s = Some d ->
  -2160 <= tz (nextDay d) < -720 ->
  getNextDayStr tz s = Some (isoDate d).
Proof.
  intros Hparse Hzone. rewrite (getNextDayStr_ahead tz s d Hparse Hzone).
  rewrite prevDay_nextDay by (eapply parseISODate_valid; eassumption).
  reflexivity.
Qed.

(** ** Category auto-growth *)

Lemma categories_handleAddTask (now : Z) (st : AppState) :
  categories (handleAddTask now st)
  = autoSaveSubCategory (categories st) (selectedMainCat st)
      (subCategoryOf (taskForm st)).
Proof. reflexivity. Qed.

Lemma autoSaveSubCategory_new (cats : gmap string (list string))
    (mainCat subCat : string) (subs : list string) :
  cats !! mainCat = Some subs -> subCat ∉ subs ->
  autoSaveSubCategory cats mainCat subCat = <[mainCat := subs ++ [subCat]]> cats.
Proof.
  intros Hsubs Hnew. unfold autoSaveSubCategory. rewrite Hsubs.
  rewrite bool_decide_eq_false_2 by exact Hnew. reflexivity.
Qed.

Lemma autoSaveSubCategory_known (cats : gmap string (list string))
    (mainCat subCat : string) (subs : list string) :
  cats !! mainCat = Some subs -> subCat ∈ subs ->
  autoSaveSubCategory cats mainCat subCat = cats.
Proof.
  intros Hsubs Hin. unfold autoSaveSubCategory. rewrite Hsubs.
  rewrite bool_decide_eq_true_2 by exact Hin. reflexivity.
Qed.

Lemma autoSaveSubCategory_noDuplicateSubs (cats : gmap string (list string))
    (mainCat subCat : string) :
  noDuplicateSubs cats -> noDuplicateSubs (autoSaveSubCategory cats mainCat subCat).
Proof.
  intros Hinv. unfold autoSaveSubCategory.
  destruct (cats !! mainCat) as [subs |] eqn:Hsubs; [| exact Hinv].
  destruct (bool_decide (subCat ∈ subs)) eqn:Hin; [exact Hinv |].
  apply bool_decide_eq_false in Hin.
  intros k l. rewrite lookup_insert. destruct (decide (mainCat = k)) as [<- | Hk].
  - intros [= <-]. apply NoDup_app. split; [exact (Hinv _ _ Hsubs) |].
    split; [| apply NoDup_singleton].
    intros x Hx Hx'. apply list_elem_of_singleton in Hx'. subst x. contradiction.
  - apply Hinv.
Qed.

Lemma occurrences_new (x : string) (l : list string) :
  x ∉ l -> occurrences x (l ++ [x]) = 1%nat.
Proof.
  intros Hnew. unfold occurrences. rewrite filter_app, length_app.
  rewrite filter_cons_True by reflexivity. simpl.
  replace (filter (λ y, y = x) l) with (@nil string); [reflexivity |].
  symmetry. induction l as [| y l IH]; [reflexivity |].
  apply not_elem_of_cons in Hnew as [Hy Hl].
  rewrite filter_cons_False by congruence. auto.
Qed.

(** C5: when the main category of the new task has a sub-category list
    that lacks the task's sub-category, adding the task puts the
    sub-category at the end of that list, where it occurs exactly once, and
    leaves the other main categories as they were; adding a further task
    with the same main category and sub-category then leaves the categories
    unchanged.  Adding a task keeps every sub-category list free of
    duplicates. *)
Theorem handleAddTask_category_growth (now : Z) (st : AppState) :
  (forall subs,
     categories st !! selectedMainCat st = Some subs ->
     subCategoryOf (taskForm st) ∉ subs ->
     categories (handleAddTask now st) !! selectedMainCat st
     = Some (subs ++ [subCategoryOf (taskForm st)])
     /\ occurrences (subCategoryOf (taskForm st))
          (subs ++ [subCategoryOf (taskForm st)]) = 1%nat
     /\ (forall other, other <> selectedMainCat st ->
           categories (handleAddTask now st) !! other = categories st !! other)
     /\ (forall now' st',
           categories st' = categories (handleAddTask now st) ->
           selectedMainCat st' = selectedMainCat st ->
           subCategoryOf (taskForm st') = subCategoryOf (taskForm st) ->
           categories (handleAddTask now' st') = categories st'))
  /\ (noDuplicateSubs (categories st) ->
      noDuplicateSubs (categories (handleAddTask now st))).
Proof.
  split.
  - intros subs Hsubs Hnew. rewrite categories_handleAddTask.
    rewrite (autoSaveSubCategory_new _ _ _ _ Hsubs Hnew).
    split; [apply lookup_insert_eq |].
    split; [apply occurrences_new; exact Hnew |].
    split.
    + intros other Hother. apply lookup_insert_ne. congruence.
    + intros now' st' Hcats Hmain Hsub. rewrite categories_handleAddTask.
      rewrite Hcats, Hmain, Hsub.
      apply autoSaveSubCategory_known with (subs := subs ++ [subCategoryOf (taskForm st)]).
      * apply lookup_insert_eq.
      * apply elem_of_app. right. apply list_elem_of_singleton. reflexivity.
  - rewrite categories_handleAddTask. apply autoSaveSubCategory_noDuplicateSubs.
Qed.

Lemma handleAddTask_category_growth_witness :
  categories (handleAddTask 1711886400001 sampleState) !! "Work"
  = Some (["Career Coaching"; "Life Coaching"; "Social Media"] ++ ["Deep Work"])
  /\ categories (handleAddTask 1711886400002 (handleAddTask 1711886400001 sampleState))
     = categories (handleAddTask 1711886400001 sampleState).
Proof.
  destruct (handleAddTask_category_growth 1711886400001 sampleState) as [Hgrow _].
  destruct (Hgrow ["Career Coaching"; "Life Coaching"; "Social Media"])
    as (Hlist & _ & _ & Hagain).
  - reflexivity.
  - vm_compute. intros Hin.
    repeat (apply elem_of_cons in Hin as [Hin | Hin]; [discriminate |]).
    apply elem_of_nil in Hin. exact Hin.
  - split; [exact Hlist |].
    apply (Hagain 1711886400002 (handleAddTask 1711886400001 sampleState));
      reflexivity.
Defined.

(** ** Mood trend *)

Lemma insertSorted_perm {A : Type} (cmp : A -> A -> Number) (x : A) (l : list A) :
  Permutation (insertSorted cmp x l) (x :: l).
Proof.
  induction l as [| y l IH]; simpl; [reflexivity |].
  destruct (isPositive (cmp x y)); [| reflexivity].
  rewrite IH. apply perm_swap.
Qed.

Lemma sortBy_perm {A : Type} (cmp : A -> A -> Number) (l : list A) :
  Permutation (sortBy cmp l) l.
Proof.
  induction l as [| x l IH]; simpl; [reflexivity |].
  rewrite insertSorted_perm, IH. reflexivity.
Qed.

Lemma sortBy_length {A : Type} (cmp : A -> A -> Number) (l : list A) :
  length (sortBy cmp l) = length l.
Proof. apply Permutation_length, sortBy_perm. Qed.

(** An array that is in order already is left as it is. *)
Lemma sortBy_sorted {A : Type} (cmp : A -> A -> Number) (l : list A) :
  Sorted (λ a b, isPositive (cmp a b) = false) l -> sortBy cmp l = l.
Proof.
  induction 1 as [| x l Hsorted IH Hhead]; simpl; [reflexivity |].
  rewrite IH. destruct Hhead as [| y l Hxy]; simpl; [reflexivity |].
  rewrite Hxy. reflexivity.
Qed.

Lemma timeOf_compare (a b : Reflection) :
  hasValidDate a -> hasValidDate b ->
  isPositive (compareByDate a b) = (timeOf b <? timeOf a).
Proof.
  unfold hasValidDate, compareByDate, timeOf.
  destruct (dateTimeValue (ref_date a)) as [| ta]; [congruence |].
  destruct (dateTimeValue (ref_date b)) as [| tb]; [congruence |].
  intros _ _. simpl. destruct (Z.ltb_spec 0 (ta - tb)), (Z.ltb_spec tb ta);
    (reflexivity || lia).
Qed.

Lemma insertSorted_by_time (x : Reflection) (l : list Reflection) :
  hasValidDate x -> Forall hasValidDate l ->
  StronglySorted (λ a b, timeOf a <= timeOf b) l ->
  StronglySorted (λ a b, timeOf a <= timeOf b) (insertSorted compareByDate x l).
Proof.
  intros Hx Hvalid Hsorted. induction Hsorted as [| y l Hsorted IH Hy]; simpl.
  - repeat constructor.
  - apply Forall_cons in Hvalid as [Hyv Hlv].
    rewrite timeOf_compare by assumption.
    destruct (Z.ltb_spec (timeOf y) (timeOf x)) as [Hlt | Hge].
    + constructor; [apply IH; assumption |].
      rewrite (insertSorted_perm compareByDate x l). constructor; [lia | exact Hy].
    + constructor; [constructor; assumption |].
      constructor; [exact Hge |].
      eapply Forall_impl; [exact Hy |]. simpl. intros z Hz. lia.
Qed.

Lemma sortBy_by_time (rs : list Reflection) :
  Forall hasValidDate rs ->
  StronglySorted (λ a b, timeOf a <= timeOf b) (sortBy compareByDate rs).
Proof.
  induction 1 as [| r rs Hr Hrs IH]; simpl; [constructor |].
  apply insertSorted_by_time; [exact Hr | | exact IH].
  rewrite (sortBy_perm compareByDate rs). exact Hrs.
Qed.

Lemma sliceLast_length {A : Type} (n : nat) (l : list A) :
  length (sliceLast n l) = Nat.min n (length l).
Proof. unfold sliceLast. rewrite length_drop. lia. Qed.

Lemma last7Reflections_length (rs : list Reflection) :
  length (last7Reflections rs) = Nat.min 7 (length rs).
Proof.
  unfold last7Reflections. rewrite sliceLast_length, sortBy_length. reflexivity.
Qed.

Lemma last7Reflections_short (rs : list Reflection) :
  (length rs <= 7)%nat -> last7Reflections rs = sortBy compareByDate rs.
Proof.
  intros Hshort. unfold last7Reflections, sliceLast.
  rewrite sortBy_length. replace (length rs - 7)%nat with 0%nat by lia.
  reflexivity.
Qed.

(** C7: the mood trend has exactly 7 points.  Its moods are those of the
    last 7 reflections (a suffix, of length min(7, n), of the reflections
    sorted by date; the sorted array is a rearrangement of the reflections,
    ascending by date when every date is valid), after as many values 5 as
    are missing to 7.  With fewer than 7 reflections the trend is the
    padding followed by the moods of all the reflections in date order;
    three reflections in date order with the moods 8, 6, 7 yield
    5, 5, 5, 5, 8, 6, 7. *)
Theorem paddedMoods_length_7 (rs : list Reflection) :
  length (paddedMoods rs) = 7%nat
  /\ (exists older, sortBy compareByDate rs = older ++ last7Reflections rs)
  /\ length (last7Reflections rs) = Nat.min 7 (length rs)
  /\ Permutation (sortBy compareByDate rs) rs
  /\ (Forall hasValidDate rs ->
      StronglySorted (λ a b, timeOf a <= timeOf b) (sortBy compareByDate rs))
  /\ paddedMoods rs
     = replicate (7 - Nat.min 7 (length rs)) (Num 5) ++ map mood (last7Reflections rs)
  /\ ((length rs < 7)%nat ->
      paddedMoods rs
      = replicate (7 - length rs) (Num 5) ++ map mood (sortBy compareByDate rs))
  /\ (Sorted notAfter rs /\ map mood rs = [Num 8; Num 6; Num 7] ->
      paddedMoods rs = [Num 5; Num 5; Num 5; Num 5; Num 8; Num 6; Num 7]).
Proof.
  assert (paddedMoods rs
          = replicate (7 - Nat.min 7 (length rs)) (Num 5)
            ++ map mood (last7Reflections rs)) as Hpad.
  { unfold paddedMoods, maxPoints. rewrite last7Reflections_length. reflexivity. }
  assert ((length rs < 7)%nat ->
          paddedMoods rs
          = replicate (7 - length rs) (Num 5) ++ map mood (sortBy compareByDate rs))
    as Hshort.
  { intros Hlt. rewrite Hpad, last7Reflections_short by lia.
    rewrite Nat.min_r by lia. reflexivity. }
  split; [| split; [| split; [| split; [| split; [| split; [| split]]]]]].
  - rewrite Hpad, length_app, length_replicate, length_map, last7Reflections_length.
    lia.
  - exists (take (length (sortBy compareByDate rs) - 7) (sortBy compareByDate rs)).
    unfold last7Reflections, sliceLast. symmetry. apply take_drop.
  - apply last7Reflections_length.
  - apply sortBy_perm.
  - apply sortBy_by_time.
  - exact Hpad.
  - exact Hshort.
  - intros [Hsorted Hmoods].
    assert (length rs = 3%nat) as Hlen.
    { rewrite <- (length_map mood), Hmoods. reflexivity. }
    rewrite Hshort by lia. rewrite Hlen.
    rewrite (sortBy_sorted compareByDate rs Hsorted), Hmoods. reflexivity.
Qed.

Lemma paddedMoods_length_7_witness :
  paddedMoods [sampleReflection "2024-03-29" 8; sampleReflection "2024-03-30" 6;
               sampleReflection "2024-03-31" 7]
  = [Num 5; Num 5; Num 5; Num 5; Num 8; Num 6; Num 7].
Proof.
  apply (paddedMoods_length_7
           [sampleReflection "2024-03-29" 8; sampleReflection "2024-03-30" 6;
            sampleReflection "2024-03-31" 7]).
  split; [| reflexivity].
  repeat constructor.
Defined.

(** The length does not depend on how the sort orders the reflections:
    any array of the same length gives 7 points. *)
Lemma paddedMoods_any_order (sorted : list Reflection) :
  length (replicate (maxPoints - length (sliceLast 7 sorted)) (Num 5)
          ++ map mood (sliceLast 7 sorted)) = 7%nat.
Proof.
  rewrite length_app, length_replicate, length_map, sliceLast_length.
  unfold maxPoints. lia.
Qed.

(** The reflections need not be stored in date order: the trend follows
    the dates. *)
Lemma paddedMoods_unordered :
  paddedMoods [sampleReflection "2024-03-30" 6; sampleReflection "2024-03-31" 7;
               sampleReflection "2024-03-29" 8]
  = [Num 5; Num 5; Num 5; Num 5; Num 8; Num 6; Num 7].
Proof. vm_compute. reflexivity. Qed.

(** ** Weekly time distribution *)

Lemma fold_left_Zadd (l : list Z) (a : Z) : fold_left Z.add l a = a + sumZ l.
Proof.
  revert a. induction l as [| x l IH]; intros a; simpl; [lia |].
  rewrite IH. unfold sumZ. simpl. lia.
Qed.

Lemma sumValues_sumZ (m : gmap string Z) :
  sumValues m = sumZ (map snd (map_to_list m)).
Proof. unfold sumValues. rewrite fold_left_Zadd. lia. Qed.

Lemma sumZ_nonzero (es : list (string * Z)) :
  sumZ (map snd (filter (λ e, snd e <> 0) es)) = sumZ (map snd es).
Proof.
  induction es as [| e es IH]; [reflexivity |].
  rewrite filter_cons. destruct (decide (snd e <> 0)) as [Hne | Hz].
  - unfold sumZ in *. simpl. rewrite IH. reflexivity.
  - unfold sumZ in *. simpl. rewrite IH. lia.
Qed.

(** A rounded quotient is within one half of the quotient. *)
Lemma roundRatio_near (num den : Z) :
  0 < den -> - den < 2 * den * roundRatio num den - 2 * num <= den.
Proof.
  intros Hden. unfold roundRatio.
  pose proof (Z.div_mod (2 * num + den) (2 * den) ltac:(lia)) as Hdm.
  pose proof (Z.mod_pos_bound (2 * num + den) (2 * den) ltac:(lia)) as Hmod.
  lia.
Qed.

Lemma roundHalfEven_near (num den : Z) :
  0 < den -> 2 * Z.abs (roundHalfEven num den * den - num) <= den.
Proof.
  intros Hden. unfold roundHalfEven.
  pose proof (Z.div_mod num den ltac:(lia)) as Hdm.
  pose proof (Z.mod_pos_bound num den Hden) as Hmod.
  destruct (Z.ltb_spec (2 * (num mod den)) den) as [Hlow | Hhigh]; [lia |].
  destruct (Z.ltb_spec den (2 * (num mod den))) as [Hup | Htie]; [lia |].
  destruct (Z.even (num / den)); lia.
Qed.

(** The exponent leaves 53 bits before the point: the scaled quotient is
    at least 2^52 and below 2^53. *)
Lemma ulpExponent_scale (num den : Z) :
  0 < num -> 0 < den ->
  let e := ulpExponent num den in
  2 ^ 52 * (den * 2 ^ Z.max 0 e) <= num * 2 ^ Z.max 0 (- e)
  /\ num * 2 ^ Z.max 0 (- e) < 2 ^ 53 * (den * 2 ^ Z.max 0 e).
Proof.
  intros Hnum Hden. cbv zeta. unfold ulpExponent.
  pose proof (Z.log2_spec num Hnum) as [Hn Hn'].
  pose proof (Z.log2_spec den Hden) as [Hd' Hd].
  pose proof (Z.log2_nonneg num) as Hln. pose proof (Z.log2_nonneg den) as Hld.
  set (ln := Z.log2 num) in *. set (ld := Z.log2 den) in *.
  replace (Z.succ ld) with (ld + 1) in Hd by lia.
  replace (Z.succ ln) with (ln + 1) in Hn' by lia.
  set (e0 := ln - ld - 53).
  destruct (Z.leb_spec (2 ^ 53 * (den * 2 ^ Z.max 0 e0)) (num * 2 ^ Z.max 0 (- e0)))
    as [Hbig | Hsmall].
  - destruct (Z.le_gt_cases 0 e0) as [Hpos | Hneg].
    + rewrite (Z.max_r 0 (e0 + 1)) by lia.
      rewrite (Z.max_l 0 (- (e0 + 1))) by lia.
      rewrite (Z.max_r 0 e0), (Z.max_l 0 (- e0)) in Hbig by lia.
      replace (e0 + 1) with (Z.succ e0) by lia.
      rewrite Z.pow_succ_r by lia.
      change (2 ^ 53) with (2 * 2 ^ 52) in *. change (2 ^ 0) with 1 in *.
      split; [lia |].
      assert (2 * 2 ^ 52 * (2 ^ ld * (2 * 2 ^ e0)) = 2 ^ (ln + 1)) as Hpow.
      { change (2 * 2 ^ 52) with (2 ^ 53). change 2 with (2 ^ 1) at 3.
        rewrite <- !Z.pow_add_r by lia. f_equal. unfold e0. lia. }
      assert (0 < 2 ^ e0) by (apply Z.pow_pos_nonneg; lia).
      nia.
    + rewrite (Z.max_l 0 (e0 + 1)) by lia.
      rewrite (Z.max_r 0 (- (e0 + 1))) by lia.
      rewrite (Z.max_l 0 e0), (Z.max_r 0 (- e0)) in Hbig by lia.
      replace (- e0) with (Z.succ (- (e0 + 1))) in Hbig by lia.
      rewrite Z.pow_succ_r in Hbig by lia.
      change (2 ^ 53) with (2 * 2 ^ 52) in *. change (2 ^ 0) with 1 in *.
      split; [lia |].
      assert (2 ^ (ln + 1) * 2 ^ (- (e0 + 1)) = 2 * 2 ^ 52 * 2 ^ ld) as Hpow.
      { change (2 * 2 ^ 52) with (2 ^ 53).
        rewrite <- !Z.pow_add_r by lia. f_equal. unfold e0. lia. }
      assert (0 < 2 ^ (- (e0 + 1))) by (apply Z.pow_pos_nonneg; lia).
      nia.
  - split; [| exact Hsmall].
    destruct (Z.le_gt_cases e0 0) as [Hneg | Hpos].
    + rewrite (Z.max_l 0 e0), (Z.max_r 0 (- e0)) by lia.
      assert (2 ^ ln * 2 ^ (- e0) = 2 ^ 52 * 2 ^ (ld + 1)) as Hpow.
      { rewrite <- !Z.pow_add_r by lia. f_equal. unfold e0. lia. }
      assert (0 < 2 ^ (- e0)) by (apply Z.pow_pos_nonneg; lia).
      change (2 ^ 0) with 1. rewrite Z.mul_1_r. nia.
    + rewrite (Z.max_r 0 e0), (Z.max_l 0 (- e0)) by lia.
      change (2 ^ 0) with 1. rewrite Z.mul_1_r.
      assert (2 ^ 52 * (2 ^ (ld + 1) * 2 ^ e0) = 2 ^ ln) as Hpow.
      { rewrite <- !Z.pow_add_r by lia. f_equal. unfold e0. lia. }
      assert (0 < 2 ^ e0) by (apply Z.pow_pos_nonneg; lia).
      nia.
Qed.

(** The mantissa has 53 bits (2^53 itself when the rounding carries). *)
Lemma binary64_precision (num den : Z) :
  0 < num -> 0 < den ->
  let e := ulpExponent num den in
  2 ^ 52 <= roundHalfEven (num * 2 ^ Z.max 0 (- e)) (den * 2 ^ Z.max 0 e) <= 2 ^ 53.
Proof.
  intros Hnum Hden e.
  destruct (ulpExponent_scale num den Hnum Hden) as [Hlow Hhigh]. fold e in Hlow, Hhigh.
  assert (0 < 2 ^ Z.max 0 e) as Hu by (apply Z.pow_pos_nonneg; lia).
  pose proof (roundHalfEven_near (num * 2 ^ Z.max 0 (- e)) (den * 2 ^ Z.max 0 e)
                ltac:(lia)) as Hnear.
  set (m := roundHalfEven _ _) in *. set (n := num * 2 ^ Z.max 0 (- e)) in *.
  set (d := den * 2 ^ Z.max 0 e) in *. assert (0 < d) as Hd by (unfold d; lia).
  change (2 ^ 52) with 4503599627370496 in *.
  change (2 ^ 53) with 9007199254740992 in *.
  clearbody m n d. nia.
Qed.

Lemma binary64_den_pos (num den : Z) : 0 < snd (binary64 num den).
Proof. unfold binary64. simpl snd. apply Z.pow_pos_nonneg; lia. Qed.

(** The relative error of one rounding is at most 2^-53. *)
Lemma binary64_error (num den : Z) :
  0 < num -> 0 < den ->
  2 ^ 53 * Z.abs (fst (binary64 num den) * den - num * snd (binary64 num den))
  <= num * snd (binary64 num den).
Proof.
  intros Hnum Hden.
  destruct (ulpExponent_scale num den Hnum Hden) as [Hscale _].
  unfold binary64. cbn [fst snd].
  set (e := ulpExponent num den) in *.
  assert (0 < 2 ^ Z.max 0 e) as Hu by (apply Z.pow_pos_nonneg; lia).
  assert (0 < 2 ^ Z.max 0 (- e)) as Hv by (apply Z.pow_pos_nonneg; lia).
  set (u := 2 ^ Z.max 0 e) in *. set (v := 2 ^ Z.max 0 (- e)) in *.
  pose proof (roundHalfEven_near (num * v) (den * u) ltac:(lia)) as Hnear.
  set (m := roundHalfEven (num * v) (den * u)) in *.
  replace (m * u * den - num * v) with (m * (den * u) - num * v) by ring.
  change (2 ^ 53) with (2 ^ 52 * 2). change (2 ^ 52) with 4503599627370496 in *.
  lia.
Qed.

(** Two roundings in a row: the product computed is the exact one up to
    the factor (1 ± 2^-53)^2. *)
Lemma percent_error (time total : Z) :
  0 < time -> 0 < total ->
  let quotient := binary64 time total in
  let product := binary64 (fst quotient * 100) (snd quotient) in
  (2 ^ 53 - 1) * (2 ^ 53 - 1) * (100 * time * snd product)
  <= 2 ^ 53 * 2 ^ 53 * (fst product * total)
  <= (2 ^ 53 + 1) * (2 ^ 53 + 1) * (100 * time * snd product).
Proof.
  intros Htime Htotal quotient product.
  pose proof (binary64_den_pos time total) as Hb1.
  pose proof (binary64_error time total Htime Htotal) as Hq.
  fold quotient in Hb1, Hq.
  set (a1 := fst quotient) in *. set (b1 := snd quotient) in *.
  assert (0 < a1) as Ha1.
  { destruct (Z.lt_ge_cases 0 a1) as [Hpos | Hneg]; [exact Hpos | exfalso].
    assert (a1 * total <= 0) by nia.
    assert (0 < time * b1) by nia.
    change (2 ^ 53) with 9007199254740992 in Hq. lia. }
  pose proof (binary64_den_pos (a1 * 100) b1) as Hb2.
  pose proof (binary64_error (a1 * 100) b1 ltac:(lia) Hb1) as Hx.
  fold product in Hb2, Hx.
  set (a2 := fst product) in *. set (b2 := snd product) in *.
  change (2 ^ 53) with 9007199254740992 in *.
  clearbody a1 b1 a2 b2. clear quotient product.
  assert (9007199254740991 * (time * b1) <= 9007199254740992 * (a1 * total)
          <= 9007199254740993 * (time * b1)) as [Hq1 Hq2] by lia.
  assert (9007199254740991 * (100 * a1 * b2) <= 9007199254740992 * (a2 * b1)
          <= 9007199254740993 * (100 * a1 * b2)) as [Hx1 Hx2] by lia.
  clear Hq Hx.
  assert (0 <= b2 /\ 0 <= total) as [Hb2' Htotal'] by lia.
  split; apply (Z.mul_le_mono_pos_r _ _ b1 Hb1).
  - pose proof (Z.mul_le_mono_nonneg_l _ _ (9007199254740991 * 100 * b2)
                  ltac:(lia) Hq1) as H1.
    pose proof (Z.mul_le_mono_nonneg_l _ _ (9007199254740992 * total)
                  ltac:(lia) Hx1) as H2.
    lia.
  - pose proof (Z.mul_le_mono_nonneg_l _ _ (9007199254740993 * 100 * b2)
                  ltac:(lia) Hq2) as H1.
    pose proof (Z.mul_le_mono_nonneg_l _ _ (9007199254740992 * total)
                  ltac:(lia) Hx2) as H2.
    lia.
Qed.

(** The percentage shown is within one half of the exact share: a share
    that is not half-way between two integers is at least [1 / (2 total)]
    away from it, more than the two roundings can move it. *)
Lemma weeklyPercent_near (time total : Z) :
  0 < time < 2 ^ 44 -> 0 < total ->
  2 * Z.abs (weeklyPercent time total * total - 100 * time) <= total.
Proof.
  intros [Htime Hbound] Htotal.
  destruct (percent_error time total Htime Htotal) as (Hlow & Hhigh).
  unfold weeklyPercent.
  rewrite (Z.abs_eq time), (Z.abs_eq total) by lia.
  rewrite (Z.sgn_pos time), (Z.sgn_pos total) by lia.
  rewrite ?Z.mul_1_l.
  set (product := binary64 (fst (binary64 time total) * 100) (snd (binary64 time total)))
    in *.
  pose proof (binary64_den_pos (fst (binary64 time total) * 100)
                (snd (binary64 time total))) as Hb.
  fold product in Hb.
  pose proof (roundRatio_near (fst product) (snd product) Hb) as Hround.
  set (a := fst product) in *. set (b := snd product) in *.
  set (p := roundRatio a b) in *.
  change (2 ^ 44) with 17592186044416 in Hbound.
  change (2 ^ 53) with 9007199254740992 in Hlow, Hhigh.
  clearbody p a b. clear product.
  assert (0 < time * b) as Htb by nia.
  assert (0 < total * b) as HTb by nia.
  assert (time * b < 17592186044416 * b) as Hsmall by nia.
  assert (200 * time <= (2 * p + 1) * total) as Hupper.
  { destruct (Z.le_gt_cases (200 * time) ((2 * p + 1) * total)) as [Hle | Hgt];
      [exact Hle | exfalso].
    assert ((2 * p + 1) * total + 1 <= 200 * time) as Hgt' by lia.
    pose proof (Z.mul_le_mono_nonneg_l _ _ (9007199254740992 * 9007199254740992 * b)
                  ltac:(lia) Hgt') as H1.
    assert (2 * a + 1 <= 2 * b * p + b) as Hr by lia.
    pose proof (Z.mul_le_mono_nonneg_l _ _ (9007199254740992 * 9007199254740992 * total)
                  ltac:(lia) Hr) as H2.
    lia. }
  assert ((2 * p - 1) * total <= 200 * time) as Hlower.
  { destruct (Z.le_gt_cases ((2 * p - 1) * total) (200 * time)) as [Hle | Hgt];
      [exact Hle | exfalso].
    assert (200 * time + 1 <= (2 * p - 1) * total) as Hgt' by lia.
    pose proof (Z.mul_le_mono_nonneg_l _ _ (9007199254740992 * 9007199254740992 * b)
                  ltac:(lia) Hgt') as H1.
    assert (2 * b * p - b <= 2 * a) as Hr by lia.
    pose proof (Z.mul_le_mono_nonneg_l _ _ (9007199254740992 * 9007199254740992 * total)
                  ltac:(lia) Hr) as H2.
    lia. }
  lia.
Qed.

Lemma weeklyPercent_zero (total : Z) : weeklyPercent 0 total = 0.
Proof.
  unfold weeklyPercent. simpl Z.sgn. rewrite !Z.mul_0_l.
  set (product := binary64 _ _).
  pose proof (binary64_den_pos (fst (binary64 (Z.abs 0) (Z.abs total)) * 100)
                (snd (binary64 (Z.abs 0) (Z.abs total)))) as Hb.
  fold product in Hb. unfold roundRatio.
  apply Z.div_small. lia.
Qed.

(** The percentage agrees with the binary64 operations of the standard
    library's reference implementation on every time from -48 to 48 with
    every non-zero total from -48 to 48, and on pairs of large integers;
    23 minutes of 40 show 57 percent, the product being just below 57.5,
    where the exact share would round to 58. *)
Lemma weeklyPercent_binary64 :
  forallb (λ p, weeklyPercent (fst p) (snd p) =? referencePercent (fst p) (snd p))
    (percentGrid 48 ++ largePairs) = true
  /\ weeklyPercent 23 40 = 57
  /\ roundRatio (23 * 100) 40 = 58.
Proof.
  split; [vm_compute; reflexivity |]. split; vm_compute; reflexivity.
Qed.

Lemma percentages_near (total : Z) (es : list (string * Z)) :
  0 < total ->
  Forall (λ e, 0 < snd e < 2 ^ 44) es ->
  Z.abs (2 * total * sumZ (percentages total es) - 200 * sumZ (map snd es))
  <= Z.of_nat (length es) * total.
Proof.
  intros Htotal Hall. induction Hall as [| e es He Hes IH].
  - simpl. lia.
  - unfold percentages, sumZ in *. simpl map. simpl foldr. simpl length.
    pose proof (weeklyPercent_near (snd e) total He Htotal) as Hnear.
    lia.
Qed.

(** Buckets filled with non-negative minutes are non-negative. *)
Lemma addToBucket_nonneg (m : gmap string Z) (t : Task) :
  0 <= estMinutes t ->
  (forall c v, m !! c = Some v -> 0 <= v) ->
  forall c v, addToBucket m t !! c = Some v -> 0 <= v.
Proof.
  intros Ht Hm c v. unfold addToBucket.
  set (cat := if bool_decide (category t = "") then "Other" else category t).
  rewrite lookup_insert. destruct (decide (cat = c)) as [_ | _]; [| apply Hm].
  intros [= <-]. destruct (m !! cat) as [old |] eqn:Hold; simpl; [| lia].
  specialize (Hm _ _ Hold). lia.
Qed.

Lemma weeklyTimeByCategory_nonneg (cats : gmap string (list string))
    (weekly : list Task) :
  Forall (λ t, 0 <= estMinutes t) weekly ->
  forall c v, weeklyTimeByCategory cats weekly !! c = Some v -> 0 <= v.
Proof.
  unfold weeklyTimeByCategory. intros Hweekly.
  assert (forall c v, ((λ _ : list string, 0) <$> cats) !! c = Some v -> 0 <= v)
    as Hinit.
  { intros c v. rewrite lookup_fmap. destruct (cats !! c); simpl; [| discriminate].
    intros [= <-]. lia. }
  revert Hinit. generalize ((λ _ : list string, 0) <$> cats) as m.
  induction Hweekly as [| t weekly Ht Hweekly IH]; intros m Hm; simpl.
  - exact Hm.
  - apply IH. apply addToBucket_nonneg; assumption.
Qed.

Lemma weeklyTasks_nonneg (cutoff : Z) (tasks : list Task) :
  Forall (λ t, 0 <= estMinutes t) tasks ->
  Forall (λ t, 0 <= estMinutes t) (weeklyTasks cutoff tasks).
Proof.
  rewrite !Forall_forall. intros Hall t Ht. apply Hall.
  unfold weeklyTasks in Ht. apply list_elem_of_filter in Ht as [_ Ht]. exact Ht.
Qed.

Lemma sumZ_zero_nonneg (l : list Z) :
  Forall (λ v, 0 <= v) l -> sumZ l = 0 -> Forall (λ v, v = 0) l.
Proof.
  induction 1 as [| v l Hv Hl IH]; [constructor |].
  unfold sumZ in *. simpl. intros Hsum.
  assert (0 <= foldr Z.add 0 l) as Hrest.
  { clear IH Hsum. induction Hl as [| w l Hw Hl IH]; simpl; lia. }
  constructor; [lia | apply IH; lia].
Qed.

(** A non-negative bucket is at most the total. *)
Lemma sumZ_nonneg_bound (l : list Z) :
  Forall (λ v, 0 <= v) l -> Forall (λ v, v <= sumZ l) l /\ 0 <= sumZ l.
Proof.
  induction 1 as [| v l Hv Hl [IH Hsum]]; [split; [constructor | reflexivity] |].
  unfold sumZ in *. simpl. split; [| lia].
  constructor; [lia |]. eapply Forall_impl; [exact IH |].
  intros w Hw. simpl in Hw. lia.
Qed.

Lemma bucket_values (m : gmap string Z) (c : string) (v : Z) :
  m !! c = Some v -> v ∈ map snd (map_to_list m).
Proof.
  intros Hc. apply elem_of_map_to_list in Hc.
  change v with (snd (c, v)). apply (list_elem_of_fmap_2 snd). exact Hc.
Qed.

Lemma buckets_nonneg_values (m : gmap string Z) :
  (forall c v, m !! c = Some v -> 0 <= v) ->
  Forall (λ v, 0 <= v) (map snd (map_to_list m)).
Proof.
  intros Hm. apply Forall_forall. intros v Hv.
  apply (list_elem_of_fmap_1 snd) in Hv as ([c w] & -> & Hcw).
  apply elem_of_map_to_list in Hcw. exact (Hm _ _ Hcw).
Qed.

(** With non-negative buckets the rows of the legend are the non-zero
    buckets. *)
Lemma legendRows_nonZeroBuckets (m : gmap string Z) :
  (forall c v, m !! c = Some v -> 0 <= v) ->
  legendRows m
  = map (λ e, (fst e, weeklyPercent (snd e) (totalWeeklyTime m))) (nonZeroBuckets m).
Proof.
  intros Hm. unfold legendRows, nonZeroBuckets.
  replace (filter (λ e : string * Z, 0 < snd e) (map_to_list m))
    with (filter (λ e : string * Z, snd e <> 0) (map_to_list m)); [reflexivity |].
  pose proof (buckets_nonneg_values m Hm) as Hvalues.
  induction (map_to_list m) as [| e es IH]; [reflexivity |].
  simpl in Hvalues. apply Forall_cons in Hvalues as [He Hes].
  rewrite !filter_cons, (IH Hes).
  destruct (decide (snd e <> 0)), (decide (0 < snd e)); (reflexivity || lia).
Qed.

(** C6, amended: for a task list without negative minutes and a weekly
    total below 2^44 minutes.  When the weekly total is greater than 1 the
    panel shows the legend; its rows are the non-zero buckets, whose times
    add up to the total, each with the percentage
    [Math.round((time / total) * 100)], which is within one half of the
    exact share [100 time / total]; so the percentages shown add up to 100
    with an error of at most one half per non-zero bucket.  When the weekly
    total is 0 the divisor is 1, no legend is shown, every bucket is 0 and
    the percentage of every bucket is 0. *)
Theorem weekly_percentages (cats : gmap string (list string)) (cutoff : Z)
    (tasks : list Task) :
  let m := weeklyTimeByCategory cats (weeklyTasks cutoff tasks) in
  Forall (λ t, 0 <= estMinutes t) tasks ->
  sumValues m < 2 ^ 44 ->
  (1 < sumValues m ->
     weeklyFocusPanel m = Some (legendRows m)
     /\ legendRows m
        = map (λ e, (fst e, weeklyPercent (snd e) (sumValues m))) (nonZeroBuckets m)
     /\ sumZ (map snd (nonZeroBuckets m)) = sumValues m
     /\ Forall (λ e, 2 * Z.abs (weeklyPercent (snd e) (sumValues m) * sumValues m
                                - 100 * snd e) <= sumValues m)
          (nonZeroBuckets m)
     /\ 2 * Z.abs (sumZ (map snd (legendRows m)) - 100)
        <= Z.of_nat (length (nonZeroBuckets m)))
  /\ (sumValues m = 0 ->
      totalWeeklyTime m = 1
      /\ weeklyFocusPanel m = None
      /\ forall c time, m !! c = Some time ->
           time = 0 /\ weeklyPercent time (totalWeeklyTime m) = 0).
Proof.
  intros m Hnonneg Hbound.
  assert (forall c v, m !! c = Some v -> 0 <= v) as Hm.
  { apply weeklyTimeByCategory_nonneg, weeklyTasks_nonneg, Hnonneg. }
  pose proof (buckets_nonneg_values m Hm) as Hvalues.
  split.
  - intros Hpos.
    assert (totalWeeklyTime m = sumValues m) as Htotal.
    { unfold totalWeeklyTime. destruct (Z.eqb_spec (sumValues m) 0); [lia | reflexivity]. }
    assert (sumZ (map snd (nonZeroBuckets m)) = sumValues m) as Hsum.
    { unfold nonZeroBuckets. rewrite sumZ_nonzero, sumValues_sumZ. reflexivity. }
    assert (Forall (λ e, 0 < snd e < 2 ^ 44) (nonZeroBuckets m)) as Hsmall.
    { apply Forall_forall. intros e He. unfold nonZeroBuckets in He.
      apply list_elem_of_filter in He as [Hne He].
      apply (list_elem_of_fmap_2 snd) in He.
      destruct (sumZ_nonneg_bound _ Hvalues) as [Hle _].
      rewrite Forall_forall in Hvalues, Hle.
      specialize (Hvalues _ He). specialize (Hle _ He).
      rewrite <- sumValues_sumZ in Hle. lia. }
    assert (legendRows m
            = map (λ e, (fst e, weeklyPercent (snd e) (sumValues m))) (nonZeroBuckets m))
      as Hrows.
    { rewrite legendRows_nonZeroBuckets by exact Hm. rewrite Htotal. reflexivity. }
    split; [| split; [exact Hrows | split; [exact Hsum | split]]].
    + unfold weeklyFocusPanel. rewrite Htotal.
      destruct (Z.ltb_spec 1 (sumValues m)); [reflexivity | lia].
    + eapply Forall_impl; [exact Hsmall |].
      intros e He. simpl. apply weeklyPercent_near; [exact He | lia].
    + pose proof (percentages_near (sumValues m) (nonZeroBuckets m) ltac:(lia) Hsmall)
        as Hnear.
      rewrite Hsum in Hnear. rewrite Hrows, map_map. simpl.
      change (map (λ e : string * Z, weeklyPercent (snd e) (sumValues m))
                (nonZeroBuckets m))
        with (percentages (sumValues m) (nonZeroBuckets m)).
      nia.
  - intros Hzero.
    assert (totalWeeklyTime m = 1) as Hone.
    { unfold totalWeeklyTime. rewrite Hzero. reflexivity. }
    split; [exact Hone | split].
    + unfold weeklyFocusPanel. rewrite Hone. reflexivity.
    + intros c time Hc.
      pose proof (sumZ_zero_nonneg _ Hvalues) as Hall.
      rewrite <- sumValues_sumZ in Hall. specialize (Hall Hzero).
      rewrite Forall_forall in Hall.
      rewrite (Hall time (bucket_values m c time Hc)).
      split; [reflexivity | apply weeklyPercent_zero].
Qed.

Lemma weekly_percentages_witness :
  (2 * Z.abs (sumZ (map snd (legendRows
                               (weeklyTimeByCategory (categories sampleState)
                                  (weeklyTasks sampleCutoff thirds)))) - 100)
   <= Z.of_nat (length (nonZeroBuckets
                          (weeklyTimeByCategory (categories sampleState)
                             (weeklyTasks sampleCutoff thirds)))))
  /\ weeklyPercent 0 (totalWeeklyTime
                        (weeklyTimeByCategory (categories sampleState)
                           (weeklyTasks sampleCutoff idleWeek))) = 0.
Proof.
  split.
  - apply (weekly_percentages (categories sampleState) sampleCutoff thirds).
    + repeat (constructor; [vm_compute; discriminate |]). constructor.
    + vm_compute. reflexivity.
    + vm_compute. reflexivity.
  - destruct (weekly_percentages (categories sampleState) sampleCutoff idleWeek)
      as [_ Hzero].
    + repeat (constructor; [vm_compute; discriminate |]). constructor.
    + vm_compute. reflexivity.
    + destruct (Hzero ltac:(vm_compute; reflexivity)) as (_ & _ & Hbuckets).
      apply (Hbuckets "Work"). vm_compute. reflexivity.
Defined.

(** Three equal buckets show 33 percent each, 99 in all; a week without
    tasks shows no legend. *)
Lemma weekly_percentages_thirds :
  map snd (legendRows (weeklyTimeByCategory (categories sampleState)
                         (weeklyTasks sampleCutoff thirds))) = [33; 33; 33]
  /\ weeklyFocusPanel (weeklyTimeByCategory (categories sampleState)
                         (weeklyTasks sampleCutoff [])) = None.
Proof. split; vm_compute; reflexivity. Qed.

(** With a negative entry the claim fails: 60 minutes of work and -30
    minutes under Wellness make a weekly total of 30, so the panel shows
    the legend; of the two non-zero buckets it lists Work alone, at 200
    percent, which is not within rounding of 100. *)
Lemma weekly_percentages_negative_minutes :
  let m := weeklyTimeByCategory (categories refundState)
             (weeklyTasks sampleCutoff (tasks refundState)) in
  map estTime (tasks refundState) = [JNum 60; JNum (-30)]
  /\ 0 < sumValues m
  /\ map snd (nonZeroBuckets m) = [60; -30]
  /\ weeklyFocusPanel m = Some [("Work", 200)]
  /\ ~ (2 * Z.abs (sumZ (map snd (legendRows m)) - 100)
        <= Z.of_nat (length (nonZeroBuckets m))).
Proof.
  cbv zeta. split; [reflexivity |]. split; [vm_compute; reflexivity |].
  split; [vm_compute; reflexivity |]. split; [vm_compute; reflexivity |].
  vm_compute. intros Hle. apply Hle. reflexivity.
Qed.

(** A week of one minute in all has the total 1: the percentage of its
    bucket is 100, and the panel shows "No tasks this week". *)
Lemma weekly_percentages_one_minute :
  let m := weeklyTimeByCategory (categories sampleState)
             (weeklyTasks sampleCutoff [sampleTask "2024-03-31" (JNum 1)]) in
  sumValues m = 1 /\ map snd (legendRows m) = [100] /\ weeklyFocusPanel m = None.
Proof. repeat split; vm_compute; reflexivity. Qed.

(** * Further properties *)

(** ** Date strings read back *)

Lemma printsAs_year :
  forallb (printsAs 4) (map Z.of_nat (seq 0 (Z.to_nat 10000))) = true.
Proof. vm_compute. reflexivity. Qed.

Lemma printsAs_two :
  forallb (printsAs 2) (map Z.of_nat (seq 0 (Z.to_nat 100))) = true.
Proof. vm_compute. reflexivity. Qed.

Lemma readsAs_year :
  forallb (λ a, forallb (λ b, forallb (λ c, forallb (λ d,
    readsAs 4 [a; b; c; d]) digitValues) digitValues) digitValues) digitValues
  = true.
Proof. vm_compute. reflexivity. Qed.

Lemma readsAs_two :
  forallb (λ a, forallb (λ b, readsAs 2 [a; b]) digitValues) digitValues = true.
Proof. vm_compute. reflexivity. Qed.

Lemma length_list_ascii_of_string (s : string) :
  length (list_ascii_of_string s) = String.length s.
Proof. induction s as [| c s IH]; simpl; [reflexivity | rewrite IH; reflexivity]. Qed.

Lemma printsAs_below (width : nat) (bound n : Z) :
  forallb (printsAs width) (map Z.of_nat (seq 0 (Z.to_nat bound))) = true ->
  0 <= n < bound ->
  decimalDigits 0 (list_ascii_of_string (padStart width n)) = Some n
  /\ length (list_ascii_of_string (padStart width n)) = width.
Proof.
  intros Hall Hn. rewrite forallb_forall in Hall.
  assert (In n (map Z.of_nat (seq 0 (Z.to_nat bound)))) as Hin.
  { apply in_map_iff. exists (Z.to_nat n). split; [lia |]. apply in_seq. lia. }
  specialize (Hall n Hin). unfold printsAs in Hall.
  destruct (decimalDigits 0 (list_ascii_of_string (padStart width n))) as [v |];
    [| discriminate Hall].
  apply andb_true_iff in Hall as [Hv Hlen].
  apply Z.eqb_eq in Hv. apply Nat.eqb_eq in Hlen. subst v.
  split; [reflexivity |].
  rewrite length_list_ascii_of_string. exact Hlen.
Qed.

Lemma list_ascii_of_string_app (s1 s2 : string) :
  list_ascii_of_string (s1 +:+ s2)
  = list_ascii_of_string s1 ++ list_ascii_of_string s2.
Proof. induction s1 as [| c s1 IH]; simpl; [reflexivity | rewrite IH; reflexivity]. Qed.

Lemma validCivil_year (c : Civil) :
  validCivil c = true -> (0 <=? year c) && (year c <=? 9999) = true.
Proof.
  intros Hvalid. apply validCivil_bounds in Hvalid as (Hy & _ & _).
  apply andb_true_iff. rewrite !Z.leb_le. exact Hy.
Qed.

Lemma daysInMonth_bounds (y m : Z) : 28 <= daysInMonth y m <= 31.
Proof.
  unfold daysInMonth.
  destruct (m =? 2); [destruct (isLeapYear y); lia |].
  destruct ((m =? 4) || (m =? 6) || (m =? 9) || (m =? 11)); lia.
Qed.

(** A date printed by [toISOString] is read back by [new Date] as the same
    calendar day. *)
Lemma parseISODate_isoDate (c : Civil) :
  validCivil c = true -> parseISODate (isoDate c) = Some c.
Proof.
  intros Hvalid. pose proof (validCivil_bounds c Hvalid) as (Hy & Hm & Hd).
  pose proof (daysInMonth_bounds (year c) (month c)) as Hdim.
  destruct (printsAs_below 4 10000 (year c) printsAs_year ltac:(lia)) as [Hyv Hyl].
  destruct (printsAs_below 2 100 (month c) printsAs_two ltac:(lia)) as [Hmv Hml].
  destruct (printsAs_below 2 100 (day c) printsAs_two ltac:(lia)) as [Hdv Hdl].
  unfold parseISODate, isoDate. rewrite (validCivil_year c Hvalid).
  rewrite !list_ascii_of_string_app.
  destruct (list_ascii_of_string (padStart 4 (year c)))
    as [| y1 [| y2 [| y3 [| y4 [| ? ?]]]]]; try discriminate Hyl.
  destruct (list_ascii_of_string (padStart 2 (month c)))
    as [| m1 [| m2 [| ? ?]]]; try discriminate Hml.
  destruct (list_ascii_of_string (padStart 2 (day c)))
    as [| d1 [| d2 [| ? ?]]]; try discriminate Hdl.
  cbn [list_ascii_of_string app]. cbn [Ascii.eqb Bool.eqb andb].
  rewrite Hyv, Hmv, Hdv. destruct c as [y m d]. simpl in *. rewrite Hvalid.
  reflexivity.
Qed.

Lemma decimalDigit_char (c : ascii) (v : Z) :
  decimalDigit c = Some v -> c = digitChar v /\ In v digitValues.
Proof.
  destruct c as [[] [] [] [] [] [] [] []]; vm_compute; intros Hv;
    try discriminate Hv; injection Hv as <-; split; try reflexivity; tauto.
Qed.

Lemma decimalDigit_digitChar (v : Z) :
  In v digitValues -> decimalDigit (digitChar v) = Some v.
Proof.
  intros Hv. simpl in Hv.
  repeat (destruct Hv as [<- | Hv]; [reflexivity |]). contradiction.
Qed.

Lemma decimalDigits_two (a b : ascii) (n : Z) :
  decimalDigits 0 [a; b] = Some n -> padStart 2 n = string_of_list_ascii [a; b].
Proof.
  cbn [decimalDigits].
  destruct (decimalDigit a) as [va |] eqn:Ha; [| discriminate].
  destruct (decimalDigit b) as [vb |] eqn:Hb; [| discriminate].
  apply decimalDigit_char in Ha as [-> Hva].
  apply decimalDigit_char in Hb as [-> Hvb].
  intros [= <-]. pose proof readsAs_two as Hall.
  rewrite forallb_forall in Hall. specialize (Hall va Hva).
  rewrite forallb_forall in Hall. specialize (Hall vb Hvb).
  unfold readsAs in Hall. cbn [map decimalDigits] in Hall.
  rewrite !decimalDigit_digitChar in Hall by assumption.
  apply bool_decide_eq_true in Hall. exact Hall.
Qed.

Lemma decimalDigits_four (a b c d : ascii) (n : Z) :
  decimalDigits 0 [a; b; c; d] = Some n ->
  padStart 4 n = string_of_list_ascii [a; b; c; d].
Proof.
  cbn [decimalDigits].
  destruct (decimalDigit a) as [va |] eqn:Ha; [| discriminate].
  destruct (decimalDigit b) as [vb |] eqn:Hb; [| discriminate].
  destruct (decimalDigit c) as [vc |] eqn:Hc; [| discriminate].
  destruct (decimalDigit d) as [vd |] eqn:Hd; [| discriminate].
  apply decimalDigit_char in Ha as [-> Hva].
  apply decimalDigit_char in Hb as [-> Hvb].
  apply decimalDigit_char in Hc as [-> Hvc].
  apply decimalDigit_char in Hd as [-> Hvd].
  intros [= <-]. pose proof readsAs_year as Hall.
  rewrite forallb_forall in Hall. specialize (Hall va Hva).
  rewrite forallb_forall in Hall. specialize (Hall vb Hvb).
  rewrite forallb_forall in Hall. specialize (Hall vc Hvc).
  rewrite forallb_forall in Hall. specialize (Hall vd Hvd).
  unfold readsAs in Hall. cbn [map decimalDigits] in Hall.
  rewrite !decimalDigit_digitChar in Hall by assumption.
  apply bool_decide_eq_true in Hall. exact Hall.
Qed.

(** A date string that [new Date] reads is what [toISOString] prints for
    the day it denotes. *)
Lemma isoDate_parseISODate (s : string) (c : Civil) :
  parseISODate s = Some c -> isoDate c = s.
Proof.
  intros Hparse. pose proof (parseISODate_valid s c Hparse) as Hvalid.
  unfold parseISODate in Hparse.
  rewrite <- (string_of_list_ascii_of_string s).
  destruct (list_ascii_of_string s)
    as [| y1 [| y2 [| y3 [| y4 [| h1 [| m1 [| m2 [| h2 [| d1 [| d2 [| ? ?]]]]]]]]]]];
    try discriminate.
  destruct (Ascii.eqb h1 "-") eqn:Hh1; [| discriminate].
  destruct (Ascii.eqb h2 "-") eqn:Hh2; [| discriminate].
  apply Ascii.eqb_eq in Hh1, Hh2. subst h1 h2. cbn [andb] in Hparse.
  destruct (decimalDigits 0 [y1; y2; y3; y4]) as [y |] eqn:Hy; [| discriminate].
  destruct (decimalDigits 0 [m1; m2]) as [m |] eqn:Hm; [| discriminate].
  destruct (decimalDigits 0 [d1; d2]) as [d |] eqn:Hd; [| discriminate].
  destruct (validCivil (mkCivil y m d)); [| discriminate].
  injection Hparse as <-.
  unfold isoDate. rewrite (validCivil_year _ Hvalid). cbn [year month day].
  rewrite (decimalDigits_four _ _ _ _ _ Hy), (decimalDigits_two _ _ _ Hm),
    (decimalDigits_two _ _ _ Hd).
  reflexivity.
Qed.

(** ** The next day, read back *)

Lemma validCivil_nextDay (c : Civil) :
  validCivil c = true -> c <> mkCivil 9999 12 31 -> validCivil (nextDay c) = true.
Proof.
  intros Hvalid Hlast. pose proof (validCivil_bounds c Hvalid) as (Hy & Hm & Hd).
  destruct c as [y m d]. simpl in *. unfold nextDay, validCivil. simpl.
  destruct (Z.ltb_spec d (daysInMonth y m)) as [Hlt | Hge]; simpl.
  - rewrite !andb_true_iff, !Z.leb_le. lia.
  - destruct (Z.ltb_spec m 12) as [Hm12 | Hm12]; simpl.
    + pose proof (daysInMonth_bounds y (m + 1)).
      rewrite !andb_true_iff, !Z.leb_le. lia.
    + assert (m = 12) as -> by lia.
      assert (d = 31) as -> by (unfold daysInMonth in *; simpl in *; lia).
      assert (y <> 9999) by congruence.
      rewrite !andb_true_iff, !Z.leb_le. unfold daysInMonth. simpl. lia.
Qed.

(** X1: in a time zone from UTC+12:00 to UTC-11:59, for every date string
    the date field can hold except the last day of the year 9999,
    [getNextDayStr] returns a string that reads back as a date, a different
    string from its argument, and the day it denotes has the next day
    number. *)
Theorem getNextDayStr_reads_back (tz : Civil -> Z) (s : string) (d : Civil) :
  parseISODate s = Some d ->
  -720 <= tz (nextDay d) < 720 ->
  d <> mkCivil 9999 12 31 ->
  exists s', getNextDayStr tz s = Some s'
    /\ parseISODate s' = Some (nextDay d)
    /\ dayNumber (nextDay d) = dayNumber d + 1
    /\ s' <> s.
Proof.
  intros Hparse Hzone Hlast.
  pose proof (parseISODate_valid s d Hparse) as Hvalid.
  pose proof (dayNumber_nextDay d Hvalid) as Hnum.
  exists (isoDate (nextDay d)).
  split; [apply getNextDayStr_same_day; assumption |].
  assert (parseISODate (isoDate (nextDay d)) = Some (nextDay d)) as Hback.
  { apply parseISODate_isoDate, validCivil_nextDay; assumption. }
  split; [exact Hback | split; [exact Hnum |]].
  intros Hsame. rewrite Hsame, Hparse in Hback. injection Hback as Hd.
  rewrite <- Hd in Hnum. lia.
Qed.

Lemma getNextDayStr_reads_back_witness :
  exists s', getNextDayStr (λ _, 300) "2024-12-31" = Some s'
    /\ parseISODate s' = Some (nextDay (mkCivil 2024 12 31))
    /\ dayNumber (nextDay (mkCivil 2024 12 31)) = dayNumber (mkCivil 2024 12 31) + 1
    /\ s' <> "2024-12-31".
Proof.
  apply (getNextDayStr_reads_back (λ _, 300) "2024-12-31" (mkCivil 2024 12 31)).
  - vm_compute. reflexivity.
  - simpl. lia.
  - discriminate.
Defined.

Lemma withDate_same (t : Task) : withDate t (task_date t) = t.
Proof. destruct t. reflexivity. Qed.

(** X2: on a host more than 12 hours ahead of UTC (offsets down to
    UTC+36:00 are covered), [getNextDayStr] returns the date string it was
    given, and saving a reflection leaves the whole task list as it was,
    whatever boxes are checked. *)
Theorem rollover_ahead_of_utc (now : Z) (tz : Civil -> Z) (today : string)
    (fd : FormData) (st : AppState) (d : Civil) :
  parseISODate (selectedDate st) = Some d ->
  -2160 <= tz (nextDay d) < -720 ->
  getNextDayStr tz (selectedDate st) = Some (selectedDate st)
  /\ tasks (fst (saveReflection now tz today fd st)) = tasks st.
Proof.
  intros Hparse Hzone.
  assert (getNextDayStr tz (selectedDate st) = Some (selectedDate st)) as Hnext.
  { rewrite (getNextDayStr_ahead_same tz _ d Hparse Hzone).
    rewrite (isoDate_parseISODate _ _ Hparse). reflexivity. }
  split; [exact Hnext |].
  rewrite tasks_saveReflection, Hnext.
  induction (tasks st) as [| t ts IH]; [reflexivity |].
  simpl. rewrite IH. f_equal. unfold rolled, shouldRecycle.
  destruct (bool_decide (task_date t = selectedDate st)) eqn:Hd; [| reflexivity].
  apply bool_decide_eq_true in Hd. rewrite <- Hd.
  destruct (_ && _); [apply withDate_same | reflexivity].
Qed.

Lemma rollover_ahead_of_utc_witness :
  getNextDayStr utcPlus13 (selectedDate sampleState) = Some (selectedDate sampleState)
  /\ tasks (fst (saveReflection 1711875600000 utcPlus13 "2024-03-31" sampleForm
                   sampleState)) = tasks sampleState.
Proof.
  apply (rollover_ahead_of_utc 1711875600000 utcPlus13 "2024-03-31" sampleForm
           sampleState (mkCivil 2024 3 31)).
  - vm_compute. reflexivity.
  - unfold utcPlus13. lia.
Defined.

(** ** What saving a reflection reports and leaves behind *)

Lemma outcome_saveReflection (now : Z) (tz : Civil -> Z) (today : string)
    (fd : FormData) (st : AppState) :
  snd (saveReflection now tz today fd st)
  = match getNextDayStr tz (selectedDate st) with
    | None => ThrewRangeError
    | Some _ =>
        match length (filter (λ t, shouldRecycle (selectedDate st) fd t) (tasks st)) with
        | O => AlertSaved
        | S n => AlertRolledOver (S n) (bool_decide (selectedDate st = today))
        end
    end.
Proof.
  unfold saveReflection.
  destruct (getNextDayStr tz (selectedDate st)) as [next |]; [| reflexivity].
  unfold rollover. rewrite rollover_fold. simpl.
  destruct (length (filter (λ t, shouldRecycle (selectedDate st) fd t) (tasks st)));
    reflexivity.
Qed.

(** X3: when the selected date is a valid date string, the handler reports
    as rolled over exactly the number of tasks that are dated on the
    selected date, not Done and checked in the form, and says "tomorrow"
    exactly when the selected date is today; with no such task it reports a
    plain save and the task list is the same. *)
Theorem saveReflection_reports_count (now : Z) (tz : Civil -> Z) (today : string)
    (fd : FormData) (st : AppState) (next : string) :
  getNextDayStr tz (selectedDate st) = Some next ->
  let selected := filter (λ t, shouldRecycle (selectedDate st) fd t) (tasks st) in
  (selected = [] ->
     snd (saveReflection now tz today fd st) = AlertSaved
     /\ tasks (fst (saveReflection now tz today fd st)) = tasks st)
  /\ (selected <> [] ->
     snd (saveReflection now tz today fd st)
     = AlertRolledOver (length selected) (bool_decide (selectedDate st = today))).
Proof.
  intros Hnext selected. rewrite outcome_saveReflection, tasks_saveReflection, Hnext.
  fold selected. split.
  - intros Hnone. rewrite Hnone. split; [reflexivity |].
    apply rolled_none. fold selected. rewrite Hnone. reflexivity.
  - intros Hsome. destruct selected; [contradiction | reflexivity].
Qed.

Lemma saveReflection_reports_count_witness :
  snd (saveReflection 1711922400000 (λ _, 0) "2024-03-31" sampleForm sampleState)
  = AlertRolledOver
      (length (filter (λ t, shouldRecycle (selectedDate sampleState) sampleForm t)
                 (tasks sampleState)))
      (bool_decide (selectedDate sampleState = "2024-03-31")).
Proof.
  apply (saveReflection_reports_count 1711922400000 (λ _, 0) "2024-03-31"
           sampleForm sampleState "2024-04-01").
  - vm_compute. reflexivity.
  - vm_compute. discriminate.
Defined.

Lemma shouldRecycle_rolled (d : string) (fd : FormData) (next : string) (t : Task) :
  next <> d -> shouldRecycle d fd (rolled d fd next t) = false.
Proof.
  intros Hne. unfold rolled.
  destruct (shouldRecycle d fd t) eqn:Hrec; [| exact Hrec].
  unfold shouldRecycle. simpl.
  rewrite (bool_decide_eq_false_2 (next = d)) by exact Hne. reflexivity.
Qed.

Lemma rolled_rolled (d : string) (fd : FormData) (next next' : string)
    (ts : list Task) :
  next <> d ->
  map (rolled d fd next') (map (rolled d fd next) ts) = map (rolled d fd next) ts.
Proof.
  intros Hne. rewrite map_map. apply map_ext. intros t.
  unfold rolled at 1. rewrite shouldRecycle_rolled by exact Hne. reflexivity.
Qed.

Lemma selectedDate_saveReflection (now : Z) (tz : Civil -> Z) (today : string)
    (fd : FormData) (st : AppState) :
  selectedDate (fst (saveReflection now tz today fd st)) = selectedDate st.
Proof.
  unfold saveReflection.
  destruct (getNextDayStr tz (selectedDate st)) as [next |]; [| reflexivity].
  destruct (rollover (selectedDate st) fd next (tasks st)) as [n ts].
  destruct (0 <? n)%nat; reflexivity.
Qed.

(** X4: in a time zone from UTC+12:00 to UTC-11:59, after a reflection is
    saved no task left on the selected date is selected for the rollover
    any more; saving again with the same form reports a plain save and
    changes no task. *)
Theorem saveReflection_again (now now' : Z) (tz : Civil -> Z) (today : string)
    (fd : FormData) (st : AppState) (d : Civil) :
  parseISODate (selectedDate st) = Some d ->
  -720 <= tz (nextDay d) < 720 ->
  d <> mkCivil 9999 12 31 ->
  let st' := fst (saveReflection now tz today fd st) in
  Forall (λ t, shouldRecycle (selectedDate st) fd t = false) (tasks st')
  /\ tasks (fst (saveReflection now' tz today fd st')) = tasks st'
  /\ snd (saveReflection now' tz today fd st') = AlertSaved.
Proof.
  intros Hparse Hzone Hlast st'.
  assert (getNextDayStr tz (selectedDate st) = Some (isoDate (nextDay d))) as Hnext
    by (apply getNextDayStr_same_day; assumption).
  assert (isoDate (nextDay d) <> selectedDate st) as Hne.
  { intros Hsame.
    pose proof (parseISODate_isoDate (nextDay d)
                  (validCivil_nextDay d (parseISODate_valid _ _ Hparse) Hlast)) as Hback.
    rewrite Hsame, Hparse in Hback. injection Hback as Hd.
    pose proof (dayNumber_nextDay d (parseISODate_valid _ _ Hparse)) as Hnum.
    rewrite <- Hd in Hnum. lia. }
  assert (tasks st' = map (rolled (selectedDate st) fd (isoDate (nextDay d))) (tasks st))
    as Htasks.
  { unfold st'. rewrite tasks_saveReflection, Hnext. reflexivity. }
  assert (Forall (λ t, shouldRecycle (selectedDate st) fd t = false) (tasks st'))
    as Hclear.
  { rewrite Htasks. apply Forall_forall. intros t Ht.
    apply list_elem_of_fmap in Ht as (t0 & -> & _).
    apply shouldRecycle_rolled. exact Hne. }
  assert (filter (λ t, shouldRecycle (selectedDate st) fd t) (tasks st') = []) as Hnone.
  { apply filter_none. eapply Forall_impl; [exact Hclear |].
    intros t Ht. simpl in *. rewrite Ht. intros []. }
  split; [exact Hclear |].
  assert (selectedDate st' = selectedDate st) as Hsel
    by apply selectedDate_saveReflection.
  rewrite outcome_saveReflection, tasks_saveReflection, Hsel, Hnext, Hnone.
  split; [| reflexivity].
  rewrite Htasks. apply rolled_rolled. exact Hne.
Qed.

Lemma saveReflection_again_witness :
  Forall (λ t, shouldRecycle (selectedDate sampleState) sampleForm t = false)
    (tasks (fst (saveReflection 1711922400000 (λ _, 0) "2024-03-31" sampleForm
                   sampleState)))
  /\ tasks (fst (saveReflection 1711922460000 (λ _, 0) "2024-03-31" sampleForm
                   (fst (saveReflection 1711922400000 (λ _, 0) "2024-03-31"
                           sampleForm sampleState))))
     = tasks (fst (saveReflection 1711922400000 (λ _, 0) "2024-03-31" sampleForm
                     sampleState))
  /\ snd (saveReflection 1711922460000 (λ _, 0) "2024-03-31" sampleForm
            (fst (saveReflection 1711922400000 (λ _, 0) "2024-03-31"
                    sampleForm sampleState))) = AlertSaved.
Proof.
  apply (saveReflection_again 1711922400000 1711922460000 (λ _, 0) "2024-03-31"
           sampleForm sampleState (mkCivil 2024 3 31)).
  - vm_compute. reflexivity.
  - simpl. lia.
  - discriminate.
Defined.

(** X5: with the date field cleared (the selected date is the empty
    string) the handler throws while it computes the next day: no alert is
    shown and no task changes, but the reflection, dated with the empty
    string, is already stored in place of any earlier one with that date. *)
Theorem saveReflection_cleared_date (now : Z) (tz : Civil -> Z) (today : string)
    (fd : FormData) (st : AppState) :
  selectedDate st = "" ->
  snd (saveReflection now tz today fd st) = ThrewRangeError
  /\ tasks (fst (saveReflection now tz today fd st)) = tasks st
  /\ filter (λ r, ref_date r = "") (reflections (fst (saveReflection now tz today fd st)))
     = [newReflection now fd ""].
Proof.
  intros Hempty.
  rewrite outcome_saveReflection, tasks_saveReflection, reflections_saveReflection.
  rewrite Hempty. split; [reflexivity | split; [reflexivity |]].
  change "" with (ref_date (newReflection now fd "")) at 1.
  apply replaceReflection_dated.
Qed.

Lemma saveReflection_cleared_date_witness :
  snd (saveReflection 1711922400000 (λ _, 0) "2024-03-31" sampleForm
         (mkAppState (categories sampleState) (tasks sampleState)
            (reflections sampleState) "" "Work" (taskForm sampleState)))
  = ThrewRangeError.
Proof.
  apply (saveReflection_cleared_date 1711922400000 (λ _, 0) "2024-03-31" sampleForm
           (mkAppState (categories sampleState) (tasks sampleState)
              (reflections sampleState) "" "Work" (taskForm sampleState))).
  reflexivity.
Defined.

(** ** Toggling a task *)

Lemma viewedTasks_map (f : Task -> Task) (ts : list Task) (d : string) :
  (forall t, task_date (f t) = task_date t) ->
  viewedTasks (map f ts) d = map f (viewedTasks ts d).
Proof.
  intros Hdate. unfold viewedTasks. induction ts as [| t ts IH]; [reflexivity |].
  simpl. rewrite !filter_cons, Hdate, IH.
  destruct (decide (task_date t = d)); reflexivity.
Qed.

Lemma toggleTask_fields (id : string) (t : Task) :
  task_date (toggleTask id t) = task_date t
  /\ estMinutes (toggleTask id t) = estMinutes t
  /\ forgetStatus (toggleTask id t) = forgetStatus t.
Proof.
  unfold toggleTask. destruct (bool_decide (task_id t = id)); repeat split.
Qed.

Lemma overloadStats_map (f : Task -> Task) (viewed : list Task) :
  (forall t, estMinutes (f t) = estMinutes t) ->
  overloadStats (map f viewed) = overloadStats viewed.
Proof.
  intros Hmin. unfold overloadStats. rewrite length_map.
  assert (fold_left (λ acc t, acc + estMinutes t) (map f viewed) 0
          = fold_left (λ acc t, acc + estMinutes t) viewed 0) as ->.
  { rewrite !fold_left_add_acc, map_map. do 2 f_equal.
    apply map_ext. exact Hmin. }
  reflexivity.
Qed.

(** X6: toggling a task changes statuses only: the task list is the same
    up to the status fields, and for every date the overload statistics of
    the viewed tasks are what they were. *)
Theorem toggleTaskStatus_keeps_load (id : string) (st : AppState) (d : string) :
  map forgetStatus (tasks (toggleTaskStatus id st)) = map forgetStatus (tasks st)
  /\ overloadStats (viewedTasks (tasks (toggleTaskStatus id st)) d)
     = overloadStats (viewedTasks (tasks st) d)
  /\ categories (toggleTaskStatus id st) = categories st
  /\ reflections (toggleTaskStatus id st) = reflections st.
Proof.
  split; [| split; [| split; reflexivity]].
  - simpl. rewrite map_map. apply map_ext. intros t. apply toggleTask_fields.
  - simpl. rewrite viewedTasks_map by (intros t; apply toggleTask_fields).
    apply overloadStats_map. intros t. apply toggleTask_fields.
Qed.

Lemma toggleTask_thrice (id : string) (t : Task) :
  toggleTask id (toggleTask id (toggleTask id t)) = toggleTask id t.
Proof.
  unfold toggleTask. destruct (bool_decide (task_id t = id)) eqn:Hid; simpl;
    rewrite ?Hid; [| reflexivity].
  destruct (bool_decide (status t = "Done")); simpl; rewrite ?Hid; reflexivity.
Qed.

Lemma toggleTask_twice (id : string) (t : Task) :
  (task_id t = id -> status t = "Done" \/ status t = "Not Started") ->
  toggleTask id (toggleTask id t) = t.
Proof.
  intros Hstatus. unfold toggleTask.
  destruct (bool_decide (task_id t = id)) eqn:Hid; simpl; rewrite ?Hid;
    [| reflexivity].
  apply bool_decide_eq_true in Hid.
  destruct t as [i dt ti c sc e s]. simpl in *.
  destruct (Hstatus Hid) as [-> | ->]; reflexivity.
Qed.

(** X7: toggling the same task twice restores the task list when the
    tasks with that id have the status ['Done'] or ['Not Started'] (the only
    ones the handlers write); whatever the statuses are, the third toggle
    gives what the first one gave. *)
Theorem toggleTaskStatus_twice (id : string) (st : AppState) :
  (Forall (λ t, task_id t = id -> status t = "Done" \/ status t = "Not Started")
     (tasks st) ->
   tasks (toggleTaskStatus id (toggleTaskStatus id st)) = tasks st)
  /\ tasks (toggleTaskStatus id (toggleTaskStatus id (toggleTaskStatus id st)))
     = tasks (toggleTaskStatus id st).
Proof.
  split.
  - intros Hall. simpl. rewrite map_map.
    induction Hall as [| t ts Ht Hts IH]; [reflexivity |].
    simpl. rewrite IH, toggleTask_twice by exact Ht. reflexivity.
  - simpl. rewrite !map_map. apply map_ext. intros t. apply toggleTask_thrice.
Qed.

Lemma toggleTaskStatus_twice_witness :
  tasks (toggleTaskStatus "1711886400000"
           (toggleTaskStatus "1711886400000" sampleState)) = tasks sampleState.
Proof.
  apply (toggleTaskStatus_twice "1711886400000" sampleState).
  constructor; [| constructor].
  intros _. right. reflexivity.
Defined.

(** X8: a task that is marked Done by a toggle is not rolled over by the
    reflection saved afterwards, whatever the form says: it keeps its date
    and is Done. *)
Theorem toggled_task_stays (id : string) (now : Z) (tz : Civil -> Z)
    (today : string) (fd : FormData) (st : AppState) (i : nat) (t : Task) :
  tasks st !! i = Some t -> task_id t = id -> status t <> "Done" ->
  tasks (fst (saveReflection now tz today fd (toggleTaskStatus id st))) !! i
  = Some (withStatus t "Done").
Proof.
  intros Hi Hid Hs. rewrite tasks_saveReflection.
  assert (tasks (toggleTaskStatus id st) !! i = Some (withStatus t "Done")) as Hi'.
  { simpl. rewrite list_lookup_fmap, Hi. simpl. unfold toggleTask.
    rewrite (bool_decide_eq_true_2 _ Hid), (bool_decide_eq_false_2 _ Hs).
    reflexivity. }
  destruct (getNextDayStr tz (selectedDate (toggleTaskStatus id st))) as [next |];
    [| exact Hi'].
  rewrite list_lookup_fmap, Hi'. simpl. unfold rolled.
  rewrite shouldRecycle_false; [reflexivity |]. right. left. reflexivity.
Qed.

Lemma toggled_task_stays_witness :
  tasks (fst (saveReflection 1711922400000 (λ _, 0) "2024-03-31" sampleForm
                (toggleTaskStatus "1711886400000" sampleState))) !! 0%nat
  = Some (withStatus (sampleTask "2024-03-31" (JNum 45)) "Done").
Proof.
  apply (toggled_task_stays "1711886400000" 1711922400000 (λ _, 0) "2024-03-31"
           sampleForm sampleState 0 (sampleTask "2024-03-31" (JNum 45))).
  - reflexivity.
  - reflexivity.
  - discriminate.
Defined.

(** ** Adding tasks *)

Lemma parseInt_JNumber (x : Number) : parseInt (JNumber x) = x.
Proof. destruct x as [| n]; [reflexivity | apply parseInt_JNum]. Qed.

Lemma viewedTasks_app (ts1 ts2 : list Task) (d : string) :
  viewedTasks (ts1 ++ ts2) d = viewedTasks ts1 d ++ viewedTasks ts2 d.
Proof. unfold viewedTasks. apply filter_app. Qed.

Lemma viewedTasks_snoc (ts : list Task) (t : Task) (d : string) :
  viewedTasks (ts ++ [t]) d
  = if decide (task_date t = d) then viewedTasks ts d ++ [t] else viewedTasks ts d.
Proof.
  rewrite viewedTasks_app. unfold viewedTasks. rewrite filter_cons, filter_nil.
  destruct (decide (task_date t = d)); [reflexivity | apply app_nil_r].
Qed.

Lemma overloadStats_snoc (viewed : list Task) (t : Task) :
  totalMins (overloadStats (viewed ++ [t]))
  = totalMins (overloadStats viewed) + estMinutes t
  /\ totalTasks (overloadStats (viewed ++ [t])) = S (totalTasks (overloadStats viewed)).
Proof.
  rewrite !totalMins_sum, map_app. unfold sumZ. rewrite foldr_app. simpl.
  split.
  - generalize (map estMinutes viewed) as l. intros l.
    induction l as [| x l IH]; simpl; lia.
  - rewrite length_app. simpl. lia.
Qed.

(** X9: adding a task raises the task count of the selected date by one
    and its total minutes by the integer that [parseInt] reads in the
    minutes field, by 0 when it reads none; the statistics of every other
    date stay as they were. *)
Theorem handleAddTask_load (now : Z) (st : AppState) (d : string) :
  let before := overloadStats (viewedTasks (tasks st) d) in
  let after := overloadStats (viewedTasks (tasks (handleAddTask now st)) d) in
  (d = selectedDate st ->
     totalTasks after = S (totalTasks before)
     /\ totalMins after
        = totalMins before + orZero (parseIntString (form_estTime (taskForm st))))
  /\ (d <> selectedDate st -> after = before).
Proof.
  intros before after. subst before after.
  change (tasks (handleAddTask now st)) with
    (tasks st ++ [mkTask (pretty now) (selectedDate st) (form_title (taskForm st))
                    (selectedMainCat st) (subCategoryOf (taskForm st))
                    (JNumber (parseIntString (form_estTime (taskForm st))))
                    "Not Started"]).
  rewrite viewedTasks_snoc. cbn [task_date]. split.
  - intros ->. rewrite decide_True by reflexivity.
    match goal with |- context [overloadStats (?v ++ [?t])] =>
      destruct (overloadStats_snoc v t) as [Hm Hn] end.
    split; [exact Hn |]. etransitivity; [exact Hm |].
    unfold estMinutes. simpl estTime. rewrite parseInt_JNumber. reflexivity.
  - intros Hne. rewrite decide_False by congruence. reflexivity.
Qed.

Lemma handleAddTask_load_witness :
  totalMins (overloadStats (viewedTasks (tasks (handleAddTask 1711886400001 sampleState))
                              "2024-03-31"))
  = totalMins (overloadStats (viewedTasks (tasks sampleState) "2024-03-31"))
    + orZero (parseIntString (form_estTime (taskForm sampleState))).
Proof.
  apply (handleAddTask_load 1711886400001 sampleState "2024-03-31").
  reflexivity.
Defined.

Lemma selectedDate_addTasks (entries : list (TaskForm * Z)) (st : AppState) :
  selectedDate (addTasks entries st) = selectedDate st.
Proof.
  unfold addTasks. revert st. induction entries as [| e es IH]; intros st;
    [reflexivity |].
  simpl. rewrite IH. reflexivity.
Qed.

Lemma viewed_addTasks (entries : list (TaskForm * Z)) (st : AppState) :
  length (viewedTasks (tasks (addTasks entries st)) (selectedDate st))
  = (length (viewedTasks (tasks st) (selectedDate st)) + length entries)%nat.
Proof.
  unfold addTasks. revert st. induction entries as [| e es IH]; intros st; simpl.
  - lia.
  - pose proof (IH (handleAddTask (snd e) (setTaskForm (fst e) st))) as Hrec.
    change (selectedDate (handleAddTask (snd e) (setTaskForm (fst e) st)))
      with (selectedDate st) in Hrec.
    rewrite Hrec.
    change (tasks (handleAddTask (snd e) (setTaskForm (fst e) st)))
      with (tasks st ++ [mkTask (pretty (snd e)) (selectedDate st)
                           (form_title (fst e)) (selectedMainCat st)
                           (subCategoryOf (fst e))
                           (JNumber (parseIntString (form_estTime (fst e))))
                           "Not Started"]).
    rewrite viewedTasks_snoc. cbn [task_date].
    rewrite decide_True by reflexivity. rewrite length_app. simpl. lia.
Qed.

(** X10: however the form is filled in, once the tasks entered for the
    selected date bring its count above six the day is flagged as
    overloaded; in particular seven tasks entered on an empty day do. *)
Theorem addTasks_overloaded (entries : list (TaskForm * Z)) (st : AppState) :
  (6 < length (viewedTasks (tasks st) (selectedDate st)) + length entries)%nat ->
  isOverloaded (overloadStats
    (viewedTasks (tasks (addTasks entries st)) (selectedDate st))) = true.
Proof.
  intros Hmany. apply isOverloaded_iff. right.
  rewrite viewed_addTasks. lia.
Qed.

Lemma addTasks_overloaded_witness :
  isOverloaded (overloadStats
    (viewedTasks (tasks (addTasks (replicate 7 (mkTaskForm "Call" "" "5", 1711886400001))
                           emptyState))
       (selectedDate emptyState))) = true.
Proof.
  apply (addTasks_overloaded (replicate 7 (mkTaskForm "Call" "" "5", 1711886400001))
           emptyState).
  simpl. lia.
Defined.

(** ** The reflection form *)

Lemma todayReflection_replaceReflection (rs : list Reflection) (newRef : Reflection) :
  todayReflection (replaceReflection rs newRef) (ref_date newRef) = Some newRef.
Proof.
  unfold replaceReflection. induction rs as [| r rs IH]; simpl.
  - rewrite bool_decide_eq_true_2 by reflexivity. reflexivity.
  - rewrite filter_cons. destruct (decide (ref_date r <> ref_date newRef)) as [Hne | He].
    + simpl. rewrite bool_decide_eq_false_2 by exact Hne. exact IH.
    + exact IH.
Qed.

Lemma todayReflection_none (rs : list Reflection) (d : string) :
  countDated d rs = 0%nat -> todayReflection rs d = None.
Proof.
  unfold countDated. induction rs as [| r rs IH]; [reflexivity |].
  rewrite filter_cons. simpl.
  destruct (decide (ref_date r = d)) as [Hd | Hd]; [discriminate |].
  rewrite bool_decide_eq_false_2 by exact Hd. exact IH.
Qed.

(** X11: the reflection form reads back what was saved: after a
    reflection is saved, the reflection found for the selected date is the
    one built from the form, whatever was stored before, so the form shows
    its completion and mood (0 and 5 in place of a value that is 0 or not a
    number); for a date without a reflection the form shows 0 and 5. *)
Theorem todayReflection_after_save (now : Z) (tz : Civil -> Z) (today : string)
    (fd : FormData) (st : AppState) :
  let saved := todayReflection
                 (reflections (fst (saveReflection now tz today fd st)))
                 (selectedDate st) in
  saved = Some (newReflection now fd (selectedDate st))
  /\ defaultCompletion saved = orElse (parseIntField (formData_get fd "completion")) 0
  /\ defaultMood saved = orElse (parseIntField (formData_get fd "mood")) 5
  /\ (countDated (selectedDate st) (reflections st) = 0%nat ->
      defaultCompletion (todayReflection (reflections st) (selectedDate st)) = 0
      /\ defaultMood (todayReflection (reflections st) (selectedDate st)) = 5).
Proof.
  intros saved.
  assert (saved = Some (newReflection now fd (selectedDate st))) as Hsaved.
  { unfold saved. rewrite reflections_saveReflection.
    apply (todayReflection_replaceReflection (reflections st)
             (newReflection now fd (selectedDate st))). }
  rewrite Hsaved. repeat split.
  - rewrite todayReflection_none by assumption. reflexivity.
  - rewrite todayReflection_none by assumption. reflexivity.
Qed.

Lemma todayReflection_after_save_witness :
  defaultCompletion (todayReflection (reflections emptyState) (selectedDate emptyState)) = 0
  /\ defaultMood (todayReflection (reflections emptyState) (selectedDate emptyState)) = 5.
Proof.
  apply (todayReflection_after_save 1711922400000 (λ _, 0) "2024-03-31" sampleForm
           emptyState).
  reflexivity.
Defined.

Lemma formData_get_app (fd1 fd2 : FormData) (name : string) :
  formData_get (fd1 ++ fd2) name
  = match formData_get fd1 name with
    | Some v => Some v
    | None => formData_get fd2 name
    end.
Proof.
  induction fd1 as [| [k v] fd1 IH]; [reflexivity |].
  simpl. destruct (bool_decide (k = name)); [reflexivity | exact IH].
Qed.

Lemma formData_get_recycle (checked : list Task) (id : string) :
  formData_get (map (λ t, ("recycle_" +:+ task_id t, "on")) checked)
    ("recycle_" +:+ id)
  = if bool_decide (id ∈ map task_id checked) then Some "on" else None.
Proof.
  induction checked as [| t ts IH]; [reflexivity |].
  simpl. destruct (decide (task_id t = id)) as [-> | Hne].
  - rewrite bool_decide_eq_true_2 by reflexivity.
    rewrite bool_decide_eq_true_2 by (left). reflexivity.
  - rewrite bool_decide_eq_false_2.
    + rewrite IH. simpl.
      rewrite (bool_decide_ext (id ∈ task_id t :: map task_id ts)
                 (id ∈ map task_id ts)); [reflexivity |].
      rewrite elem_of_cons. intuition congruence.
    + intros Heq. injection Heq as Heq. exact (Hne Heq).
Qed.

Lemma formData_get_submitted (completion mood : string) (overloadedChecked : bool)
    (notes : string) (checked : list Task) (id : string) :
  formData_get (submittedForm completion mood overloadedChecked notes checked)
    ("recycle_" +:+ id)
  = if bool_decide (id ∈ map task_id checked) then Some "on" else None.
Proof.
  unfold submittedForm. rewrite !formData_get_app.
  destruct overloadedChecked; simpl; apply formData_get_recycle.
Qed.

Lemma filter_ext_elem {A : Type} (P Q : A -> Prop)
    `{forall x, Decision (P x)} `{forall x, Decision (Q x)} (l : list A) :
  (forall x, x ∈ l -> (P x <-> Q x)) -> filter P l = filter Q l.
Proof.
  induction l as [| x l IH]; intros Hext; [reflexivity |].
  rewrite !filter_cons.
  rewrite IH by (intros y Hy; apply Hext; right; exact Hy).
  pose proof (Hext x ltac:(left)) as Hx.
  destruct (decide (P x)), (decide (Q x)); tauto || reflexivity.
Qed.

(** X12: when the form is submitted with every rollover box as it is
    drawn (one box per unfinished task of the selected date, all checked),
    the tasks selected for the rollover are exactly the unfinished tasks of
    the selected date; with every box unchecked none is.  The other fields
    of the form do not matter. *)
Theorem default_form_rolls_unfinished (completion mood notes : string)
    (overloadedChecked : bool) (tasks : list Task) (selectedDate : string) :
  let unfinished := unfinishedTasks (viewedTasks tasks selectedDate) in
  filter (λ t, shouldRecycle selectedDate
                 (submittedForm completion mood overloadedChecked notes unfinished) t)
    tasks = unfinished
  /\ filter (λ t, shouldRecycle selectedDate
                    (submittedForm completion mood overloadedChecked notes []) t)
       tasks = [].
Proof.
  intros unfinished. split.
  - subst unfinished. unfold unfinishedTasks, viewedTasks.
    rewrite list_filter_filter. apply filter_ext_elem. intros t Ht.
    unfold shouldRecycle. rewrite formData_get_submitted.
    rewrite Is_true_true, !andb_true_iff, negb_true_iff,
      bool_decide_eq_true, bool_decide_eq_false.
    split.
    + intros [[Hd Hs] _]. split; assumption.
    + intros [Hs Hd]. split; [split; assumption |].
      apply bool_decide_eq_true.
      match goal with |- context [bool_decide ?P] =>
        assert P as Hin; [| rewrite (bool_decide_eq_true_2 P Hin); reflexivity] end.
      apply list_elem_of_fmap. exists t. split; [reflexivity |].
      apply list_elem_of_filter. split; [split; assumption | exact Ht].
  - apply filter_none. apply Forall_forall. intros t _.
    unfold shouldRecycle. rewrite formData_get_submitted. simpl.
    rewrite andb_false_r. intros [].
Qed.

(** ** The columns of the daily view *)

Lemma catTasks_cons (t : Task) (viewed : list Task) (cat : string) :
  length (catTasks (t :: viewed) cat)
  = ((if decide (category t = cat \/ (category t = "" /\ cat = "Household"))
      then 1 else 0) + length (catTasks viewed cat))%nat.
Proof.
  unfold catTasks. rewrite filter_cons.
  destruct (decide (category t = cat \/ (category t = "" /\ cat = "Household")));
    reflexivity.
Qed.

Lemma count_key (ks : list string) (a : string) :
  NoDup ks ->
  length (filter (λ k, a = k) ks) = if decide (a ∈ ks) then 1%nat else 0%nat.
Proof.
  induction 1 as [| k ks Hk Hks IH]; [reflexivity |].
  rewrite filter_cons. destruct (decide (a = k)) as [-> | Hne]; simpl; rewrite IH.
  - rewrite decide_False by exact Hk. rewrite decide_True by left. reflexivity.
  - destruct (decide (a ∈ ks)) as [Hin | Hin].
    + rewrite decide_True by (right; exact Hin). reflexivity.
    + rewrite decide_False; [reflexivity |].
      rewrite elem_of_cons. intuition.
Qed.

Lemma columns_of_task (ks : list string) (t : Task) :
  NoDup ks ->
  sum_list (map (λ k, if decide (category t = k \/ (category t = "" /\ k = "Household"))
                      then 1%nat else 0%nat) ks)
  = ((if decide (category t ∈ ks) then 1 else 0)
     + (if decide (category t = "" /\ "Household" ∈ ks) then 1 else 0))%nat.
Proof.
  intros Hnodup.
  rewrite <- (count_key ks (category t) Hnodup).
  assert ((if decide (category t = "" /\ "Household" ∈ ks) then 1%nat else 0%nat)
          = length (filter (λ k, category t = "" /\ "Household" = k) ks)) as ->.
  { destruct (decide (category t = "")) as [He | Hne].
    - rewrite (list_filter_iff (λ k, category t = "" /\ "Household" = k)
                 (λ k, "Household" = k)) by (intros k; tauto).
      rewrite (count_key ks "Household" Hnodup).
      destruct (decide ("Household" ∈ ks)).
      + rewrite decide_True by tauto. reflexivity.
      + rewrite decide_False by tauto. reflexivity.
    - rewrite decide_False by tauto.
      rewrite filter_none; [reflexivity |].
      apply Forall_forall. intros k _. tauto. }
  clear Hnodup. induction ks as [| k ks IH]; [reflexivity |].
  simpl. rewrite !filter_cons, IH.
  destruct (decide (category t = k)) as [Hk | Hk].
  - rewrite decide_True by (left; exact Hk).
    rewrite (decide_False (P := category t = "" /\ "Household" = k)); [simpl; lia |].
    intros [He Hh]. rewrite He in Hk. rewrite <- Hk in Hh. discriminate.
  - destruct (decide (category t = "" /\ "Household" = k)) as [[He Hh] | Hn].
    + rewrite decide_True by (right; split; congruence). simpl. lia.
    + rewrite decide_False; [simpl; lia |].
      intros [? | [? ?]]; [contradiction | apply Hn; split; congruence].
Qed.

Lemma key_of_categories (cats : gmap string (list string)) (k : string) :
  k ∈ map fst (map_to_list cats) <-> is_Some (cats !! k).
Proof.
  rewrite list_elem_of_fmap. split.
  - intros ([k' subs] & -> & Hin). apply elem_of_map_to_list in Hin. eauto.
  - intros [subs Hsubs]. exists (k, subs). split; [reflexivity |].
    apply elem_of_map_to_list. exact Hsubs.
Qed.

Lemma columns_total (ks : list string) (viewed : list Task) :
  NoDup ks ->
  sum_list (map (λ k, length (catTasks viewed k)) ks)
  = (length (filter (λ t, category t ∈ ks) viewed)
     + length (filter (λ t, category t = "" /\ "Household" ∈ ks) viewed))%nat.
Proof.
  intros Hnodup. induction viewed as [| t viewed IH].
  - simpl. induction ks as [| k ks IHk]; [reflexivity |].
    simpl. apply IHk. apply NoDup_cons in Hnodup. tauto.
  - rewrite !filter_cons.
    assert (sum_list (map (λ k, length (catTasks (t :: viewed) k)) ks)
            = (sum_list (map (λ k, if decide (category t = k
                                              \/ (category t = "" /\ k = "Household"))
                                   then 1%nat else 0%nat) ks)
               + sum_list (map (λ k, length (catTasks viewed k)) ks))%nat) as ->.
    { clear. induction ks as [| k ks IHk]; [reflexivity |].
      simpl. rewrite IHk, catTasks_cons. lia. }
    rewrite IH, (columns_of_task ks t Hnodup).
    destruct (decide (category t ∈ ks)),
      (decide (category t = "" /\ "Household" ∈ ks)); simpl; lia.
Qed.

(** X13: each viewed task is shown in the column of its category when
    that category is a key of the categories, and a task without a category
    is (also) shown under Household when Household is a key; so the columns
    hold, in all, as many cards as there are viewed tasks with a known
    category plus viewed tasks without a category under an existing
    Household.  A viewed task with a category that is not a key is shown in
    no column, though the overload statistics count it. *)
Theorem taskColumns_cards (cats : gmap string (list string)) (viewed : list Task) :
  sum_list (map (λ col, length (snd col)) (taskColumns cats viewed))
  = (length (filter (λ t, is_Some (cats !! category t)) viewed)
     + length (filter (λ t, category t = "" /\ is_Some (cats !! "Household")) viewed))%nat
  /\ (forall t col,
        category t <> "" -> cats !! category t = None ->
        col ∈ taskColumns cats viewed -> t ∉ snd col)
  /\ totalTasks (overloadStats viewed) = length viewed.
Proof.
  split; [| split; [| reflexivity]].
  - unfold taskColumns. rewrite map_map. simpl.
    pose proof (columns_total (map fst (map_to_list cats)) viewed
                  (NoDup_fst_map_to_list cats)) as Htotal.
    rewrite map_map in Htotal. rewrite Htotal. f_equal.
    + f_equal. apply list_filter_iff. intros t. apply key_of_categories.
    + f_equal. apply list_filter_iff. intros t.
      rewrite key_of_categories. reflexivity.
  - intros t col Hcat Hnone Hcol Ht. unfold taskColumns in Hcol.
    apply list_elem_of_fmap in Hcol as ([k subs] & -> & Hk). simpl in Ht.
    unfold catTasks in Ht. apply list_elem_of_filter in Ht as [[Hk' | [He _]] _].
    + apply elem_of_map_to_list in Hk. rewrite Hk' in Hnone. congruence.
    + contradiction.
Qed.

Lemma taskColumns_cards_witness :
  sampleTaskIn "Errands" "2024-03-31" (JNum 15)
  ∉ snd ("Work", catTasks [sampleTaskIn "Errands" "2024-03-31" (JNum 15)] "Work").
Proof.
  destruct (taskColumns_cards (categories sampleState)
              [sampleTaskIn "Errands" "2024-03-31" (JNum 15)]) as (_ & Hhidden & _).
  apply Hhidden.
  - discriminate.
  - vm_compute. reflexivity.
  - vm_compute. left.
Defined.

(** ** The weekly buckets, one by one *)

Lemma addToBucket_lookup (m : gmap string Z) (t : Task) (c : string) :
  addToBucket m t !! c
  = if decide (bucketOf t = c) then Some (default 0 (m !! c) + estMinutes t)
    else m !! c.
Proof.
  unfold addToBucket. fold (bucketOf t). rewrite lookup_insert.
  destruct (decide (bucketOf t = c)) as [-> | Hne]; reflexivity.
Qed.

(** What the bucketing loop leaves in one bucket. *)
Lemma fold_addToBucket_lookup (weekly : list Task) (m : gmap string Z) (c : string) :
  (is_Some (fold_left addToBucket weekly m !! c)
   <-> is_Some (m !! c) \/ Exists (λ t, bucketOf t = c) weekly)
  /\ default 0 (fold_left addToBucket weekly m !! c)
     = default 0 (m !! c)
       + sumZ (map estMinutes (filter (λ t, bucketOf t = c) weekly)).
Proof.
  revert m. induction weekly as [| t weekly IH]; intros m.
  - simpl. split; [| unfold sumZ; simpl; lia].
    split; [intros Hm; left; exact Hm | intros [Hm | Hex]; [exact Hm | inversion Hex]].
  - cbn [fold_left]. destruct (IH (addToBucket m t)) as [IHsome IHsum].
    rewrite IHsome, IHsum, addToBucket_lookup, filter_cons.
    destruct (decide (bucketOf t = c)) as [Heq | Hne].
    + split.
      * split; [intros _; right; left; exact Heq | intros _; left; eexists; reflexivity].
      * unfold sumZ. simpl. lia.
    + split; [| reflexivity].
      rewrite Exists_cons. split; [tauto |].
      intros [Hm | [Heq | Hex]]; [left; exact Hm | contradiction | right; exact Hex].
Qed.

(** The minutes of the Household column: those of the tasks of the
    category, and those of the tasks without one. *)
Lemma catTasks_Household (viewed : list Task) :
  sumZ (map estMinutes (catTasks viewed "Household"))
  = sumZ (map estMinutes (filter (λ t, bucketOf t = "Household") viewed))
    + sumZ (map estMinutes (filter (λ t, category t = "") viewed)).
Proof.
  unfold catTasks, sumZ. induction viewed as [| t viewed IH]; [reflexivity |].
  destruct (decide (category t = "")) as [Hcat | Hcat].
  - assert (bucketOf t <> "Household") as Hb
      by (unfold bucketOf; rewrite (bool_decide_eq_true_2 _ Hcat); discriminate).
    rewrite (filter_cons_True _ t viewed
               (or_intror (conj Hcat eq_refl)
                : category t = "Household"
                  \/ category t = "" /\ "Household" = "Household")).
    rewrite (filter_cons_False _ t viewed Hb).
    rewrite (filter_cons_True _ t viewed Hcat).
    simpl. lia.
  - assert (bucketOf t = category t) as Hb
      by (unfold bucketOf; rewrite (bool_decide_eq_false_2 _ Hcat); reflexivity).
    rewrite (filter_cons_False _ t viewed Hcat).
    destruct (decide (category t = "Household")) as [Hh | Hh].
    + rewrite (filter_cons_True _ t viewed
                 (or_introl Hh
                  : category t = "Household"
                    \/ category t = "" /\ "Household" = "Household")).
      rewrite (filter_cons_True (λ t, bucketOf t = "Household") t viewed)
        by congruence.
      simpl. lia.
    + rewrite (filter_cons_False (λ t, category t = "Household"
                                       \/ category t = "" /\ "Household" = "Household")
                 t viewed) by (intros [? | [? _]]; contradiction).
      rewrite (filter_cons_False (λ t, bucketOf t = "Household") t viewed)
        by congruence.
      exact IH.
Qed.

(** X14: each bucket of the weekly distribution holds exactly the minutes
    of the weekly tasks filed under its name, a task without a category
    being filed under Other; a bucket exists for each main category and for
    each name some weekly task is filed under.  So the Household column of
    the daily view, which also shows the tasks without a category, holds
    more minutes than the Household bucket fed by the same tasks: the
    difference is the minutes of the tasks without a category. *)
Theorem weekly_bucket_minutes (cats : gmap string (list string))
    (weekly : list Task) (c : string) :
  let buckets := weeklyTimeByCategory cats weekly in
  (is_Some (buckets !! c)
   <-> is_Some (cats !! c) \/ Exists (λ t, bucketOf t = c) weekly)
  /\ default 0 (buckets !! c)
     = sumZ (map estMinutes (filter (λ t, bucketOf t = c) weekly))
  /\ sumZ (map estMinutes (catTasks weekly "Household"))
     = default 0 (buckets !! "Household")
       + sumZ (map estMinutes (filter (λ t, category t = "") weekly)).
Proof.
  intros buckets. unfold buckets, weeklyTimeByCategory.
  assert (forall k, default 0 (((λ _ : list string, 0) <$> cats) !! k) = 0) as Hzero.
  { intros k. rewrite lookup_fmap. destruct (cats !! k); reflexivity. }
  split; [| split].
  - destruct (fold_addToBucket_lookup weekly ((λ _, 0) <$> cats) c) as [Hsome _].
    rewrite Hsome, lookup_fmap, fmap_is_Some. reflexivity.
  - destruct (fold_addToBucket_lookup weekly ((λ _, 0) <$> cats) c) as [_ Hsum].
    rewrite Hsum, Hzero. lia.
  - destruct (fold_addToBucket_lookup weekly ((λ _, 0) <$> cats) "Household")
      as [_ Hsum].
    rewrite Hsum, Hzero, catTasks_Household. lia.
Qed.

(** ** The dashboard *)

Lemma sumZ_perm (l1 l2 : list Z) : Permutation l1 l2 -> sumZ l1 = sumZ l2.
Proof.
  unfold sumZ. induction 1; simpl; lia.
Qed.

Lemma sumValues_insert (m : gmap string Z) (k : string) (v : Z) :
  sumValues (<[k := v]> m) = sumValues m - default 0 (m !! k) + v.
Proof.
  rewrite !sumValues_sumZ. destruct (m !! k) as [old |] eqn:Hk; simpl.
  - rewrite <- (insert_delete_eq m k v).
    rewrite (sumZ_perm _ _ (Permutation_map snd
               (map_to_list_insert (delete k m) k v (lookup_delete_eq m k)))).
    rewrite <- (sumZ_perm _ _ (Permutation_map snd (map_to_list_delete m k old Hk))).
    unfold sumZ. simpl. lia.
  - rewrite (sumZ_perm _ _ (Permutation_map snd (map_to_list_insert m k v Hk))).
    unfold sumZ. simpl. lia.
Qed.

Lemma sumValues_addToBucket (m : gmap string Z) (t : Task) :
  sumValues (addToBucket m t) = sumValues m + estMinutes t.
Proof.
  unfold addToBucket. rewrite sumValues_insert. lia.
Qed.

Lemma sumValues_addToKey (m : gmap string Z) (t : Task) :
  sumValues (addToKey m t) = sumValues m + estMinutes t.
Proof.
  unfold addToKey. rewrite sumValues_insert.
  destruct (m !! subVerticalKey t) as [old |]; simpl; [| lia].
  destruct (Z.eqb_spec old 0); lia.
Qed.

Lemma sumValues_fold (step : gmap string Z -> Task -> gmap string Z)
    (ts : list Task) (m : gmap string Z) :
  (forall m t, sumValues (step m t) = sumValues m + estMinutes t) ->
  sumValues (fold_left step ts m) = sumValues m + sumZ (map estMinutes ts).
Proof.
  intros Hstep. revert m. induction ts as [| t ts IH]; intros m; simpl.
  - unfold sumZ. simpl. lia.
  - rewrite IH, Hstep. unfold sumZ. simpl. lia.
Qed.

Lemma sumValues_zeros (cats : gmap string (list string)) :
  sumValues ((λ _, 0) <$> cats) = 0.
Proof.
  rewrite sumValues_sumZ, map_to_list_fmap.
  generalize (map_to_list cats) as es. intros es.
  induction es as [| e es IH]; [reflexivity |].
  unfold sumZ in *. simpl. rewrite Z.add_0_l. exact IH.
Qed.

(** X15: no minute is lost or counted twice by the bucketing: the buckets
    of the weekly distribution add up to the minutes of the weekly tasks,
    and the buckets of the all-time allocation to the minutes of all
    tasks. *)
Theorem buckets_conserve_minutes (cats : gmap string (list string))
    (cutoff : Z) (tasks : list Task) :
  sumValues (weeklyTimeByCategory cats (weeklyTasks cutoff tasks))
  = sumZ (map estMinutes (weeklyTasks cutoff tasks))
  /\ sumValues (allCategoryTime tasks) = sumZ (map estMinutes tasks).
Proof.
  split.
  - unfold weeklyTimeByCategory.
    rewrite (sumValues_fold addToBucket) by apply sumValues_addToBucket.
    rewrite sumValues_zeros. lia.
  - unfold allCategoryTime.
    rewrite (sumValues_fold addToKey) by apply sumValues_addToKey.
    reflexivity.
Qed.

(** A stable sort by a comparator that compares ranks puts the ranks in
    ascending order. *)
Lemma insertSorted_by_rank {A : Type} (cmp : A -> A -> Number) (rank : A -> Z)
    (x : A) (l : list A) :
  (forall a b, isPositive (cmp a b) = (rank b <? rank a)) ->
  StronglySorted (λ a b, rank a <= rank b) l ->
  StronglySorted (λ a b, rank a <= rank b) (insertSorted cmp x l).
Proof.
  intros Hcmp Hsorted. induction Hsorted as [| y l Hsorted IH Hy]; simpl.
  - repeat constructor.
  - rewrite Hcmp. destruct (Z.ltb_spec (rank y) (rank x)) as [Hlt | Hge].
    + constructor; [exact IH |].
      rewrite (insertSorted_perm cmp x l). constructor; [lia | exact Hy].
    + constructor; [constructor; assumption |].
      constructor; [exact Hge |].
      eapply Forall_impl; [exact Hy |]. simpl. intros z Hz. lia.
Qed.

Lemma sortBy_by_rank {A : Type} (cmp : A -> A -> Number) (rank : A -> Z)
    (l : list A) :
  (forall a b, isPositive (cmp a b) = (rank b <? rank a)) ->
  StronglySorted (λ a b, rank a <= rank b) (sortBy cmp l).
Proof.
  intros Hcmp. induction l as [| x l IH]; simpl; [constructor |].
  apply insertSorted_by_rank; assumption.
Qed.

Lemma StronglySorted_take_drop {A : Type} (R : A -> A -> Prop) (n : nat)
    (l : list A) (x y : A) :
  StronglySorted R l -> x ∈ take n l -> y ∈ drop n l -> R x y.
Proof.
  intros Hsorted. revert n. induction Hsorted as [| z l Hsorted IH Hz];
    intros n Hx Hy.
  - rewrite take_nil in Hx. apply elem_of_nil in Hx. contradiction.
  - destruct n as [| n]; simpl in *.
    + apply elem_of_nil in Hx. contradiction.
    + apply elem_of_cons in Hx as [-> | Hx].
      * rewrite Forall_forall in Hz. apply Hz. eapply subseteq_drop. exact Hy.
      * eapply IH; eassumption.
Qed.

Lemma StronglySorted_weaken {A : Type} (R R' : A -> A -> Prop) (l : list A) :
  (forall a b, R a b -> R' a b) -> StronglySorted R l -> StronglySorted R' l.
Proof.
  intros Himpl. induction 1 as [| x l Hsorted IH Hx]; constructor.
  - exact IH.
  - eapply Forall_impl; [exact Hx |]. intros y. apply Himpl.
Qed.

Lemma StronglySorted_take {A : Type} (R : A -> A -> Prop) (n : nat) (l : list A) :
  StronglySorted R l -> StronglySorted R (take n l).
Proof.
  intros Hsorted. revert n. induction Hsorted as [| x l Hsorted IH Hx]; intros n.
  - rewrite take_nil. constructor.
  - destruct n as [| n]; simpl; constructor.
    + apply IH.
    + rewrite Forall_forall in *. intros y Hy. apply Hx.
      eapply subseteq_take. exact Hy.
Qed.

(** X16: the all-time allocation shows at most five buckets, in
    descending order of their minutes; every bucket it leaves out has at
    most the minutes of every bucket it shows; the buckets shown and left
    out together are the buckets of the allocation. *)
Theorem sortedCategories_top_five (tasks : list Task) :
  (length (sortedCategories tasks) <= 5)%nat
  /\ StronglySorted (λ a b, snd b <= snd a) (sortedCategories tasks)
  /\ (exists omitted,
        Permutation (sortedCategories tasks ++ omitted)
          (map_to_list (allCategoryTime tasks))
        /\ forall shown rest, shown ∈ sortedCategories tasks /\ rest ∈ omitted ->
             snd rest <= snd shown)
  /\ (forall key time, (key, time) ∈ sortedCategories tasks ->
        allCategoryTime tasks !! key = Some time).
Proof.
  unfold sortedCategories.
  set (entries := map_to_list (allCategoryTime tasks)).
  assert (StronglySorted (λ a b : string * Z, snd b <= snd a)
            (sortBy compareByTimeDesc entries)) as Hsorted.
  { apply (StronglySorted_weaken (λ a b : string * Z, - snd a <= - snd b));
      [intros a b; lia |].
    apply (sortBy_by_rank compareByTimeDesc (λ e, - snd e)).
    intros a b. unfold compareByTimeDesc. simpl.
    destruct (Z.ltb_spec 0 (snd b - snd a)), (Z.ltb_spec (- snd b) (- snd a));
      (reflexivity || lia). }
  split; [rewrite length_take; lia |].
  split; [apply StronglySorted_take; exact Hsorted |].
  split.
  - exists (drop 5 (sortBy compareByTimeDesc entries)). split.
    + rewrite take_drop. apply sortBy_perm.
    + intros shown rest [Hshown Hrest].
      apply (StronglySorted_take_drop _ 5 _ shown rest Hsorted Hshown Hrest).
  - intros key time Hin. apply elem_of_map_to_list. fold entries.
    rewrite <- (sortBy_perm compareByTimeDesc entries).
    eapply subseteq_take. exact Hin.
Qed.

Lemma sortedCategories_top_five_witness :
  allCategoryTime thirds !! "Work - General" = Some 10.
Proof.
  apply (sortedCategories_top_five thirds).
  vm_compute. left.
Defined.

(** ** Average completion and overload incidents *)

Lemma last7Reflections_subset (rs : list Reflection) :
  last7Reflections rs ⊆ rs.
Proof.
  intros r Hr. unfold last7Reflections, sliceLast in Hr.
  apply subseteq_drop in Hr.
  rewrite (sortBy_perm compareByDate rs) in Hr. exact Hr.
Qed.

Lemma sum_completions (l : list Reflection) (lo hi acc : Z) :
  Forall (λ r, exists c, completion r = Num c /\ lo <= c <= hi) l ->
  exists sum,
    fold_left (λ s r, addNumber s (completion r)) l (Num acc) = Num sum
    /\ acc + Z.of_nat (length l) * lo <= sum <= acc + Z.of_nat (length l) * hi.
Proof.
  intros Hall. revert acc. induction Hall as [| r l (c & Hc & Hrange) Hl IH];
    intros acc.
  - exists acc. simpl. split; [reflexivity | lia].
  - simpl fold_left. rewrite Hc. simpl addNumber.
    destruct (IH (acc + c)) as (sum & Hsum & Hbounds).
    exists sum. split; [exact Hsum |]. simpl length. nia.
Qed.

(** X17: with no reflection the average completion is 0; when every
    stored completion is a number between [lo] and [hi] (0 and 100 for what
    the form accepts), the average of the last seven is a number between
    [lo] and [hi] too. *)
Theorem avgCompletion_range (rs : list Reflection) (lo hi : Z) :
  avgCompletion [] = Num 0
  /\ (rs <> [] /\ Forall (λ r, exists c, completion r = Num c /\ lo <= c <= hi) rs ->
      exists avg, avgCompletion rs = Num avg /\ lo <= avg <= hi).
Proof.
  split; [reflexivity |]. intros [Hsome Hall].
  unfold avgCompletion.
  assert (0 < length (last7Reflections rs))%nat as Hlen.
  { rewrite last7Reflections_length. destruct rs; [contradiction | simpl; lia]. }
  destruct (Nat.ltb_spec 0 (length (last7Reflections rs))) as [_ | Hle]; [| lia].
  assert (Forall (λ r, exists c, completion r = Num c /\ lo <= c <= hi)
            (last7Reflections rs)) as Hlast.
  { rewrite Forall_forall in *. intros r Hr. apply Hall.
    apply last7Reflections_subset. exact Hr. }
  destruct (sum_completions _ lo hi 0 Hlast) as (sum & -> & Hbounds).
  eexists. split; [reflexivity |].
  unfold roundRatio. set (n := Z.of_nat (length (last7Reflections rs))) in *.
  assert (0 < n) by lia.
  split.
  - apply Z.div_le_lower_bound; nia.
  - apply Z.lt_succ_r, Z.div_lt_upper_bound; nia.
Qed.

Lemma avgCompletion_range_witness :
  exists avg, avgCompletion (reflections sampleState) = Num avg /\ 0 <= avg <= 100.
Proof.
  apply (avgCompletion_range (reflections sampleState) 0 100).
  split; [discriminate |].
  repeat (constructor; [exists 80; split; [reflexivity | lia] |]). constructor.
Defined.

(** X18: the overload incidents shown are at most seven and at most the
    number of stored reflections marked overloaded; with at most seven
    reflections stored they are all of these. *)
Theorem overloadCount_bounds (rs : list Reflection) :
  (overloadCount rs <= 7)%nat
  /\ (overloadCount rs <= length (filter (λ r, overloaded r = true) rs))%nat
  /\ ((length rs <= 7)%nat ->
      overloadCount rs = length (filter (λ r, overloaded r = true) rs)).
Proof.
  assert (length (filter (λ r, overloaded r = true) (sortBy compareByDate rs))
          = length (filter (λ r, overloaded r = true) rs)) as Hperm.
  { apply Permutation_length. rewrite (sortBy_perm compareByDate rs). reflexivity. }
  unfold overloadCount. split; [| split].
  - etransitivity; [apply length_filter |].
    rewrite last7Reflections_length. lia.
  - rewrite <- Hperm. unfold last7Reflections, sliceLast.
    set (sorted := sortBy compareByDate rs).
    rewrite <- (take_drop (length sorted - 7) sorted) at 3.
    rewrite filter_app, length_app. lia.
  - intros Hshort. rewrite last7Reflections_short by exact Hshort. exact Hperm.
Qed.

Lemma overloadCount_bounds_witness :
  overloadCount (reflections sampleState)
  = length (filter (λ r, overloaded r = true) (reflections sampleState)).
Proof.
  apply (overloadCount_bounds (reflections sampleState)).
  simpl. lia.
Defined.

(** ** The main category of an allocation key *)

Lemma beforeSeparator_no_hyphen (s : string) :
  noHyphen s -> beforeSeparator " - " s = s.
Proof.
  unfold noHyphen. induction s as [| c s IH]; [reflexivity |].
  simpl list_ascii_of_string. intros [Hc Hs]%Forall_cons.
  cbn [beforeSeparator]. rewrite (IH Hs).
  replace (String.prefix " - " (String c s)) with false; [reflexivity |].
  symmetry. cbn [String.prefix].
  destruct (Ascii.ascii_dec " " c) as [_ | _]; [| reflexivity].
  destruct s as [| c' s]; [reflexivity |].
  simpl in Hs. apply Forall_cons in Hs as [Hc' _]. cbn [String.prefix].
  destruct (Ascii.ascii_dec "-" c') as [<- | _]; [contradiction | reflexivity].
Qed.

Lemma beforeSeparator_joined (cat rest : string) :
  noHyphen cat -> beforeSeparator " - " (cat +:+ " - " +:+ rest) = cat.
Proof.
  unfold noHyphen. induction cat as [| c cat IH].
  - intros _. destruct rest; reflexivity.
  - simpl list_ascii_of_string. intros [Hc Hs]%Forall_cons.
    change (String c cat +:+ " - " +:+ rest)
      with (String c (cat +:+ " - " +:+ rest)).
    cbn [beforeSeparator]. rewrite (IH Hs).
    replace (String.prefix " - " (String c (cat +:+ " - " +:+ rest))) with false;
      [reflexivity |].
    symmetry. cbn [String.prefix].
    destruct (Ascii.ascii_dec " " c) as [_ | _]; [| reflexivity].
    destruct cat as [| c' cat]; [reflexivity |].
    simpl in Hs. apply Forall_cons in Hs as [Hc' _].
    change (String c' cat +:+ " - " +:+ rest)
      with (String c' (cat +:+ " - " +:+ rest)).
    cbn [String.prefix].
    destruct (Ascii.ascii_dec "-" c') as [<- | _]; [contradiction | reflexivity].
Qed.

(** X19: the main category is read back from an allocation key: for a
    task with a category that has no hyphen, the part of its key before the
    separator is its category, with or without a sub-category, so the row
    gets the colour of that category. *)
Theorem mainCatStr_of_key (t : Task) :
  category t <> "" -> noHyphen (category t) ->
  mainCatStr (subVerticalKey t) = category t.
Proof.
  intros Hcat Hplain. unfold mainCatStr, subVerticalKey.
  destruct (bool_decide (subCategory t = "")).
  - rewrite bool_decide_eq_false_2 by exact Hcat.
    apply beforeSeparator_no_hyphen. exact Hplain.
  - apply beforeSeparator_joined. exact Hplain.
Qed.

Lemma mainCatStr_of_key_witness :
  mainCatStr (subVerticalKey (sampleTask "2024-03-31" (JNum 45))) = "Work".
Proof.
  apply (mainCatStr_of_key (sampleTask "2024-03-31" (JNum 45))).
  - discriminate.
  - repeat (constructor; [discriminate |]). constructor.
Defined.

(** A category that contains the separator is cut short. *)
Lemma mainCatStr_cut_short :
  mainCatStr (subVerticalKey (sampleTaskIn "Self - Care" "2024-03-31" (JNum 45)))
  = "Self".
Proof. reflexivity. Qed.

(** ** The options of the combobox *)

Lemma prefix_app_l (a b s : string) :
  String.prefix (a +:+ b) s = true -> String.prefix a s = true.
Proof.
  revert s. induction a as [| c a IH]; intros s; [destruct s; reflexivity |].
  change (String c a +:+ b) with (String c (a +:+ b)).
  destruct s as [| c' s]; cbn [String.prefix]; [discriminate |].
  destruct (Ascii.ascii_dec c c'); [apply IH | discriminate].
Qed.

Lemma includes_app_l (s a b : string) :
  includes s (a +:+ b) = true -> includes s a = true.
Proof.
  induction s as [| c s IH]; cbn [includes].
  - rewrite !orb_false_r. apply prefix_app_l.
  - rewrite !orb_true_iff. intros [Hp | Hin].
    + left. eapply prefix_app_l. exact Hp.
    + right. apply IH. exact Hin.
Qed.

Lemma prefix_refl (s : string) : String.prefix s s = true.
Proof.
  induction s as [| c s IH]; [reflexivity |].
  cbn [String.prefix]. destruct (Ascii.ascii_dec c c); [exact IH | contradiction].
Qed.

Lemma includes_refl (s : string) : includes s s = true.
Proof. destruct s; cbn [includes]; rewrite prefix_refl; reflexivity. Qed.

Lemma toLowerCase_app (a b : string) :
  toLowerCase (a +:+ b) = toLowerCase a +:+ toLowerCase b.
Proof. induction a as [| c a IH]; simpl; [reflexivity | rewrite IH; reflexivity]. Qed.

(** X20: the combobox shows all options while nothing is typed; what it
    shows is always a sub-list of the options in their order; an option is
    shown when the typed text is that option in any letter case; and typing
    more never brings back an option that the shorter text had hidden. *)
Theorem filteredOptions_narrow (value more : string) (options : list string) :
  filteredOptions "" options = options
  /\ sublist (filteredOptions value options) options
  /\ (forall o, o ∈ options /\ toLowerCase o = toLowerCase value ->
        o ∈ filteredOptions value options)
  /\ (value <> "" ->
      sublist (filteredOptions (value +:+ more) options)
        (filteredOptions value options)).
Proof.
  split; [reflexivity |]. split; [| split].
  - unfold filteredOptions. destruct (bool_decide (value = ""));
      [reflexivity | apply sublist_filter].
  - intros o [Ho Hsame]. unfold filteredOptions.
    destruct (bool_decide (value = "")); [exact Ho |].
    apply list_elem_of_filter. split; [| exact Ho].
    rewrite Hsame, includes_refl. exact I.
  - intros Hvalue. unfold filteredOptions.
    rewrite (bool_decide_eq_false_2 (value = "")) by exact Hvalue.
    rewrite bool_decide_eq_false_2
      by (destruct value; [contradiction | discriminate]).
    induction options as [| o options IH]; [constructor |].
    rewrite !filter_cons.
    destruct (decide (includes (toLowerCase o) (toLowerCase (value +:+ more))))
      as [Hlong | Hlong].
    + rewrite decide_True; [constructor; exact IH |].
      apply Is_true_true. apply Is_true_true in Hlong.
      rewrite toLowerCase_app in Hlong. eapply includes_app_l. exact Hlong.
    + destruct (decide (includes (toLowerCase o) (toLowerCase value)));
        [constructor |]; exact IH.
Qed.

Lemma filteredOptions_narrow_witness :
  "Courses" ∈ filteredOptions "COURSES" ["Reading"; "Courses"]
  /\ sublist (filteredOptions ("co" +:+ "u") ["Career Coaching"; "Courses"])
       (filteredOptions "co" ["Career Coaching"; "Courses"]).
Proof.
  destruct (filteredOptions_narrow "COURSES" "" ["Reading"; "Courses"])
    as (_ & _ & Hexact & _).
  destruct (filteredOptions_narrow "co" "u" ["Career Coaching"; "Courses"])
    as (_ & _ & _ & Hmore).
  split.
  - apply Hexact. split; [right; left | reflexivity].
  - apply Hmore. discriminate.
Defined.

(** ** Today *)

Lemma validCivil_prevDay (c : Civil) :
  validCivil c = true -> c <> mkCivil 0 1 1 -> validCivil (prevDay c) = true.
Proof.
  intros Hvalid Hfirst. pose proof (validCivil_bounds c Hvalid) as (Hy & Hm & Hd).
  destruct c as [y m d]. simpl in *. unfold prevDay, validCivil. simpl.
  destruct (Z.ltb_spec 1 d) as [Hlt | Hge]; simpl.
  - rewrite !andb_true_iff, !Z.leb_le. lia.
  - destruct (Z.ltb_spec 1 m) as [Hm1 | Hm1]; simpl.
    + pose proof (daysInMonth_bounds y (m - 1)).
      rewrite !andb_true_iff, !Z.leb_le. lia.
    + assert (m = 1) as -> by lia. assert (d = 1) as -> by lia.
      assert (y <> 0) by congruence.
      rewrite !andb_true_iff, !Z.leb_le. unfold daysInMonth. simpl. lia.
Qed.

(** X22: whatever the time zone of the host (up to a day either way), the
    string [getTodayStr] returns is a valid date string: it reads back as
    the UTC day, the day before or the day after, so with today selected
    [getNextDayStr] never throws.  (Years 1 to 9998.) *)
Theorem getTodayStr_valid (utcDay : Civil) (utcMinutes offset : Z)
    (tz : Civil -> Z) :
  validCivil utcDay = true -> 1 <= year utcDay <= 9998 ->
  0 <= utcMinutes < 1440 -> -1440 <= offset <= 1440 ->
  exists local,
    parseISODate (getTodayStr utcDay utcMinutes offset) = Some local
    /\ (local = utcDay \/ local = nextDay utcDay \/ local = prevDay utcDay)
    /\ getNextDayStr tz (getTodayStr utcDay utcMinutes offset) <> None.
Proof.
  intros Hvalid Hyear Hmin Hoff. unfold getTodayStr.
  assert (utcDay <> mkCivil 9999 12 31) as Hlast
    by (intros ->; simpl in Hyear; lia).
  assert (utcDay <> mkCivil 0 1 1) as Hfirst
    by (intros ->; simpl in Hyear; lia).
  assert (exists local,
            addDays ((utcMinutes - offset) / 1440) utcDay = local
            /\ validCivil local = true
            /\ (local = utcDay \/ local = nextDay utcDay \/ local = prevDay utcDay))
    as (local & -> & Hlocal & Hwhich).
  { assert ((utcMinutes - offset) / 1440 = 0 \/ (utcMinutes - offset) / 1440 = 1
            \/ (utcMinutes - offset) / 1440 = -1) as [-> | [-> | ->]]
      by (Z.div_mod_to_equations; lia).
    - exists utcDay. auto.
    - exists (nextDay utcDay). split; [reflexivity |].
      split; [apply validCivil_nextDay; assumption | auto].
    - exists (prevDay utcDay). split; [reflexivity |].
      split; [apply validCivil_prevDay; assumption | auto]. }
  exists local. rewrite (parseISODate_isoDate local Hlocal).
  split; [reflexivity | split; [exact Hwhich |]].
  unfold getNextDayStr. rewrite (parseISODate_isoDate local Hlocal). discriminate.
Qed.

Lemma getTodayStr_valid_witness :
  exists local,
    parseISODate (getTodayStr (mkCivil 2024 3 31) (9 * 60) (-780)) = Some local
    /\ (local = mkCivil 2024 3 31 \/ local = nextDay (mkCivil 2024 3 31)
        \/ local = prevDay (mkCivil 2024 3 31))
    /\ getNextDayStr utcPlus13 (getTodayStr (mkCivil 2024 3 31) (9 * 60) (-780)) <> None.
Proof.
  apply (getTodayStr_valid (mkCivil 2024 3 31) (9 * 60) (-780) utcPlus13).
  - reflexivity.
  - simpl. lia.
  - lia.
  - lia.
Defined.

(** ** Tasks entered without a date or under an unknown category *)

(** X23: a task entered while the date field is cleared is dated with the
    empty string: it is among the tasks viewed for that empty date, no
    cutoff ever lets it into the weekly distribution, and the all-time
    allocation counts its minutes. *)
Theorem handleAddTask_cleared_date (now cutoff : Z) (st : AppState) :
  selectedDate st = "" ->
  exists t,
    tasks (handleAddTask now st) = tasks st ++ [t]
    /\ task_date t = ""
    /\ t ∈ viewedTasks (tasks (handleAddTask now st)) ""
    /\ weeklyTasks cutoff (tasks (handleAddTask now st)) = weeklyTasks cutoff (tasks st)
    /\ sumValues (allCategoryTime (tasks (handleAddTask now st)))
       = sumValues (allCategoryTime (tasks st))
         + orZero (parseIntString (form_estTime (taskForm st))).
Proof.
  intros Hempty. eexists. split; [reflexivity |]. cbn [task_date].
  split; [exact Hempty |]. split; [| split].
  - apply list_elem_of_filter. cbn [task_date]. split; [exact Hempty |].
    simpl. apply elem_of_app. right. left.
  - simpl tasks. unfold weeklyTasks. rewrite filter_app.
    rewrite filter_cons_False; [rewrite filter_nil; apply app_nil_r |].
    unfold notBefore. cbn [task_date]. rewrite Hempty. simpl. intros [].
  - unfold allCategoryTime.
    rewrite !(sumValues_fold addToKey) by apply sumValues_addToKey.
    simpl tasks. rewrite map_app. unfold sumZ. rewrite foldr_app. simpl.
    unfold estMinutes at 1. cbn [estTime]. rewrite parseInt_JNumber.
    generalize (orZero (parseIntString (form_estTime (taskForm st)))) as x.
    generalize (map estMinutes (tasks st)) as l.
    generalize (sumValues (∅ : gmap string Z)) as c.
    intros c l x. induction l as [| y l IH]; simpl; lia.
Qed.

Lemma handleAddTask_cleared_date_witness :
  exists t,
    tasks (handleAddTask 1711886400001
             (mkAppState (categories sampleState) [] [] "" "Work"
                (mkTaskForm "Call" "" "20")))
    = [] ++ [t]
    /\ task_date t = ""
    /\ t ∈ viewedTasks (tasks (handleAddTask 1711886400001
             (mkAppState (categories sampleState) [] [] "" "Work"
                (mkTaskForm "Call" "" "20")))) ""
    /\ weeklyTasks sampleCutoff (tasks (handleAddTask 1711886400001
             (mkAppState (categories sampleState) [] [] "" "Work"
                (mkTaskForm "Call" "" "20")))) = weeklyTasks sampleCutoff []
    /\ sumValues (allCategoryTime (tasks (handleAddTask 1711886400001
             (mkAppState (categories sampleState) [] [] "" "Work"
                (mkTaskForm "Call" "" "20")))))
       = sumValues (allCategoryTime []) + orZero (parseIntString "20").
Proof.
  apply (handleAddTask_cleared_date 1711886400001 sampleCutoff
           (mkAppState (categories sampleState) [] [] "" "Work"
              (mkTaskForm "Call" "" "20"))).
  reflexivity.
Defined.

Lemma hidden_from_columns (cats : gmap string (list string)) (viewed : list Task)
    (t : Task) (col : string * list Task) :
  category t <> "" -> cats !! category t = None ->
  col ∈ taskColumns cats viewed -> t ∉ snd col.
Proof.
  intros Hcat Hnone Hcol Ht. unfold taskColumns in Hcol.
  apply list_elem_of_fmap in Hcol as ([k subs] & -> & Hk). simpl in Ht.
  unfold catTasks in Ht. apply list_elem_of_filter in Ht as [[Hk' | [He _]] _].
  - apply elem_of_map_to_list in Hk. rewrite Hk' in Hnone. congruence.
  - contradiction.
Qed.

(** X24: when the selected main category is not a key of the categories,
    adding a task leaves the categories as they are and stores the task
    under that category all the same: it is among the viewed tasks of the
    selected date, but in no column of the daily view. *)
Theorem handleAddTask_unknown_category (now : Z) (st : AppState) :
  selectedMainCat st <> "" -> categories st !! selectedMainCat st = None ->
  let st' := handleAddTask now st in
  categories st' = categories st
  /\ exists t,
       tasks st' = tasks st ++ [t]
       /\ category t = selectedMainCat st
       /\ t ∈ viewedTasks (tasks st') (selectedDate st')
       /\ forall col,
            col ∈ taskColumns (categories st')
                    (viewedTasks (tasks st') (selectedDate st')) ->
            t ∉ snd col.
Proof.
  intros Hname Hnone st'.
  assert (categories st' = categories st) as Hcats.
  { unfold st'. rewrite categories_handleAddTask. unfold autoSaveSubCategory.
    rewrite Hnone. reflexivity. }
  split; [exact Hcats |]. eexists. split; [reflexivity |].
  split; [reflexivity |]. split.
  - apply list_elem_of_filter. split; [reflexivity |].
    simpl. apply elem_of_app. right. left.
  - intros col Hcol. eapply hidden_from_columns; [| | exact Hcol].
    + exact Hname.
    + rewrite Hcats. exact Hnone.
Qed.

Lemma handleAddTask_unknown_category_witness :
  categories (handleAddTask 1711886400001 (changeMainCat "Errands" sampleState))
  = categories (changeMainCat "Errands" sampleState).
Proof.
  apply (handleAddTask_unknown_category 1711886400001
           (changeMainCat "Errands" sampleState)).
  - discriminate.
  - vm_compute. reflexivity.
Defined.

(** ** Where the rolled tasks go *)

Lemma shouldRecycle_date (d : string) (fd : FormData) (t : Task) :
  shouldRecycle d fd t = true -> task_date t = d.
Proof.
  unfold shouldRecycle. intros Hrec.
  apply andb_true_iff in Hrec as [Hrec _].
  apply andb_true_iff in Hrec as [Hd _].
  apply bool_decide_eq_true in Hd. exact Hd.
Qed.

(** Any weight that ignores the date is moved by the rollover from the
    selected day to the next one, and stays where it was on other days. *)
Lemma rolled_weight (w : Task -> Z) (d next d' : string) (fd : FormData)
    (ts : list Task) :
  (forall t s, w (withDate t s) = w t) -> next <> d ->
  sumZ (map w (viewedTasks (map (rolled d fd next) ts) d'))
  = sumZ (map w (viewedTasks ts d'))
    + (if decide (d' = next) then 1 else 0)
      * sumZ (map w (filter (λ t, shouldRecycle d fd t) ts))
    - (if decide (d' = d) then 1 else 0)
      * sumZ (map w (filter (λ t, shouldRecycle d fd t) ts)).
Proof.
  intros Hw Hne. unfold viewedTasks, sumZ.
  induction ts as [| t ts IH]; [simpl; lia |].
  cbn [map]. destruct (shouldRecycle d fd t) eqn:Hrec.
  - pose proof (shouldRecycle_date _ _ _ Hrec) as Hd.
    assert (rolled d fd next t = withDate t next) as Hr
      by (unfold rolled; rewrite Hrec; reflexivity).
    rewrite Hr.
    rewrite (filter_cons_True (λ t, shouldRecycle d fd t)) by (rewrite Hrec; exact I).
    cbn [map foldr].
    destruct (decide (d' = next)) as [-> | Hn].
    + rewrite (filter_cons_True (λ t, task_date t = next) (withDate t next))
        by reflexivity.
      rewrite (filter_cons_False (λ t, task_date t = next) t) by congruence.
      rewrite (decide_False (P := next = d)) in IH |- * by exact Hne.
      cbn [map foldr]. rewrite Hw. lia.
    + rewrite (filter_cons_False (λ t, task_date t = d') (withDate t next))
        by (simpl; congruence).
      destruct (decide (d' = d)) as [-> | Hd'].
      * rewrite (filter_cons_True (λ t, task_date t = d) t) by exact Hd.
        cbn [map foldr]. lia.
      * rewrite (filter_cons_False (λ t, task_date t = d') t) by congruence.
        lia.
  - assert (rolled d fd next t = t) as Hr
      by (unfold rolled; rewrite Hrec; reflexivity).
    rewrite Hr.
    rewrite (filter_cons_False (λ t, shouldRecycle d fd t))
      by (rewrite Hrec; intros []).
    destruct (decide (task_date t = d')) as [Ht | Ht].
    + rewrite !(filter_cons_True (λ t, task_date t = d') t) by exact Ht.
      cbn [map foldr]. lia.
    + rewrite !(filter_cons_False (λ t, task_date t = d') t) by exact Ht.
      exact IH.
Qed.

Lemma rolled_other_days (d next s : string) (fd : FormData) (ts : list Task) :
  s <> d -> s <> next ->
  viewedTasks (map (rolled d fd next) ts) s = viewedTasks ts s.
Proof.
  intros Hs Hs'. unfold viewedTasks.
  induction ts as [| t ts IH]; [reflexivity |].
  cbn [map]. unfold rolled at 1.
  destruct (shouldRecycle d fd t) eqn:Hrec.
  - apply shouldRecycle_date in Hrec.
    rewrite filter_cons_False by (simpl; congruence).
    rewrite (filter_cons_False _ t) by congruence. exact IH.
  - rewrite !filter_cons.
    destruct (decide (task_date t = s)); [f_equal |]; exact IH.
Qed.

Lemma sumZ_ones {A : Type} (l : list A) :
  sumZ (map (λ _, 1) l) = Z.of_nat (length l).
Proof. unfold sumZ. induction l as [| x l IH]; simpl length; simpl; lia. Qed.

Lemma isoDate_nextDay_differs (s : string) (d : Civil) :
  parseISODate s = Some d -> d <> mkCivil 9999 12 31 -> isoDate (nextDay d) <> s.
Proof.
  intros Hparse Hlast Hsame.
  pose proof (parseISODate_isoDate (nextDay d)
                (validCivil_nextDay d (parseISODate_valid _ _ Hparse) Hlast)) as Hback.
  rewrite Hsame, Hparse in Hback. injection Hback as Hd.
  pose proof (dayNumber_nextDay d (parseISODate_valid _ _ Hparse)) as Hnum.
  rewrite <- Hd in Hnum. lia.
Qed.

(** X25: in a zone from UTC+12:00 to UTC-11:59, saving a reflection moves
    load from the selected day to the next day and nowhere else: the
    selected day loses the minutes and the number of the rolled tasks, the
    next day gains the same, and the statistics of every other date are
    unchanged. *)
Theorem saveReflection_moves_load (now : Z) (tz : Civil -> Z) (today : string)
    (fd : FormData) (st : AppState) (d : Civil) :
  parseISODate (selectedDate st) = Some d ->
  -720 <= tz (nextDay d) < 720 ->
  d <> mkCivil 9999 12 31 ->
  let ts' := tasks (fst (saveReflection now tz today fd st)) in
  let moved := filter (λ t, shouldRecycle (selectedDate st) fd t) (tasks st) in
  let before := λ s, overloadStats (viewedTasks (tasks st) s) in
  let after := λ s, overloadStats (viewedTasks ts' s) in
  totalMins (after (selectedDate st))
  = totalMins (before (selectedDate st)) - sumZ (map estMinutes moved)
  /\ totalMins (after (isoDate (nextDay d)))
     = totalMins (before (isoDate (nextDay d))) + sumZ (map estMinutes moved)
  /\ (totalTasks (after (selectedDate st)) + length moved)%nat
     = totalTasks (before (selectedDate st))
  /\ totalTasks (after (isoDate (nextDay d)))
     = (totalTasks (before (isoDate (nextDay d))) + length moved)%nat
  /\ forall s, s <> selectedDate st -> s <> isoDate (nextDay d) ->
       after s = before s.
Proof.
  intros Hparse Hzone Hlast ts' moved before after.
  pose proof (getNextDayStr_same_day tz _ d Hparse Hzone) as Hnext.
  pose proof (isoDate_nextDay_differs _ d Hparse Hlast) as Hne.
  set (sel := selectedDate st) in *. set (next := isoDate (nextDay d)) in *.
  assert (ts' = map (rolled sel fd next) (tasks st)) as Hts.
  { unfold ts'. rewrite tasks_saveReflection. fold sel. rewrite Hnext. reflexivity. }
  assert (forall w s, (forall t x, w (withDate t x) = w t) ->
            sumZ (map w (viewedTasks ts' s))
            = sumZ (map w (viewedTasks (tasks st) s))
              + (if decide (s = next) then 1 else 0) * sumZ (map w moved)
              - (if decide (s = sel) then 1 else 0) * sumZ (map w moved)) as Hweight.
  { intros w s Hw. rewrite Hts. unfold moved.
    apply rolled_weight; [exact Hw | exact Hne]. }
  assert (forall s, Z.of_nat (totalTasks (after s))
            = Z.of_nat (totalTasks (before s))
              + (if decide (s = next) then 1 else 0) * Z.of_nat (length moved)
              - (if decide (s = sel) then 1 else 0) * Z.of_nat (length moved))
    as Hcount.
  { intros s. unfold after, before. cbn [overloadStats totalTasks].
    rewrite <- !sumZ_ones. apply Hweight. reflexivity. }
  assert (forall s, totalMins (after s)
            = totalMins (before s)
              + (if decide (s = next) then 1 else 0) * sumZ (map estMinutes moved)
              - (if decide (s = sel) then 1 else 0) * sumZ (map estMinutes moved))
    as Hmins.
  { intros s. unfold after, before. rewrite !totalMins_sum.
    apply Hweight. reflexivity. }
  split; [| split; [| split; [| split]]].
  - rewrite Hmins. rewrite (decide_True (P := sel = sel)) by reflexivity.
    rewrite decide_False by congruence. lia.
  - rewrite Hmins. rewrite (decide_False (P := next = sel)) by exact Hne.
    rewrite decide_True by reflexivity. lia.
  - specialize (Hcount sel).
    rewrite (decide_True (P := sel = sel)) in Hcount by reflexivity.
    rewrite decide_False in Hcount by congruence. lia.
  - specialize (Hcount next).
    rewrite (decide_False (P := next = sel)) in Hcount by exact Hne.
    rewrite decide_True in Hcount by reflexivity. lia.
  - intros s Hs Hs'. unfold after, before. rewrite Hts.
    f_equal. apply rolled_other_days; assumption.
Qed.

Lemma saveReflection_moves_load_witness :
  let ts' := tasks (fst (saveReflection 1711922400000 (λ _, 0) "2024-03-31"
                           sampleForm sampleState)) in
  let moved := filter (λ t, shouldRecycle (selectedDate sampleState) sampleForm t)
                 (tasks sampleState) in
  let before := λ s, overloadStats (viewedTasks (tasks sampleState) s) in
  let after := λ s, overloadStats (viewedTasks ts' s) in
  totalMins (after (selectedDate sampleState))
  = totalMins (before (selectedDate sampleState)) - sumZ (map estMinutes moved)
  /\ totalMins (after (isoDate (nextDay (mkCivil 2024 3 31))))
     = totalMins (before (isoDate (nextDay (mkCivil 2024 3 31))))
       + sumZ (map estMinutes moved)
  /\ (totalTasks (after (selectedDate sampleState)) + length moved)%nat
     = totalTasks (before (selectedDate sampleState))
  /\ totalTasks (after (isoDate (nextDay (mkCivil 2024 3 31))))
     = (totalTasks (before (isoDate (nextDay (mkCivil 2024 3 31)))) + length moved)%nat
  /\ forall s, s <> selectedDate sampleState ->
       s <> isoDate (nextDay (mkCivil 2024 3 31)) ->
       after s = before s.
Proof.
  apply (saveReflection_moves_load 1711922400000 (λ _, 0) "2024-03-31"
           sampleForm sampleState (mkCivil 2024 3 31)).
  - vm_compute. reflexivity.
  - simpl. lia.
  - discriminate.
Defined.

(** ** Closing the day with the form as rendered *)

Lemma shouldRecycle_default_form (d completion mood notes : string)
    (overloadedChecked : bool) (viewed : list Task) (t : Task) :
  t ∈ viewed -> task_date t = d -> status t <> "Done" ->
  shouldRecycle d (submittedForm completion mood overloadedChecked notes
                     (unfinishedTasks viewed)) t = true.
Proof.
  intros Ht Hd Hs. apply shouldRecycle_true; [exact Hd | exact Hs |].
  rewrite formData_get_submitted. rewrite bool_decide_eq_true_2; [reflexivity |].
  apply list_elem_of_fmap. exists t. split; [reflexivity |].
  apply list_elem_of_filter. split; [exact Hs | exact Ht].
Qed.

(** X26: in a zone from UTC+12:00 to UTC-11:59, submitting the reflection
    form as it is rendered, with every rollover box still checked, leaves
    no unfinished task on the selected date: each of them is found on the
    next day, its date changed and nothing else, and every task still
    shown for the selected date is done. *)
Theorem close_day_clears_unfinished (now : Z) (tz : Civil -> Z) (today : string)
    (completion mood notes : string) (overloadedChecked : bool)
    (st : AppState) (d : Civil) :
  parseISODate (selectedDate st) = Some d ->
  -720 <= tz (nextDay d) < 720 ->
  d <> mkCivil 9999 12 31 ->
  let unfinished := unfinishedTasks (viewedTasks (tasks st) (selectedDate st)) in
  let fd := submittedForm completion mood overloadedChecked notes unfinished in
  let st' := fst (saveReflection now tz today fd st) in
  unfinishedTasks (viewedTasks (tasks st') (selectedDate st')) = []
  /\ Forall (λ t, status t = "Done") (viewedTasks (tasks st') (selectedDate st'))
  /\ forall t, t ∈ unfinished ->
       withDate t (isoDate (nextDay d))
       ∈ viewedTasks (tasks st') (isoDate (nextDay d)).
Proof.
  intros Hparse Hzone Hlast unfinished fd st'.
  pose proof (getNextDayStr_same_day tz _ d Hparse Hzone) as Hnext.
  pose proof (isoDate_nextDay_differs _ d Hparse Hlast) as Hne.
  assert (selectedDate st' = selectedDate st) as Hsel
    by apply selectedDate_saveReflection.
  assert (tasks st' = map (rolled (selectedDate st) fd (isoDate (nextDay d))) (tasks st))
    as Hts.
  { unfold st'. rewrite tasks_saveReflection, Hnext. reflexivity. }
  assert (Forall (λ t, status t = "Done") (viewedTasks (tasks st') (selectedDate st')))
    as Hdone.
  { apply Forall_forall. intros t' Ht'.
    apply list_elem_of_filter in Ht' as [Hd' Hin]. rewrite Hsel in Hd'.
    rewrite Hts in Hin. apply list_elem_of_fmap in Hin as (t & -> & Hin).
    unfold rolled in *.
    destruct (shouldRecycle (selectedDate st) fd t) eqn:Hrec.
    - simpl in Hd'. contradiction.
    - destruct (decide (status t = "Done")) as [Hs | Hs]; [exact Hs |].
      exfalso. unfold fd, unfinished in Hrec.
      rewrite shouldRecycle_default_form in Hrec; [discriminate | | exact Hd' | exact Hs].
      apply list_elem_of_filter. split; [exact Hd' | exact Hin]. }
  split; [| split; [exact Hdone |]].
  - apply filter_none. eapply Forall_impl; [exact Hdone |].
    intros t Hs Hn. simpl in *. contradiction.
  - intros t Ht. unfold unfinished in Ht.
    apply list_elem_of_filter in Ht as [Hs Ht].
    pose proof Ht as Hview.
    apply list_elem_of_filter in Ht as [Hd Hin].
    apply list_elem_of_filter. split; [reflexivity |].
    rewrite Hts. apply list_elem_of_fmap. exists t. split; [| exact Hin].
    unfold rolled, fd, unfinished.
    rewrite shouldRecycle_default_form; [reflexivity | exact Hview | exact Hd | exact Hs].
Qed.

Lemma close_day_clears_unfinished_witness :
  unfinishedTasks
    (viewedTasks
       (tasks (fst (saveReflection 1711922400000 (λ _, 0) "2024-03-31"
                      (submittedForm "80" "7" false "ok"
                         (unfinishedTasks (viewedTasks (tasks sampleState)
                                             (selectedDate sampleState))))
                      sampleState)))
       (selectedDate (fst (saveReflection 1711922400000 (λ _, 0) "2024-03-31"
                      (submittedForm "80" "7" false "ok"
                         (unfinishedTasks (viewedTasks (tasks sampleState)
                                             (selectedDate sampleState))))
                      sampleState)))) = [].
Proof.
  apply (close_day_clears_unfinished 1711922400000 (λ _, 0) "2024-03-31"
           "80" "7" "ok" false sampleState (mkCivil 2024 3 31)).
  - vm_compute. reflexivity.
  - simpl. lia.
  - discriminate.
Defined.
